(** * Top-holders tracker bot: a shallow embedding of [index.js] and [main.js]

    The development follows the JavaScript sources function by function;
    the two files differ in [getChainId] only (modules [Index] and [Main]).

    - JavaScript numbers are modelled by their exact value: a rational,
      an infinity or NaN.  Comparisons ([<], [>=]) and truthiness of
      IEEE doubles depend on that value only, so they are modelled
      exactly.  Operations that round (parsing, [Math.pow], division) and
      [Intl.NumberFormat] belong to the host platform and are taken as
      parameters ([Platform]).
    - A field that the sources read with a default or through a
      comparison ([value_delta_usd], [asset], [symbol], [decimals], the
      [webhooks] member of a listing) is an [option]; [None] is
      JavaScript's [undefined].  The other fields are present and have
      their JSON type.
    - Outbound HTTP calls ([fetch]) are answered by an oracle indexed by
      the number of calls made so far; an answer is either a response,
      with its [ok] flag, or a rejection (the promise rejects and the
      [await] throws).  Every call is recorded in the world.
    - The SQL tables are part of the world and their statements do not
      fail.  Delays and logging are not modelled. *)

From Stdlib Require Import QArith Lqa Ascii String.
From stdpp Require Import gmap strings list.

Local Open Scope string_scope.
Local Open Scope Z_scope.

(** ** JavaScript numbers *)

Inductive JsNum : Type :=
| NaN
| PosInf
| NegInf
| Fin (q : Q).

Definition num (z : Z) : JsNum := Fin (inject_Z z).

(** [a < b] on numbers; any comparison with NaN is false. *)
Definition js_lt (a b : JsNum) : bool :=
  match a, b with
  | NaN, _ | _, NaN => false
  | _, NegInf => false
  | NegInf, _ => true
  | PosInf, _ => false
  | Fin _, PosInf => true
  | Fin x, Fin y => negb (Qle_bool y x)
  end.

(** [a >= b] on numbers; any comparison with NaN is false. *)
Definition js_ge (a b : JsNum) : bool :=
  match a, b with
  | NaN, _ | _, NaN => false
  | _, _ => negb (js_lt a b)
  end.

(** ToBoolean on a number: [0] and NaN are falsy. *)
Definition num_truthy (a : JsNum) : bool :=
  match a with
  | NaN => false
  | Fin q => negb (Qeq_bool q 0)
  | _ => true
  end.

(** ToNumber on a possibly missing numeric field: [undefined] is NaN. *)
Definition to_number (v : option JsNum) : JsNum :=
  match v with Some n => n | None => NaN end.

(** [v || d] for a possibly missing numeric field. *)
Definition num_or (v : option JsNum) (d : JsNum) : JsNum :=
  match v with
  | Some n => if num_truthy n then n else d
  | None => d
  end.

(** [v || d] for a possibly missing string field; [""] is falsy. *)
Definition str_or (v : option string) (d : string) : string :=
  match v with
  | Some "" | None => d
  | Some s => s
  end.

(** ** Strings *)

Definition ascii_lower (c : ascii) : ascii :=
  let n := nat_of_ascii c in
  if ((65 <=? n)%nat && (n <=? 90)%nat)%bool then ascii_of_nat (n + 32) else c.

(** [s.toLowerCase()], on the ASCII letters. *)
Fixpoint toLowerCase (s : string) : string :=
  match s with
  | EmptyString => EmptyString
  | String c s' => String (ascii_lower c) (toLowerCase s')
  end.

(** ** Chain registry: [getChainId] *)

(** The value of a property read [map[key]] on an object literal whose own
    properties are numbers: an own number, a member inherited from
    [Object.prototype] (a function or an object, truthy), or [undefined]. *)
Inductive PropVal : Type :=
| POwn (n : Z)
| PInherited (name : string)
| PUndefined.

(** The members of [Object.prototype] whose names are fixed points of
    [toLowerCase]; every other member has an upper-case letter in its
    name and cannot be read through a lower-cased key. *)
Definition prototypeKeys : list string := ["constructor"; "__proto__"].

Definition propRead (own : gmap string Z) (key : string) : PropVal :=
  match own !! key with
  | Some n => POwn n
  | None => if bool_decide (key ∈ prototypeKeys) then PInherited key else PUndefined
  end.

(** What [getChainId] returns: a number, [null], or an inherited member
    passed through by [||]. *)
Inductive ChainIdResult : Type :=
| ChainNum (n : Z)
| ChainNull
| ChainObject (name : string).

Module Index.

Definition map : gmap string Z := list_to_map
  [ ("abstract", 2741); ("ancient8", 888888888); ("ape_chain", 33139);
    ("arbitrum", 42161); ("arbitrum_nova", 42170); ("avalanche_c", 43114);
    ("avalanche_fuji", 43113); ("b3", 8333); ("base", 8453);
    ("base_sepolia", 84532); ("berachain", 80094); ("blast", 81457);
    ("bnb", 56); ("bob", 60808); ("boba", 288); ("celo", 42220);
    ("corn", 21000000); ("cyber", 7560); ("degen", 666666666);
    ("ethereum", 1); ("fantom", 250); ("flare", 14); ("fraxtal", 252);
    ("gnosis", 100); ("hyper_evm", 999); ("ink", 57073); ("kaia", 8217);
    ("katana", 747474); ("linea", 59144); ("lisk", 1135); ("mantle", 5000);
    ("metis", 1088); ("mode", 34443); ("monad", 143);
    ("monad_testnet", 10143); ("omni", 166); ("opbnb", 204);
    ("optimism", 10); ("peaq", 3338); ("plasma", 9745); ("polygon", 137);
    ("polygon_amoy", 80002); ("rari", 1380012617); ("redstone", 690);
    ("ronin", 2020); ("rootstock", 30); ("scroll", 534352); ("sei", 1329);
    ("sepolia", 11155111); ("shape", 360); ("soneium", 1868);
    ("sonic", 146); ("superposition", 55244); ("superseed", 5330);
    ("swellchain", 1923); ("unichain", 130); ("wemix", 1111);
    ("world", 480); ("xai", 660279); ("zero_network", 543210);
    ("zkevm", 1101); ("zksync", 324); ("zora", 7777777) ].

(** [return map[blockchain.toLowerCase()] || null;] *)
Definition getChainId (blockchain : string) : ChainIdResult :=
  match propRead map (toLowerCase blockchain) with
  | POwn n => if bool_decide (n = 0) then ChainNull else ChainNum n
  | PInherited k => ChainObject k
  | PUndefined => ChainNull
  end.

End Index.

Module Main.

Definition map : gmap string Z := list_to_map
  [ ("ethereum", 1); ("optimism", 10); ("bnb", 56); ("polygon", 137);
    ("base", 8453); ("arbitrum", 42161); ("avalanche_c", 43114) ].

(** [return map[blockchain.toLowerCase()] || 1;] *)
Definition getChainId (blockchain : string) : ChainIdResult :=
  match propRead map (toLowerCase blockchain) with
  | POwn n => if bool_decide (n = 0) then ChainNum 1 else ChainNum n
  | PInherited k => ChainObject k
  | PUndefined => ChainNum 1
  end.

End Main.

(** [if (!chainId) continue;] in [fetchAllTopHolders]: the token is
    skipped exactly when the resolver's result is falsy. *)
Definition chainSkipped (r : ChainIdResult) : bool :=
  match r with
  | ChainNull => true
  | ChainNum n => bool_decide (n = 0)
  | ChainObject _ => false
  end.

(** ** Balance-change events *)

Record Asset : Type := {
  symbol : option string;
  decimals : option JsNum;
}.

Record BalanceChange : Type := {
  transaction_hash : string;
  direction : string;
  amount_delta : string;
  value_delta_usd : option JsNum;
  asset : option Asset;
  subscribed_address : string;
}.

(** ** Host platform

    The operations of the JavaScript runtime that round or format
    numbers. *)
Record Platform : Type := {
  parseFloat : string -> JsNum;
  Math_pow : JsNum -> JsNum -> JsNum;
  num_div : JsNum -> JsNum -> JsNum;
  formatNumber : JsNum -> string;
}.

(** ** String helpers of the formatter *)

Definition nl : string := String (ascii_of_nat 10) EmptyString.

(** [s.repeat(n)] *)
Fixpoint str_repeat (s : string) (n : nat) : string :=
  match n with
  | O => ""
  | S n' => s ++ str_repeat s n'
  end.

Definition is_space (c : ascii) : bool :=
  let n := nat_of_ascii c in
  ((n =? 32)%nat || ((9 <=? n)%nat && (n <=? 13)%nat))%bool.

Fixpoint trimStart (s : string) : string :=
  match s with
  | String c s' => if is_space c then trimStart s' else s
  | EmptyString => EmptyString
  end.

Fixpoint trimEnd (s : string) : string :=
  match s with
  | EmptyString => EmptyString
  | String c s' =>
      match trimEnd s' with
      | EmptyString => if is_space c then EmptyString else String c EmptyString
      | t => String c t
      end
  end.

(** [s.trim()], on ASCII white space. *)
Definition trim (s : string) : string := trimEnd (trimStart s).

(** [s.slice(0, n)] *)
Definition slice_head (n : nat) (s : string) : string := substring 0 n s.

(** [s.slice(-n)] *)
Definition slice_tail (n : nat) (s : string) : string :=
  substring (String.length s - n) n s.

(** ** Alert formatter *)

Definition explorers : gmap Z string := list_to_map
  [ (1, "https://etherscan.io/tx/");
    (10, "https://optimistic.etherscan.io/tx/");
    (56, "https://bscscan.com/tx/");
    (137, "https://polygonscan.com/tx/");
    (8453, "https://basescan.org/tx/");
    (42161, "https://arbiscan.io/tx/");
    (43114, "https://snowtrace.io/tx/") ].

(** [chainId] is what [parseInt] returned: an integer, or NaN ([None]). *)
Definition getExplorerLink (txHash : string) (chainId : option Z) : string :=
  let base :=
    match chainId ≫= (fun c => explorers !! c) with
    | Some u => u
    | None => default "" (explorers !! 1)
    end in
  base ++ txHash.

(** [const usdValue = change.value_delta_usd || 0;] *)
Definition usdValueOf (change : BalanceChange) : JsNum :=
  num_or (value_delta_usd change) (num 0).

(** [const symbol = change.asset?.symbol || "???";] *)
Definition symbolOf (change : BalanceChange) : string :=
  str_or (asset change ≫= symbol) "???".

(** [const decimals = change.asset?.decimals || 18;] *)
Definition decimalsOf (change : BalanceChange) : JsNum :=
  num_or (asset change ≫= decimals) (num 18).

(** The [if / else if] cascade that sets [emojiCount]. *)
Definition emojiCountOf (usdValue : JsNum) : nat :=
  if js_ge usdValue (num 10000000) then 5%nat
  else if js_ge usdValue (num 1000000) then 4%nat
  else if js_ge usdValue (num 500000) then 3%nat
  else if js_ge usdValue (num 100000) then 2%nat
  else 1%nat.

Definition siren : string := "🚨".
Definition inbox : string := "📥".
Definition outbox : string := "📤".

Section Formatter.

Variable P : Platform.

(** [parseFloat(change.amount_delta) / Math.pow(10, decimals)] *)
Definition amountOf (change : BalanceChange) : JsNum :=
  let rawAmount := parseFloat P (amount_delta change) in
  num_div P rawAmount (Math_pow P (num 10) (decimalsOf change)).

Definition formatBalanceMessage (change : BalanceChange) (chainId : option Z) : string :=
  let usdValue := usdValueOf change in
  let symbol := symbolOf change in
  let direction := direction change in
  let amount := amountOf change in
  let emojiCount := emojiCountOf usdValue in
  let emoji := trim (str_repeat (siren ++ " ") emojiCount) in
  let directionEmoji := if bool_decide (direction = "in") then inbox else outbox in
  let directionText := if bool_decide (direction = "in") then "received" else "sent" in
  let holder := subscribed_address change in
  let holderShort := slice_head 6 holder ++ "..." ++ slice_tail 4 holder in
  let txLink := getExplorerLink (transaction_hash change) chainId in
  emoji ++ " " ++ directionEmoji ++ " *" ++ formatNumber P amount ++ " " ++ symbol
    ++ "* ($" ++ formatNumber P usdValue ++ ") " ++ directionText ++ nl ++ nl
    ++ "Holder: `" ++ holderShort ++ "`" ++ nl ++ nl
    ++ "[View Transaction](" ++ txLink ++ ") · Powered by [Sim APIs](https://sim.dune.com)".

End Formatter.

(** ** Outbound calls, stored tables and the handler monad *)

Record Webhook : Type := {
  id : string;
  active : bool;
}.

Inductive Request : Type :=
| TelegramSend (chat_id text : string)
| ListWebhooks (limit offset : Z)
| PatchWebhook (webhookId : string) (target : bool).

Record Response : Type := {
  ok : bool;
  webhooks_field : option (list Webhook);
}.

(** What [await fetch(...)] produces: the promise rejects (network-level
    failure) or resolves to a response, whose [ok] is false on a non-2xx
    status. *)
Inductive FetchOutcome : Type :=
| Rejected (message : string)
| Responded (r : Response).

(** The remote side: the answer to the [k]-th outbound call. *)
Definition Network : Type := nat -> Request -> FetchOutcome.

(** A row of the local [webhooks] table, keyed by [id]. *)
Record MirrorRow : Type := {
  token_address : string;
  chain_id : Z;
  row_active : Z;
}.

Record World : Type := {
  subscribers : list string;
  webhooks : gmap string MirrorRow;
  requests : list Request;
}.

Inductive Outcome (A : Type) : Type :=
| Val (a : A)
| Exn (message : string).
Arguments Val {A} a.
Arguments Exn {A} message.

Definition M (A : Type) : Type := World -> Outcome A * World.

Definition ret {A} (a : A) : M A := fun w => (Val a, w).

Definition bind {A B} (m : M A) (k : A -> M B) : M B :=
  fun w =>
    match m w with
    | (Val a, w') => k a w'
    | (Exn e, w') => (Exn e, w')
    end.

Notation "'await' x <- m ; k" := (bind m (fun x => k))
  (at level 10, x name, m at level 100, k at level 200).
Notation "'perform' m ; k" := (bind m (fun _ => k))
  (at level 10, m at level 100, k at level 200).

(** [try { m } catch (error) { h(error.message) }] *)
Definition tryCatch {A} (m : M A) (h : string -> M A) : M A :=
  fun w =>
    match m w with
    | (Val a, w') => (Val a, w')
    | (Exn e, w') => h e w'
    end.

(** [for (const x of l) { acc = body(acc, x) }] *)
Fixpoint foldM {A S} (body : S -> A -> M S) (acc : S) (l : list A) : M S :=
  match l with
  | [] => ret acc
  | x :: l' => await acc' <- body acc x ; foldM body acc' l'
  end.

Definition logRequest (req : Request) (w : World) : World :=
  {| subscribers := subscribers w;
     webhooks := webhooks w;
     requests := requests w ++ [req] |}.

Definition setMirrorActive (v : Z) (r : MirrorRow) : MirrorRow :=
  {| token_address := token_address r; chain_id := chain_id r; row_active := v |}.

(** [UPDATE webhooks SET active = v WHERE id = webhookId]: the row of
    that id, if there is one, is changed; no row is created. *)
Definition sqlUpdateActive (v : Z) (webhookId : string) : M unit :=
  fun w =>
    (Val tt,
     {| subscribers := subscribers w;
        webhooks := alter (setMirrorActive v) webhookId (webhooks w);
        requests := requests w |}).

(** The replies the handlers of interest send. *)
Inductive Reply : Type :=
| ReplyProcessed (processed : nat)
| ReplyPaused (paused skipped failed total : nat)
| ReplyResumed (resumed skipped failed total : nat)
| ReplyError500 (message : string).

Record Counters : Type := {
  changed : nat;
  skipped : nat;
  failed : nat;
}.

Definition limit : Z := 300.
Definition maxIterations : nat := 50.

(** The inner [for (const wh of webhooks)] of [listAllWebhooks]. *)
Fixpoint collectNew (page : list Webhook) (seenIds : gset string)
    (allWebhooks : list Webhook) (newCount : nat)
    : gset string * list Webhook * nat :=
  match page with
  | [] => (seenIds, allWebhooks, newCount)
  | wh :: page' =>
      if bool_decide (id wh ∈ seenIds)
      then collectNew page' seenIds allWebhooks newCount
      else collectNew page' ({[id wh]} ∪ seenIds) (allWebhooks ++ [wh]) (S newCount)
  end.

Section Handlers.

Variable P : Platform.
Variable net : Network.

(** [await fetch(url, ...)]: the call is recorded and answered by the
    network. *)
Definition fetch (req : Request) : M Response :=
  fun w =>
    match net (length (requests w)) req with
    | Rejected e => (Exn e, logRequest req w)
    | Responded r => (Val r, logRequest req w)
    end.

Definition getAllSubscribers : M (list string) :=
  fun w => (Val (subscribers w), w).

Definition sendTelegramMessage (text chatId : string) : M bool :=
  await response <- fetch (TelegramSend chatId text) ;
  ret (ok response).

Definition broadcastToSubscribers (text : string) : M unit :=
  await subs <- getAllSubscribers ;
  foldM (fun (_ : unit) chatId => perform sendTelegramMessage text chatId ; ret tt) tt subs.

(** The body of [for (const change of balanceChanges)]. *)
Definition balancesStep (chainId : option Z) (processedTxs : gset string)
    (change : BalanceChange) : M (gset string) :=
  if bool_decide (transaction_hash change ∈ processedTxs) then ret processedTxs
  else
    let processedTxs' := {[transaction_hash change]} ∪ processedTxs in
    if js_lt (to_number (value_delta_usd change)) (num 100) then ret processedTxs'
    else
      let message := formatBalanceMessage P change chainId in
      perform broadcastToSubscribers message ;
      ret processedTxs'.

(** [app.post("/balances", ...)]; the handler has no [try]. *)
Definition postBalances (balanceChanges : list BalanceChange) (chainId : option Z)
    : M Reply :=
  await processedTxs <- foldM (balancesStep chainId) ∅ balanceChanges ;
  ret (ReplyProcessed (size processedTxs)).

(** The [while (iterations < maxIterations)] of [listAllWebhooks];
    [remaining] is [maxIterations - iterations]. *)
Fixpoint listLoop (remaining : nat) (allWebhooks : list Webhook)
    (seenIds : gset string) (offset : Z) : M (list Webhook) :=
  match remaining with
  | O => ret allWebhooks
  | S remaining' =>
      await response <- fetch (ListWebhooks limit offset) ;
      if negb (ok response) then ret allWebhooks
      else
        let page := default [] (webhooks_field response) in
        if (length page =? 0)%nat then ret allWebhooks
        else
          let '(seenIds', allWebhooks', newCount) :=
            collectNew page seenIds allWebhooks 0 in
          if (newCount =? 0)%nat then ret allWebhooks'
          else if (Z.of_nat (length page) <? limit) then ret allWebhooks'
          else listLoop remaining' allWebhooks' seenIds' (offset + limit)
  end.

Definition listAllWebhooks : M (list Webhook) :=
  listLoop maxIterations [] ∅ 0.

Definition updateWebhookStatus (webhookId : string) (target : bool) : M bool :=
  await response <- fetch (PatchWebhook webhookId target) ;
  ret (ok response).

(** The body of [for (const webhook of allWebhooks)] in the pause
    ([target = false]) and resume ([target = true]) handlers. *)
Definition toggleStep (target : bool) (c : Counters) (webhook : Webhook) : M Counters :=
  if bool_decide (active webhook = target) then
    ret {| changed := changed c; skipped := S (skipped c); failed := failed c |}
  else
    await success <- updateWebhookStatus (id webhook) target ;
    if success then
      perform sqlUpdateActive (if target then 1 else 0) (id webhook) ;
      ret {| changed := S (changed c); skipped := skipped c; failed := failed c |}
    else
      ret {| changed := changed c; skipped := skipped c; failed := S (failed c) |}.

Definition toggleAll (target : bool) (mk : nat -> nat -> nat -> nat -> Reply) : M Reply :=
  tryCatch
    (await allWebhooks <- listAllWebhooks ;
     await c <- foldM (toggleStep target) {| changed := 0; skipped := 0; failed := 0 |}
            allWebhooks ;
     ret (mk (changed c) (skipped c) (failed c) (length allWebhooks)))
    (fun message => ret (ReplyError500 message)).

(** [app.post("/setup/pause-webhooks", ...)] *)
Definition postPauseWebhooks : M Reply := toggleAll false ReplyPaused.

(** [app.post("/setup/resume-webhooks", ...)] *)
Definition postResumeWebhooks : M Reply := toggleAll true ReplyResumed.

End Handlers.

(** ** An exact-arithmetic platform for running the model on examples

    Integer amount strings, natural exponents and exact rational division;
    numbers are printed the way [Intl.NumberFormat("en-US")] prints them
    with at most two fraction digits.  The theorems below hold for every
    [Platform]; this one only instantiates them. *)

Fixpoint parseDigits (s : string) (acc : Z) : option Z :=
  match s with
  | EmptyString => Some acc
  | String c s' =>
      let n := nat_of_ascii c in
      if ((48 <=? n)%nat && (n <=? 57)%nat)%bool
      then parseDigits s' (10 * acc + Z.of_nat (n - 48))
      else None
  end.

Definition exact_parseFloat (s : string) : JsNum :=
  match s with
  | EmptyString => NaN
  | String "-" EmptyString => NaN
  | String "-" s' => from_option (fun z => num (- z)) NaN (parseDigits s' 0)
  | _ => from_option num NaN (parseDigits s 0)
  end.

Definition exact_pow (b e : JsNum) : JsNum :=
  match b, e with
  | Fin x, Fin y =>
      let y' := Qred y in
      if bool_decide (Qden y' = 1%positive ∧ 0 ≤ Qnum y')
      then Fin (Qred (Qpower x (Qnum y')))
      else NaN
  | _, _ => NaN
  end.

Definition exact_div (a b : JsNum) : JsNum :=
  match a, b with
  | Fin x, Fin y =>
      if Qeq_bool y 0 then
        (if Qeq_bool x 0 then NaN else if Qle_bool 0 x then PosInf else NegInf)
      else Fin (Qred (x / y))
  | Fin _, (PosInf | NegInf) => num 0
  | _, _ => NaN
  end.

(** Decimal digits of a natural number, least significant first. *)
Fixpoint digitsRev (fuel : nat) (n : N) : list ascii :=
  match fuel with
  | O => []
  | S fuel' =>
      let d := ascii_of_N (48 + n mod 10)%N in
      if (n <? 10)%N then [d] else d :: digitsRev fuel' (n / 10)%N
  end.

Fixpoint groupRev (ds : list ascii) : list ascii :=
  match ds with
  | a :: b :: c :: ((_ :: _) as rest) => a :: b :: c :: ","%char :: groupRev rest
  | _ => ds
  end.

Definition grouped (n : N) : string :=
  string_of_list_ascii (rev (groupRev (digitsRev (S (N.to_nat (N.log2 n))) n))).

Definition exact_formatNumber (a : JsNum) : string :=
  match a with
  | NaN => "NaN"
  | PosInf => "∞"
  | NegInf => "-∞"
  | Fin q =>
      let cents := Z.to_N ((2 * Z.abs (Qnum q) * 100 + Zpos (Qden q)) / (2 * Zpos (Qden q))) in
      let whole := (cents / 100)%N in
      let frac := (cents mod 100)%N in
      let d1 := String (ascii_of_N (48 + frac / 10)%N) EmptyString in
      let d2 := String (ascii_of_N (48 + frac mod 10)%N) EmptyString in
      (if Qle_bool 0 q then "" else "-") ++ grouped whole ++
      (if (frac =? 0)%N then ""
       else if (frac mod 10 =? 0)%N then "." ++ d1
       else "." ++ d1 ++ d2)
  end.

Definition exactPlatform : Platform :=
  {| parseFloat := exact_parseFloat;
     Math_pow := exact_pow;
     num_div := exact_div;
     formatNumber := exact_formatNumber |}.

(** The event of the end-to-end example. *)
Definition fooChange : BalanceChange :=
  {| transaction_hash := "0x1";
     direction := "in";
     amount_delta := "1000000000000000000";
     value_delta_usd := Some (num 250000);
     asset := Some {| symbol := Some "FOO"; decimals := Some (num 18) |};
     subscribed_address := "0xdeadbeef00000000000000000000000000000001" |}.

(** ** Specification-side definitions *)

(** The tier table of the severity prefix, as the specification words it. *)
Definition severityTier (q : Q) : nat :=
  if Qlt_le_dec q 100000 then 1%nat
  else if Qlt_le_dec q 500000 then 2%nat
  else if Qlt_le_dec q 1000000 then 3%nat
  else if Qlt_le_dec q 10000000 then 4%nat
  else 5%nat.


(** The distinct transaction hashes of a batch. *)
Definition distinctHashes (batch : list BalanceChange) : list string :=
  remove_dups (transaction_hash <$> batch).

Definition isTelegram (req : Request) : bool :=
  match req with TelegramSend _ _ => true | _ => false end.

Definition isList (req : Request) : bool :=
  match req with ListWebhooks _ _ => true | _ => false end.

Definition isPatch (req : Request) : bool :=
  match req with PatchWebhook _ _ => true | _ => false end.

(** The network answers every call of the selected kind with a response
    (of any status): none of them is rejected. *)
Definition responds (net : Network) (sel : Request -> bool) : Prop :=
  forall k req, sel req = true -> exists r, net k req = Responded r.

(** The world after the outbound calls [reqs] were made. *)
Definition addRequests (reqs : list Request) (w : World) : World :=
  {| subscribers := subscribers w;
     webhooks := webhooks w;
     requests := requests w ++ reqs |}.

(** ** Example inputs *)

(** A token with zero decimals, five units moved. *)
Definition zeroDecimalsChange : BalanceChange :=
  {| transaction_hash := "0x2";
     direction := "out";
     amount_delta := "5";
     value_delta_usd := Some (num 1000);
     asset := Some {| symbol := Some "NFT"; decimals := Some (num 0) |};
     subscribed_address := "0xdeadbeef00000000000000000000000000000001" |}.

Definition withUsd (h : string) (usd : option JsNum) : BalanceChange :=
  {| transaction_hash := h;
     direction := "in";
     amount_delta := "1000000000000000000";
     value_delta_usd := usd;
     asset := Some {| symbol := Some "FOO"; decimals := Some (num 18) |};
     subscribed_address := "0xdeadbeef00000000000000000000000000000001" |}.

Definition sampleBatch : list BalanceChange :=
  [ withUsd "0xa" (Some (num 50)); withUsd "0xa" (Some (num 500)); fooChange ].

Definition world0 : World :=
  {| subscribers := ["1001"; "1002"]; webhooks := ∅; requests := [] |}.

(** Every call is answered with a non-2xx response. *)
Definition netRefusing : Network :=
  fun _ _ => Responded {| ok := false; webhooks_field := None |}.

(** Every call is answered with a 2xx response without a body. *)
Definition netAccepting : Network :=
  fun _ _ => Responded {| ok := true; webhooks_field := None |}.

(** A page deduplicated by id: the first webhook of each id, in page
    order. *)
Fixpoint dedupById (l : list Webhook) : list Webhook :=
  match l with
  | [] => []
  | wh :: l' => wh :: filter (fun x => id x ≠ id wh) (dedupById l')
  end.

(** A registry that ignores [offset] (and the call number): every listing
    request is answered with the same page. *)
Definition netSamePage (page : list Webhook) : Network :=
  fun _ _ => Responded {| ok := true; webhooks_field := Some page |}.

Definition whA : Webhook := {| id := "wh-a"; active := true |}.
Definition whA' : Webhook := {| id := "wh-a"; active := false |}.
Definition whB : Webhook := {| id := "wh-b"; active := false |}.

(** The webhooks a pause/resume run has to update. *)
Definition todo (target : bool) (ws : list Webhook) : list Webhook :=
  filter (fun wh => active wh ≠ target) ws.

(** The answers to the update calls of a run that starts at call [k]. *)
Fixpoint patchAnswers (net : Network) (target : bool) (k : nat) (ws : list Webhook)
    : list FetchOutcome :=
  match ws with
  | [] => []
  | wh :: ws' => net k (PatchWebhook (id wh) target) :: patchAnswers net target (S k) ws'
  end.

(** A response with a 2xx status. *)
Definition accepted (a : FetchOutcome) : bool :=
  match a with Responded r => ok r | Rejected _ => false end.

(** A response with a non-2xx status. *)
Definition refused (a : FetchOutcome) : bool :=
  match a with Responded r => negb (ok r) | Rejected _ => false end.

Definition countIf {A} (f : A -> bool) (l : list A) : nat :=
  length (List.filter f l).

(** The world after a successful update of [webhookId]. *)
Definition afterUpdate (target : bool) (webhookId : string) (w : World) : World :=
  {| subscribers := subscribers w;
     webhooks := alter (setMirrorActive (if target then 1 else 0)) webhookId (webhooks w);
     requests := requests w ++ [PatchWebhook webhookId target] |}.

Definition whC : Webhook := {| id := "wh-c"; active := true |}.

(** The listing succeeds; the update of ["wh-a"] is rejected at the
    network level, any other update would be accepted. *)
Definition netPatchRejected : Network :=
  fun _ req =>
    match req with
    | ListWebhooks _ _ => Responded {| ok := true; webhooks_field := Some [whA; whC] |}
    | PatchWebhook webhookId _ =>
        if String.eqb webhookId "wh-a" then Rejected "fetch failed"
        else Responded {| ok := true; webhooks_field := None |}
    | TelegramSend _ _ => Responded {| ok := true; webhooks_field := None |}
    end.

(** The listing succeeds; the update of ["wh-a"] is answered with a
    non-2xx status, any other update is accepted. *)
Definition netPatchRefused : Network :=
  fun _ req =>
    match req with
    | ListWebhooks _ _ => Responded {| ok := true; webhooks_field := Some [whA; whC] |}
    | PatchWebhook webhookId _ =>
        Responded {| ok := negb (String.eqb webhookId "wh-a"); webhooks_field := None |}
    | TelegramSend _ _ => Responded {| ok := true; webhooks_field := None |}
    end.

(** A registry that honours updates, seen over two resume runs: the first
    listing reports ["wh-b"] inactive, its update is accepted, and the
    second listing reports it active. *)
Definition netTwice : Network :=
  fun k req =>
    match k, req with
    | 0%nat, ListWebhooks _ _ =>
        Responded {| ok := true; webhooks_field := Some [whB; whA] |}
    | _, ListWebhooks _ _ =>
        Responded {| ok := true;
                     webhooks_field := Some [{| id := "wh-b"; active := true |}; whA] |}
    | _, _ => Responded {| ok := true; webhooks_field := None |}
    end.

Definition worldMirror : World :=
  {| subscribers := [];
     webhooks := {[ "wh-b" := {| token_address := "0xabc"; chain_id := 1; row_active := 0 |} ]};
     requests := [] |}.

(** ** The remaining handlers *)

(** The replies of the handlers below. *)
Inductive SetupReply : Type :=
| ReplyOk
| ReplyView (total activeCount inactiveCount : nat) (listed : list Webhook)
| ReplyLocalResumed (resumed failed total : nat)
| ReplyCreated (webhooksCreated : nat) (webhookIds : list string)
| ReplySetupError500 (message : string).

(** The [message] member of a Telegram update; [msg_chat] is
    [message.chat.id.toString()]. *)
Record TelegramMessage : Type := {
  msg_text : option string;
  msg_chat : string;
}.

Record TelegramUpdate : Type := {
  upd_message : option TelegramMessage;
}.

Definition welcomeText : string :=
  "📊 *Welcome to Top Holders Tracker!*" ++ nl ++ nl ++
  "You're now subscribed to top holder alerts." ++ nl ++ nl ++
  "Commands:" ++ nl ++ "/start - Subscribe" ++ nl ++ "/status - Check subscription".

Definition subscribedText : string := "✅ You're subscribed to top holder alerts!".
Definition notSubscribedText : string := "❌ Not subscribed. Send /start to subscribe.".

(** [INSERT INTO subscribers (chat_id, subscribed_at) ... ON CONFLICT
    (chat_id) DO NOTHING]; the table is modelled by its [chat_id] column,
    the only one that is read. *)
Definition addSubscriber (chatId : string) : M unit :=
  fun w =>
    (Val tt,
     if bool_decide (chatId ∈ subscribers w) then w
     else {| subscribers := subscribers w ++ [chatId];
             webhooks := webhooks w;
             requests := requests w |}).

(** [SELECT id FROM webhooks]: the ids of the mirror rows, in the order
    the table yields them. *)
Definition selectWebhookIds : M (list string) :=
  fun w => (Val ((map_to_list (webhooks w)).*1), w).

(** [INSERT INTO webhooks (id, token_address, chain_id) VALUES (...)
    ON CONFLICT (id) DO UPDATE SET token_address = ..., chain_id = ...];
    a new row takes the column default [active = 1]. *)
Definition sqlUpsertWebhook (webhookId tokenAddress : string) (chainId : Z) : M unit :=
  fun w =>
    let row :=
      match webhooks w !! webhookId with
      | Some r => {| token_address := tokenAddress; chain_id := chainId;
                     row_active := row_active r |}
      | None => {| token_address := tokenAddress; chain_id := chainId; row_active := 1 |}
      end in
    (Val tt,
     {| subscribers := subscribers w;
        webhooks := <[webhookId := row]> (webhooks w);
        requests := requests w |}).

(** A holder as stored in [holders_json]. *)
Record Holder : Type := {
  wallet_address : option string;
}.

(** A row of [top_holders]; [th_holders] is [JSON.parse(row.holders_json)]. *)
Record TopHolderRow : Type := {
  th_token_address : string;
  th_chain_id : Z;
  th_symbol : string;
  th_blockchain : string;
  th_holders : list Holder;
}.

(** The body of the [POST] that registers a webhook. *)
Record WebhookConfig : Type := {
  cfg_name : string;
  cfg_url : string;
  cfg_type : string;
  cfg_addresses : list string;
  cfg_chain_ids : list Z;
  cfg_token_address : string;
}.

(** The answer to a registration call: the promise rejects, or resolves
    to a response with its [ok] flag, its text (read when not [ok]) and
    the [id] member of its JSON body (read when [ok]). *)
Inductive CreateOutcome : Type :=
| CreateRejected (message : string)
| CreateResponded (created_ok : bool) (errorText : string) (webhookId : option string).

(** The answer to the [k]-th registration call.  Registration calls are
    answered by this oracle of their own and are not entered in the
    [requests] of the world. *)
Definition CreateApi : Type := nat -> WebhookConfig -> CreateOutcome.

(** [holders.map((h) => h.wallet_address).filter(Boolean)] *)
Definition usableAddresses (holders : list Holder) : list string :=
  omap (fun h => match wallet_address h with
                 | Some "" | None => None
                 | Some a => Some a
                 end) holders.

Record LocalCounters : Type := {
  resumedLocal : nat;
  failedLocal : nat;
}.

Section MoreHandlers.

Variable net : Network.

(** [app.post("/telegram/webhook", ...)]; the handler has no [try]. *)
Definition postTelegramWebhook (body : TelegramUpdate) : M SetupReply :=
  perform
    (match upd_message body with
     | Some message =>
         match msg_text message with
         | Some (String _ _ as text) =>
             let chatId := msg_chat message in
             if String.prefix "/start" text then
               perform addSubscriber chatId ;
               perform sendTelegramMessage net welcomeText chatId ;
               ret tt
             else if String.prefix "/status" text then
               await subs <- getAllSubscribers ;
               let isSubscribed := bool_decide (chatId ∈ subs) in
               perform sendTelegramMessage net
                 (if isSubscribed then subscribedText else notSubscribedText) chatId ;
               ret tt
             else ret tt
         | _ => ret tt
         end
     | None => ret tt
     end) ;
  ret ReplyOk.

(** [app.get("/setup/view-webhooks", ...)] *)
Definition getViewWebhooks : M SetupReply :=
  tryCatch
    (await listed <- listAllWebhooks net ;
     let activeCount := length (List.filter active listed) in
     let inactiveCount := (length listed - activeCount)%nat in
     ret (ReplyView (length listed) activeCount inactiveCount listed))
    (fun message => ret (ReplySetupError500 message)).

(** The body of [for (const webhook of localWebhooks)]. *)
Definition resumeLocalStep (c : LocalCounters) (webhookId : string) : M LocalCounters :=
  await success <- updateWebhookStatus net webhookId true ;
  if success then
    perform sqlUpdateActive 1 webhookId ;
    ret {| resumedLocal := S (resumedLocal c); failedLocal := failedLocal c |}
  else
    ret {| resumedLocal := resumedLocal c; failedLocal := S (failedLocal c) |}.

(** [app.post("/setup/resume-local-webhooks", ...)] *)
Definition postResumeLocalWebhooks : M SetupReply :=
  tryCatch
    (await localWebhooks <- selectWebhookIds ;
     await c <- foldM resumeLocalStep {| resumedLocal := 0; failedLocal := 0 |}
            localWebhooks ;
     ret (ReplyLocalResumed (resumedLocal c) (failedLocal c) (length localWebhooks)))
    (fun message => ret (ReplySetupError500 message)).

End MoreHandlers.

Section CreateWebhooks.

Variable WEBHOOK_BASE_URL : string.
Variable api : CreateApi.

(** [createWebhook(config)], as the [k]-th registration call; what is
    returned is the [id] member of the JSON body. *)
Definition createWebhook (k : nat) (config : WebhookConfig) : M (option string) :=
  fun w =>
    match api k config with
    | CreateRejected e => (Exn e, w)
    | CreateResponded false errorText _ =>
        (Exn ("Failed to create webhook: " ++ errorText), w)
    | CreateResponded true _ webhookId => (Val webhookId, w)
    end.

(** The body of [for (const row of rows)]; the state is the number of
    registration calls made so far and [webhookIds]. *)
Definition createStep (st : nat * list string) (row : TopHolderRow)
    : M (nat * list string) :=
  let addresses := usableAddresses (th_holders row) in
  if (length addresses =? 0)%nat then ret st
  else
    await webhook <- createWebhook (fst st)
      {| cfg_name := "Top Holders Tracker - " ++ th_symbol row ++ " on " ++ th_blockchain row;
         cfg_url := WEBHOOK_BASE_URL ++ "/balances";
         cfg_type := "balances";
         cfg_addresses := addresses;
         cfg_chain_ids := [th_chain_id row];
         cfg_token_address := th_token_address row |} ;
    match webhook with
    | Some (String _ _ as webhookId) =>
        perform sqlUpsertWebhook webhookId (th_token_address row) (th_chain_id row) ;
        ret (S (fst st), (snd st ++ [webhookId])%list)
    | _ => ret (S (fst st), snd st)
    end.

(** [createWebhooksForTopHolders()], on the rows that
    [SELECT * FROM top_holders] returned. *)
Definition createWebhooksForTopHolders (rows : list TopHolderRow) : M (nat * list string) :=
  await st <- foldM createStep (0%nat, []) rows ;
  ret (length (snd st), snd st).

(** [app.post("/setup/create-webhooks", ...)] *)
Definition postCreateWebhooks (rows : list TopHolderRow) : M SetupReply :=
  tryCatch
    (await result <- createWebhooksForTopHolders rows ;
     ret (ReplyCreated (fst result) (snd result)))
    (fun message => ret (ReplySetupError500 message)).

End CreateWebhooks.

(** ** Further specification-side definitions *)

(** The first element of each key, in list order. *)
Fixpoint firstBy {A} (key : A -> string) (l : list A) : list A :=
  match l with
  | [] => []
  | a :: l' => a :: filter (fun x => key x ≠ key a) (firstBy key l')
  end.

(** The event passes the materiality test of [/balances]. *)
Definition material (change : BalanceChange) : bool :=
  negb (js_lt (to_number (value_delta_usd change)) (num 100)).

(** The events of a batch that are alerted: the first event of each
    transaction hash, when it is material. *)
Definition alerted (batch : list BalanceChange) : list BalanceChange :=
  List.filter material (firstBy transaction_hash batch).

(** The sends of one alert. *)
Definition sendsOf (P : Platform) (chainId : option Z) (subs : list string)
    (change : BalanceChange) : list Request :=
  map (fun c => TelegramSend c (formatBalanceMessage P change chainId)) subs.

(** A registry that honours [limit] and [offset] over a fixed list. *)
Definition netPaged (all : list Webhook) : Network :=
  fun _ req =>
    match req with
    | ListWebhooks lim off =>
        Responded {| ok := true;
                     webhooks_field := Some (take (Z.to_nat lim) (drop (Z.to_nat off) all)) |}
    | _ => Responded {| ok := true; webhooks_field := None |}
    end.

(** The mirror with the bookkeeping columns only. *)
Definition mirrorKeys (m : gmap string MirrorRow) : gmap string (string * Z) :=
  (fun r => (token_address r, chain_id r)) <$> m.

(** [n] sirens separated by single spaces. *)
Definition sirens (n : nat) : string := String.concat " " (replicate n siren).

(** Between two worlds the subscriber table is the same and every mirror
    row is either unchanged or has had its [active] column set to [v]:
    no row was added or removed. *)
Definition mirrorOnlyActive (v : Z) (w w' : World) : Prop :=
  subscribers w' = subscribers w /\
  forall k,
    webhooks w' !! k = webhooks w !! k \/
    exists r, webhooks w !! k = Some r /\ webhooks w' !! k = Some (setMirrorActive v r).

(** Every update call is answered with a 2xx status. *)
Definition acceptsPatches (net : Network) : Prop :=
  forall k webhookId target,
    exists r, net k (PatchWebhook webhookId target) = Responded r /\ ok r = true.

(** Every registration call is answered with a 2xx status. *)
Definition acceptsCreates (api : CreateApi) : Prop :=
  forall k config,
    exists errorText webhookId, api k config = CreateResponded true errorText webhookId.

Definition rowA : TopHolderRow :=
  {| th_token_address := "0xabc"; th_chain_id := 1; th_symbol := "FOO";
     th_blockchain := "ethereum";
     th_holders := [ {| wallet_address := Some "0xdeadbeef00000000000000000000000000000001" |};
                     {| wallet_address := None |} ] |}.

Definition rowNoHolders : TopHolderRow :=
  {| th_token_address := "0xdef"; th_chain_id := 8453; th_symbol := "BAR";
     th_blockchain := "base";
     th_holders := [ {| wallet_address := Some "" |} ] |}.

(** Every registration is accepted and named after its token. *)
Definition apiAccepting : CreateApi :=
  fun _ config => CreateResponded true "" (Some ("wh-" ++ cfg_token_address config)).

(** Every registration is answered with a non-2xx status. *)
Definition apiRefusing : CreateApi :=
  fun _ _ => CreateResponded false "quota exceeded" None.


(** The row has at least one usable holder address. *)
Definition hasAddresses (row : TopHolderRow) : bool :=
  negb (length (usableAddresses (th_holders row)) =? 0)%nat.

(** The name is made of ASCII characters only.  On such names
    [toLowerCase] above is [String.prototype.toLowerCase]. *)
Fixpoint isAscii (s : string) : bool :=
  match s with
  | EmptyString => true
  | String c s' => ((nat_of_ascii c <? 128)%nat && isAscii s')%bool
  end.

(** The ids whose update call was accepted, in a run that starts at call
    [k] and has [ws] to update. *)
Fixpoint acceptedIds (net : Network) (target : bool) (k : nat) (ws : list Webhook)
    : list string :=
  match ws with
  | [] => []
  | wh :: ws' =>
      if accepted (net k (PatchWebhook (id wh) target))
      then id wh :: acceptedIds net target (S k) ws'
      else acceptedIds net target (S k) ws'
  end.

(** * Properties *)

#[local] Set Warnings "-clear-no-such-hyp".

(** ** Comparisons *)

Lemma js_ge_Fin (q c : Q) : js_ge (Fin q) (Fin c) = true <-> (c <= q)%Q.
Proof.
  unfold js_ge, js_lt. rewrite negb_involutive. apply Qle_bool_iff.
Qed.

Lemma js_ge_Fin_false (q c : Q) : js_ge (Fin q) (Fin c) = false <-> (q < c)%Q.
Proof.
  rewrite <- not_true_iff_false, js_ge_Fin. split; [apply Qnot_le_lt | apply Qlt_not_le].
Qed.

Lemma js_lt_Fin (q c : Q) : js_lt (Fin q) (Fin c) = true <-> (q < c)%Q.
Proof.
  unfold js_lt. rewrite negb_true_iff, <- not_true_iff_false, Qle_bool_iff.
  split; [apply Qnot_le_lt | apply Qlt_not_le].
Qed.

Lemma js_lt_Fin_false (q c : Q) : js_lt (Fin q) (Fin c) = false <-> (c <= q)%Q.
Proof.
  unfold js_lt. rewrite negb_false_iff. apply Qle_bool_iff.
Qed.

(** ** Chain registry *)

Lemma index_getChainId_unknown (name : string) :
  Index.map !! toLowerCase name = None ->
  toLowerCase name ∉ prototypeKeys ->
  Index.getChainId name = ChainNull.
Proof.
  intros Hmap Hproto. unfold Index.getChainId, propRead. rewrite Hmap.
  rewrite bool_decide_eq_false_2 by exact Hproto. reflexivity.
Qed.

Lemma index_getChainId_never_defaults (name : string) :
  Index.map !! toLowerCase name = None ->
  forall n, Index.getChainId name <> ChainNum n.
Proof.
  intros Hmap n. unfold Index.getChainId, propRead. rewrite Hmap.
  case_bool_decide; discriminate.
Qed.

Lemma main_getChainId_unknown (name : string) :
  Main.map !! toLowerCase name = None ->
  toLowerCase name ∉ prototypeKeys ->
  Main.getChainId name = ChainNum 1.
Proof.
  intros Hmap Hproto. unfold Main.getChainId, propRead. rewrite Hmap.
  rewrite bool_decide_eq_false_2 by exact Hproto. reflexivity.
Qed.

(** C8.  The claim: a chain name outside the mapping resolves to the
    "unsupported" marker and never to chain id 1.  The resolver of
    [main.js] evaluated at ["solana"], a name outside its mapping: it
    returns chain id 1, and the caller's [if (!chainId) continue;] does
    not skip the token.  The resolver of [index.js] returns [null] on the
    same name and the token is skipped. *)
Theorem main_getChainId_solana_is_1 :
  Main.map !! toLowerCase "solana" = None /\
  Main.getChainId "solana" = ChainNum 1 /\
  chainSkipped (Main.getChainId "solana") = false /\
  Index.getChainId "solana" = ChainNull /\
  chainSkipped (Index.getChainId "solana") = true.
Proof. vm_compute. repeat split. Qed.

Example getChainId_index_base : Index.getChainId "Base" = ChainNum 8453.
Proof. vm_compute. reflexivity. Qed.

Example getChainId_index_constructor :
  Index.getChainId "constructor" = ChainObject "constructor".
Proof. vm_compute. reflexivity. Qed.

(** ** Alert formatter *)

Lemma emojiCountOf_tier (q : Q) : emojiCountOf (Fin q) = severityTier q.
Proof.
  unfold emojiCountOf, severityTier, num.
  repeat match goal with
    | |- context [js_ge (Fin ?a) (Fin ?b)] =>
        let H := fresh "H" in
        destruct (js_ge (Fin a) (Fin b)) eqn:H;
        [apply js_ge_Fin in H | apply js_ge_Fin_false in H]
    end;
  repeat match goal with
    | |- context [Qlt_le_dec ?a ?b] => destruct (Qlt_le_dec a b)
    end;
  unfold inject_Z in *; try reflexivity; exfalso; lra.
Qed.

Lemma severityTier_mono (p q : Q) : (p <= q)%Q -> (severityTier p <= severityTier q)%nat.
Proof.
  intros Hpq. unfold severityTier.
  repeat match goal with
    | |- context [Qlt_le_dec ?a ?b] => destruct (Qlt_le_dec a b)
    end; try lia; exfalso; lra.
Qed.

Lemma emojiCountOf_range (a : JsNum) : (1 <= emojiCountOf a <= 5)%nat.
Proof.
  unfold emojiCountOf.
  repeat match goal with |- context [if ?b then _ else _] => destruct b end; lia.
Qed.

Lemma usdValueOf_Fin (change : BalanceChange) (q : Q) :
  value_delta_usd change = Some (Fin q) ->
  emojiCountOf (usdValueOf change) = severityTier q.
Proof.
  intros Hv. unfold usdValueOf, num_or. rewrite Hv. cbn [num_truthy].
  destruct (Qeq_bool q 0) eqn:Hq; cbn [negb].
  - apply Qeq_bool_eq in Hq. unfold num. rewrite emojiCountOf_tier.
    unfold severityTier.
    repeat match goal with
      | |- context [Qlt_le_dec ?a ?b] => destruct (Qlt_le_dec a b)
      end; unfold inject_Z in *; try reflexivity; exfalso; lra.
  - apply emojiCountOf_tier.
Qed.

Lemma decimalsOf_supplied (change : BalanceChange) (a : Asset) (d : JsNum) :
  asset change = Some a -> decimals a = Some d -> num_truthy d = true ->
  decimalsOf change = d.
Proof.
  intros Ha Hd Ht. unfold decimalsOf. rewrite Ha. cbn. rewrite Hd. cbn.
  rewrite Ht. reflexivity.
Qed.

Lemma decimalsOf_omitted (change : BalanceChange) :
  asset change ≫= decimals = None -> decimalsOf change = num 18.
Proof. intros H. unfold decimalsOf. rewrite H. reflexivity. Qed.

Lemma decimalsOf_falsy (change : BalanceChange) (d : JsNum) :
  asset change ≫= decimals = Some d -> num_truthy d = false ->
  decimalsOf change = num 18.
Proof. intros H Ht. unfold decimalsOf, num_or. rewrite H, Ht. reflexivity. Qed.

(** C7.  The claim: the amount is [amountDelta / 10^decimals] with the
    asset's own [decimals] whenever the asset supplies it, so an asset
    with [decimals = 0] has its amount divided by 1.  The formatter
    evaluated on such an event ([amount_delta = "5"], [decimals = 0]):
    [decimals] is replaced by 18, the amount is [5 / 10^18] on every
    platform, and the alert prints [0] where the claim gives [5]. *)
Theorem decimals_zero_replaced_by_18 :
  (asset zeroDecimalsChange ≫= decimals) = Some (num 0) /\
  decimalsOf zeroDecimalsChange = num 18 /\
  (forall P : Platform,
      amountOf P zeroDecimalsChange =
      num_div P (parseFloat P "5") (Math_pow P (num 10) (num 18))) /\
  amountOf exactPlatform zeroDecimalsChange = Fin (1 # 200000000000000000) /\
  exact_div (exact_parseFloat "5") (exact_pow (num 10) (num 0)) = Fin 5 /\
  exact_formatNumber (amountOf exactPlatform zeroDecimalsChange) = "0".
Proof.
  split; [reflexivity|]. split; [reflexivity|]. split; [reflexivity|].
  vm_compute. repeat split.
Qed.

(** The end-to-end example: two sirens, [1 FOO], [$250,000], [received],
    the truncated holder and the Ethereum explorer link. *)
Example formatBalanceMessage_foo :
  formatBalanceMessage exactPlatform fooChange (Some 1) =
  "🚨 🚨 📥 *1 FOO* ($250,000) received" ++ nl ++ nl ++
  "Holder: `0xdead...0001`" ++ nl ++ nl ++
  "[View Transaction](https://etherscan.io/tx/0x1) · Powered by [Sim APIs](https://sim.dune.com)".
Proof. vm_compute. reflexivity. Qed.

(** ** The handler monad *)

Lemma bind_val {A B} (m : M A) (k : A -> M B) (w w' : World) (a : A) :
  m w = (Val a, w') -> bind m k w = k a w'.
Proof. intros H. unfold bind. rewrite H. reflexivity. Qed.

Lemma bind_exn {A B} (m : M A) (k : A -> M B) (w w' : World) (e : string) :
  m w = (Exn e, w') -> bind m k w = (Exn e, w').
Proof. intros H. unfold bind. rewrite H. reflexivity. Qed.

Lemma bind_val_inv {A B} (m : M A) (k : A -> M B) (w w2 : World) (b : B) :
  bind m k w = (Val b, w2) ->
  exists a w1, m w = (Val a, w1) /\ k a w1 = (Val b, w2).
Proof.
  unfold bind. destruct (m w) as [[a|e] w1]; [eauto | discriminate].
Qed.

Lemma addRequests_nil (w : World) : addRequests [] w = w.
Proof. destruct w. unfold addRequests. cbn. rewrite app_nil_r. reflexivity. Qed.

Lemma addRequests_app (l1 l2 : list Request) (w : World) :
  addRequests l2 (addRequests l1 w) = addRequests (l1 ++ l2) w.
Proof. unfold addRequests. cbn. rewrite app_assoc. reflexivity. Qed.

Section HandlerFacts.

Variable P : Platform.
Variable net : Network.

Lemma fetch_responded (req : Request) (w : World) (r : Response) :
  net (length (requests w)) req = Responded r ->
  fetch net req w = (Val r, addRequests [req] w).
Proof. intros H. unfold fetch. rewrite H. reflexivity. Qed.

Lemma fetch_rejected (req : Request) (w : World) (e : string) :
  net (length (requests w)) req = Rejected e ->
  fetch net req w = (Exn e, addRequests [req] w).
Proof. intros H. unfold fetch. rewrite H. reflexivity. Qed.

(** ** Broadcast *)

Lemma sendAll_responds (text : string) :
  responds net isTelegram ->
  forall (subs : list string) (w : World),
    foldM (fun (_ : unit) chatId =>
             perform sendTelegramMessage net text chatId ; ret tt) tt subs w
    = (Val tt, addRequests (map (fun c => TelegramSend c text) subs) w).
Proof.
  intros Hnet. induction subs as [|c subs IH]; intros w.
  - cbn. rewrite addRequests_nil. reflexivity.
  - cbn [foldM map].
    destruct (Hnet (length (requests w)) (TelegramSend c text) eq_refl) as [r Hr].
    unfold sendTelegramMessage.
    unfold bind at 1 2 3. rewrite (fetch_responded _ _ _ Hr). cbn [ret].
    rewrite IH, addRequests_app. reflexivity.
Qed.

Lemma broadcast_responds (text : string) (w : World) :
  responds net isTelegram ->
  broadcastToSubscribers net text w
  = (Val tt, addRequests (map (fun c => TelegramSend c text) (subscribers w)) w).
Proof.
  intros Hnet. unfold broadcastToSubscribers, getAllSubscribers, bind.
  apply sendAll_responds, Hnet.
Qed.

End HandlerFacts.

(** ** The [/balances] pipeline *)

Lemma size_list_to_set_remove_dups (l : list string) :
  size (list_to_set l : gset string) = length (remove_dups l).
Proof.
  rewrite <- (size_list_to_set (C := gset string) (remove_dups l))
    by apply NoDup_remove_dups.
  f_equal. apply set_eq. intros x.
  rewrite !elem_of_list_to_set, elem_of_remove_dups. reflexivity.
Qed.

Lemma size_hashes (l : list string) :
  size (list_to_set l ∪ ∅ : gset string) = length (remove_dups l).
Proof. rewrite union_empty_r_L. apply size_list_to_set_remove_dups. Qed.

Section Balances.

Variable P : Platform.
Variable net : Network.
Variable chainId : option Z.

Lemma balancesStep_seen (seen : gset string) (change : BalanceChange) :
  transaction_hash change ∈ seen ->
  balancesStep P net chainId seen change = ret seen.
Proof.
  intros Hin. unfold balancesStep. rewrite bool_decide_eq_true_2 by exact Hin.
  reflexivity.
Qed.

Lemma balancesStep_dropped (seen : gset string) (change : BalanceChange) :
  transaction_hash change ∉ seen ->
  js_lt (to_number (value_delta_usd change)) (num 100) = true ->
  balancesStep P net chainId seen change = ret ({[transaction_hash change]} ∪ seen).
Proof.
  intros Hnew Hlt. unfold balancesStep.
  rewrite bool_decide_eq_false_2 by exact Hnew. rewrite Hlt. reflexivity.
Qed.

Lemma balancesStep_alerted (seen : gset string) (change : BalanceChange) :
  transaction_hash change ∉ seen ->
  js_lt (to_number (value_delta_usd change)) (num 100) = false ->
  balancesStep P net chainId seen change =
  (perform broadcastToSubscribers net (formatBalanceMessage P change chainId) ;
   ret ({[transaction_hash change]} ∪ seen)).
Proof.
  intros Hnew Hlt. unfold balancesStep.
  rewrite bool_decide_eq_false_2 by exact Hnew. rewrite Hlt. reflexivity.
Qed.

(** Whatever the step does, a returned set is the old one plus the hash. *)
Lemma balancesStep_val (seen s : gset string) (change : BalanceChange) (w w' : World) :
  balancesStep P net chainId seen change w = (Val s, w') ->
  s = {[transaction_hash change]} ∪ seen.
Proof.
  unfold balancesStep. case_bool_decide as Hin.
  - intros [= <- _]. set_solver.
  - destruct (js_lt _ _).
    + intros [= <- _]. reflexivity.
    + intros H. apply bind_val_inv in H as (_ & w1 & _ & H).
      injection H as <- _. reflexivity.
Qed.

Lemma balancesStep_total (seen : gset string) (change : BalanceChange) (w : World) :
  responds net isTelegram ->
  exists w', balancesStep P net chainId seen change w
             = (Val ({[transaction_hash change]} ∪ seen), w').
Proof.
  intros Hnet. unfold balancesStep. case_bool_decide as Hin.
  - exists w. unfold ret. f_equal. f_equal. set_solver.
  - destruct (js_lt _ _).
    + exists w. reflexivity.
    + eexists. erewrite bind_val by (apply broadcast_responds, Hnet). reflexivity.
Qed.

Lemma balancesLoop_val (batch : list BalanceChange) :
  forall (seen s : gset string) (w w' : World),
    foldM (balancesStep P net chainId) seen batch w = (Val s, w') ->
    s = list_to_set (transaction_hash <$> batch) ∪ seen.
Proof.
  induction batch as [|c batch IH]; intros seen s w w'.
  - intros [= <- _]. set_solver.
  - cbn [foldM]. intros H.
    apply bind_val_inv in H as (s1 & w1 & Hstep & Hrest).
    apply balancesStep_val in Hstep as ->.
    apply IH in Hrest as ->. set_solver.
Qed.

Lemma balancesLoop_total (batch : list BalanceChange) :
  responds net isTelegram ->
  forall (seen : gset string) (w : World),
    exists w', foldM (balancesStep P net chainId) seen batch w
               = (Val (list_to_set (transaction_hash <$> batch) ∪ seen), w').
Proof.
  intros Hnet. induction batch as [|c batch IH]; intros seen w.
  - exists w. cbn. unfold ret. f_equal. f_equal. set_solver.
  - cbn [foldM].
    destruct (balancesStep_total seen c w Hnet) as [w1 Hstep].
    destruct (IH ({[transaction_hash c]} ∪ seen) w1) as [w2 Hrest].
    exists w2. rewrite (bind_val _ _ _ _ _ Hstep), Hrest.
    f_equal. f_equal. set_solver.
Qed.

(** C1.  Whenever [/balances] replies, [processed] is the number of
    distinct transaction hashes of the batch, whatever the materiality
    filter dropped and whatever the statuses of the deliveries; and it
    does reply whenever no delivery call is rejected. *)
Theorem postBalances_processed_distinct (batch : list BalanceChange) (w : World) :
  (forall reply w',
      postBalances P net batch chainId w = (Val reply, w') ->
      reply = ReplyProcessed (length (distinctHashes batch))) /\
  (responds net isTelegram ->
   exists w',
     postBalances P net batch chainId w
     = (Val (ReplyProcessed (length (distinctHashes batch))), w')).
Proof.
  unfold postBalances, distinctHashes. split.
  - intros reply w' H.
    apply bind_val_inv in H as (s & w1 & Hloop & Hret).
    apply balancesLoop_val in Hloop as ->.
    injection Hret as <- _. rewrite size_hashes. reflexivity.
  - intros Hnet. destruct (balancesLoop_total batch Hnet ∅ w) as [w' Hloop].
    exists w'. rewrite (bind_val _ _ _ _ _ Hloop). unfold ret.
    rewrite size_hashes. reflexivity.
Qed.

Lemma balancesStep_alerted_world (seen : gset string) (change : BalanceChange)
    (w : World) :
  transaction_hash change ∉ seen ->
  js_lt (to_number (value_delta_usd change)) (num 100) = false ->
  responds net isTelegram ->
  balancesStep P net chainId seen change w =
  (Val ({[transaction_hash change]} ∪ seen),
   addRequests (map (fun c => TelegramSend c (formatBalanceMessage P change chainId))
                  (subscribers w)) w).
Proof.
  intros Hnew Hlt Hnet. rewrite balancesStep_alerted by assumption.
  erewrite bind_val by (apply broadcast_responds, Hnet). reflexivity.
Qed.

End Balances.

Lemma netRefusing_responds (sel : Request -> bool) : responds netRefusing sel.
Proof. intros k req _. eexists. reflexivity. Defined.

Lemma postBalances_processed_distinct_witness :
  exists w',
    postBalances exactPlatform netRefusing sampleBatch (Some 1) world0
    = (Val (ReplyProcessed 2), w').
Proof.
  exact (proj2 (postBalances_processed_distinct exactPlatform netRefusing (Some 1)
                  sampleBatch world0) (netRefusing_responds isTelegram)).
Defined.

Example missing_usd_alert_text :
  formatBalanceMessage exactPlatform (withUsd "0xb" None) (Some 1) =
  "🚨 📥 *1 FOO* ($0) received" ++ nl ++ nl ++
  "Holder: `0xdead...0001`" ++ nl ++ nl ++
  "[View Transaction](https://etherscan.io/tx/0xb) · Powered by [Sim APIs](https://sim.dune.com)".
Proof. vm_compute. reflexivity. Qed.

(** ** Webhook pagination enumerator *)

Lemma elem_of_dedupById (l : list Webhook) (wh : Webhook) :
  wh ∈ dedupById l -> wh ∈ l.
Proof.
  revert wh. induction l as [|a l IH]; intros wh; cbn [dedupById].
  - intros H. exact H.
  - rewrite !elem_of_cons. intros [->|H]; [left; reflexivity|].
    right. apply IH. apply list_elem_of_filter in H. tauto.
Qed.

Lemma dedupById_covers (l : list Webhook) (wh : Webhook) :
  wh ∈ l -> id wh ∈ id <$> dedupById l.
Proof.
  induction l as [|a l IH]; cbn [dedupById].
  - intros H. apply elem_of_nil in H. contradiction.
  - rewrite elem_of_cons, fmap_cons, elem_of_cons. intros [->|H]; [left; reflexivity|].
    destruct (decide (id wh = id a)) as [Heq|Hne]; [left; exact Heq|].
    right. apply IH in H. apply list_elem_of_fmap in H as (x & Hx & Hin).
    apply list_elem_of_fmap. exists x. split; [exact Hx|].
    apply list_elem_of_filter. split; [congruence | exact Hin].
Qed.

Lemma NoDup_dedupById (l : list Webhook) : NoDup (id <$> dedupById l).
Proof.
  induction l as [|a l IH]; cbn [dedupById].
  - constructor.
  - rewrite fmap_cons. constructor.
    + intros H. apply list_elem_of_fmap in H as (x & Hx & Hin).
      apply list_elem_of_filter in Hin as [Hne _]. congruence.
    + revert IH. generalize (dedupById l). intros d. induction d as [|x d IHd].
      * intros _. constructor.
      * cbn [fmap list_fmap]. rewrite NoDup_cons. intros [Hx Hd].
        rewrite filter_cons. destruct (decide (id x ≠ id a)).
        -- cbn [fmap list_fmap]. rewrite NoDup_cons. split; [|apply IHd, Hd].
           intros H. apply Hx. apply list_elem_of_fmap in H as (y & Hy & Hin).
           apply list_elem_of_fmap. exists y. split; [exact Hy|].
           apply list_elem_of_filter in Hin. tauto.
        -- apply IHd, Hd.
Qed.

(** Deduplication commutes with a filter that only looks at the id. *)
Lemma filter_dedupById (Q : string -> Prop) `{!forall s, Decision (Q s)}
    (l : list Webhook) :
  filter (fun x => Q (id x)) (dedupById l) = dedupById (filter (fun x => Q (id x)) l).
Proof.
  induction l as [|a l IH]; [reflexivity|].
  cbn [dedupById]. rewrite !filter_cons. destruct (decide (Q (id a))) as [Ha|Ha].
  - cbn [dedupById]. f_equal. rewrite <- IH, !list_filter_filter.
    apply list_filter_iff. intros x. tauto.
  - rewrite <- IH, list_filter_filter. apply list_filter_iff. intros x.
    split; [tauto|]. intros Hx. split; [exact Hx|]. congruence.
Qed.

Lemma collectNew_spec (page : list Webhook) :
  forall (seenIds : gset string) (allWebhooks : list Webhook) (newCount : nat),
    collectNew page seenIds allWebhooks newCount =
    (seenIds ∪ list_to_set (id <$> page),
     (allWebhooks ++ dedupById (filter (fun x => id x ∉ seenIds) page))%list,
     (newCount + length (dedupById (filter (fun x => id x ∉ seenIds) page)))%nat).
Proof.
  induction page as [|wh page IH]; intros seen all n.
  - cbn. rewrite app_nil_r, Nat.add_0_r. f_equal. f_equal. set_solver.
  - cbn [collectNew]. rewrite filter_cons. case_bool_decide as Hin.
    + rewrite decide_False by (intros H; apply H, Hin).
      rewrite IH. f_equal. f_equal. set_solver.
    + rewrite decide_True by exact Hin. rewrite IH. cbn [dedupById].
      assert (Hd : dedupById (filter (fun x => id x ∉ {[id wh]} ∪ seen) page)
                   = filter (fun x => id x ≠ id wh)
                       (dedupById (filter (fun x => id x ∉ seen) page))).
      { pose proof (filter_dedupById (fun s => s ≠ id wh)
                      (filter (fun x => id x ∉ seen) page)) as Hc.
        cbn beta in Hc. rewrite Hc, list_filter_filter.
        f_equal. apply list_filter_iff. intros x. set_solver. }
      rewrite Hd, <- app_assoc. cbn [app length]. f_equal; [f_equal|lia].
      set_solver.
Qed.

Lemma filter_none_seen (page : list Webhook) (seen : gset string) :
  seen = ∅ -> filter (fun x : Webhook => id x ∉ seen) page = page.
Proof.
  intros ->. induction page as [|a page IH]; [reflexivity|].
  rewrite filter_cons, decide_True by set_solver. f_equal. exact IH.
Qed.

Lemma filter_all_seen (page : list Webhook) (seen : gset string) :
  (forall wh, wh ∈ page -> id wh ∈ seen) ->
  filter (fun x : Webhook => id x ∉ seen) page = [].
Proof.
  induction page as [|a page IH]; intros Hall; [reflexivity|].
  rewrite filter_cons, decide_False.
  - apply IH. intros wh Hwh. apply Hall. right. exact Hwh.
  - intros H. apply H, Hall. left.
Qed.

Lemma collected_NoDup (page allWebhooks : list Webhook) (seenIds : gset string) :
  NoDup (id <$> allWebhooks) ->
  (forall wh, wh ∈ allWebhooks -> id wh ∈ seenIds) ->
  NoDup (id <$> (allWebhooks ++ dedupById (filter (fun x => id x ∉ seenIds) page))%list).
Proof.
  intros Hnd Hseen. rewrite fmap_app. apply NoDup_app.
  split; [exact Hnd|]. split; [|apply NoDup_dedupById].
  intros i Hi Hi'.
  apply list_elem_of_fmap in Hi as (x & -> & Hx).
  apply list_elem_of_fmap in Hi' as (y & Hy & Hin).
  apply elem_of_dedupById, list_elem_of_filter in Hin as [Hnew _].
  apply Hnew. rewrite <- Hy. apply Hseen, Hx.
Qed.

Lemma collected_seen (page allWebhooks : list Webhook) (seenIds : gset string) :
  (forall wh, wh ∈ allWebhooks -> id wh ∈ seenIds) ->
  forall wh,
    wh ∈ (allWebhooks ++ dedupById (filter (fun x => id x ∉ seenIds) page))%list ->
    id wh ∈ seenIds ∪ list_to_set (id <$> page).
Proof.
  intros Hseen wh Hin. apply elem_of_app in Hin as [Hin|Hin].
  - apply elem_of_union_l, Hseen, Hin.
  - apply elem_of_union_r, elem_of_list_to_set, list_elem_of_fmap.
    exists wh. split; [reflexivity|].
    apply elem_of_dedupById, list_elem_of_filter in Hin. tauto.
Qed.

Section Enumerator.

Variable net : Network.

(** Every run of the loop makes at most [remaining] listing requests and
    nothing else; a returned list has no repeated id; and the loop
    returns whenever no listing request is rejected. *)
Lemma listLoop_spec (remaining : nat) :
  forall (allWebhooks : list Webhook) (seenIds : gset string) (offset : Z) (w : World),
    NoDup (id <$> allWebhooks) ->
    (forall wh, wh ∈ allWebhooks -> id wh ∈ seenIds) ->
    exists o reqs,
      listLoop net remaining allWebhooks seenIds offset w = (o, addRequests reqs w) /\
      (length reqs <= remaining)%nat /\
      Forall (fun r => isList r = true) reqs /\
      (forall ws, o = Val ws -> NoDup (id <$> ws)) /\
      (responds net isList -> exists ws, o = Val ws).
Proof.
  induction remaining as [|n IH]; intros all seen offset w Hnd Hseen.
  - exists (Val all), []. cbn [listLoop]. unfold ret. rewrite addRequests_nil.
    split; [reflexivity|]. split; [cbn; lia|]. split; [constructor|].
    split; [intros ws [= <-]; exact Hnd | eauto].
  - cbn [listLoop].
    destruct (net (length (requests w)) (ListWebhooks limit offset)) as [e|r] eqn:Hans.
    { exists (Exn e), [ListWebhooks limit offset].
      rewrite (bind_exn _ _ _ _ _ (fetch_rejected _ _ _ _ Hans)).
      split; [reflexivity|]. split; [cbn; lia|]. split; [repeat constructor|].
      split; [discriminate|].
      intros Hnet. destruct (Hnet (length (requests w)) (ListWebhooks limit offset) eq_refl)
        as [r Hr]. congruence. }
    rewrite (bind_val _ _ _ _ _ (fetch_responded _ _ _ _ Hans)).
    assert (Hstop : forall ws, NoDup (id <$> ws) ->
              exists o reqs,
                (Val ws, addRequests [ListWebhooks limit offset] w) = (o, addRequests reqs w) /\
                (length reqs <= S n)%nat /\
                Forall (fun r => isList r = true) reqs /\
                (forall ws', o = Val ws' -> NoDup (id <$> ws')) /\
                (responds net isList -> exists ws', o = Val ws')).
    { intros ws Hws. exists (Val ws), [ListWebhooks limit offset].
      split; [reflexivity|]. split; [cbn; lia|]. split; [repeat constructor|].
      split; [intros ws' [= <-]; exact Hws | eauto]. }
    destruct (ok r); cbn [negb]; [|apply Hstop, Hnd].
    destruct (length (default [] (webhooks_field r)) =? 0)%nat; [apply Hstop, Hnd|].
    rewrite collectNew_spec.
    pose proof (collected_NoDup (default [] (webhooks_field r)) all seen Hnd Hseen) as Hnd'.
    pose proof (collected_seen (default [] (webhooks_field r)) all seen Hseen) as Hseen'.
    destruct (_ =? 0)%nat; [apply Hstop, Hnd'|].
    destruct (_ <? limit); [apply Hstop, Hnd'|].
    destruct (IH _ _ (offset + limit) (addRequests [ListWebhooks limit offset] w) Hnd' Hseen')
      as (o & reqs & Hrun & Hlen & Hall & Hdup & Htot).
    exists o, (ListWebhooks limit offset :: reqs).
    rewrite Hrun, addRequests_app.
    split; [reflexivity|]. split; [cbn; lia|].
    split; [constructor; [reflexivity | exact Hall]|].
    split; [exact Hdup | exact Htot].
Qed.

(** C9.  Whatever the remote registry answers, the enumerator stops
    after at most 50 listing requests (and makes no other call); a
    returned list has every id at most once; and it returns a list
    whenever every request is answered with a page response of any
    status and content (a rejected request makes it throw instead). *)
Theorem listAllWebhooks_bounded_deduplicated (w : World) :
  exists o reqs,
    listAllWebhooks net w = (o, addRequests reqs w) /\
    (length reqs <= 50)%nat /\
    Forall (fun r => isList r = true) reqs /\
    (forall ws, o = Val ws -> NoDup (id <$> ws)) /\
    (responds net isList -> exists ws, o = Val ws /\ NoDup (id <$> ws)).
Proof.
  destruct (listLoop_spec maxIterations [] ∅ 0 w) as (o & reqs & Hrun & Hlen & Hall & Hdup & Htot).
  - constructor.
  - intros wh Hwh. apply elem_of_nil in Hwh. contradiction.
  - exists o, reqs. split; [exact Hrun|]. split; [exact Hlen|].
    split; [exact Hall|]. split; [exact Hdup|].
    intros Hnet. destruct (Htot Hnet) as [ws ->]. exists ws. split; [reflexivity|].
    apply Hdup. reflexivity.
Qed.

End Enumerator.

Lemma netSamePage_responds (page : list Webhook) (sel : Request -> bool) :
  responds (netSamePage page) sel.
Proof. intros k req _. eexists. reflexivity. Defined.

Lemma listAllWebhooks_bounded_deduplicated_witness :
  exists ws,
    fst (listAllWebhooks (netSamePage [whA; whB; whA']) world0) = Val ws /\
    NoDup (id <$> ws).
Proof.
  destruct (listAllWebhooks_bounded_deduplicated (netSamePage [whA; whB; whA']) world0)
    as (o & reqs & Hrun & _ & _ & _ & Htot).
  destruct (Htot (netSamePage_responds _ isList)) as (ws & Ho & Hnd).
  exists ws. rewrite Hrun, Ho. split; [reflexivity | exact Hnd].
Defined.

(** One turn of the loop on an accepted page. *)
Lemma listLoop_page (net : Network) (n : nat) (allWebhooks : list Webhook)
    (seenIds : gset string) (offset : Z) (w : World) (page : list Webhook) :
  net (length (requests w)) (ListWebhooks limit offset)
  = Responded {| ok := true; webhooks_field := Some page |} ->
  listLoop net (S n) allWebhooks seenIds offset w =
  (if (length page =? 0)%nat then ret allWebhooks
   else
     let '(seenIds', allWebhooks', newCount) := collectNew page seenIds allWebhooks 0 in
     if (newCount =? 0)%nat then ret allWebhooks'
     else if Z.of_nat (length page) <? limit then ret allWebhooks'
     else listLoop net n allWebhooks' seenIds' (offset + limit))
    (addRequests [ListWebhooks limit offset] w).
Proof.
  intros Hans. cbn [listLoop].
  rewrite (bind_val _ _ _ _ _ (fetch_responded _ _ _ _ Hans)). reflexivity.
Qed.

(** C2.  Against a registry that ignores the offset and answers every
    listing request with the same page, the enumerator returns exactly
    that page deduplicated by id, after one request when the page has
    fewer than 300 entries and after two requests otherwise; the
    iteration ceiling is never reached. *)
Theorem listAllWebhooks_same_page (net : Network) (page : list Webhook) (w : World) :
  (forall k lim off,
      net k (ListWebhooks lim off) = Responded {| ok := true; webhooks_field := Some page |}) ->
  exists reqs,
    listAllWebhooks net w = (Val (dedupById page), addRequests reqs w) /\
    reqs = (if Z.of_nat (length page) <? limit
            then [ListWebhooks limit 0]
            else [ListWebhooks limit 0; ListWebhooks limit (0 + limit)]) /\
    (length reqs <= 2)%nat.
Proof.
  intros Hnet. unfold listAllWebhooks. change maxIterations with (S (S 48)).
  rewrite (listLoop_page net _ _ _ _ _ page) by apply Hnet.
  assert (Hcases : page = [] \/
            ((length page =? 0)%nat = false /\
             (length (dedupById page) =? 0)%nat = false))
    by (destruct page; [left | right]; split; reflexivity).
  destruct Hcases as [->|[Hlen Hnew]].
  { exists [ListWebhooks limit 0]. cbn. auto. }
  rewrite Hlen, collectNew_spec, (filter_none_seen page ∅ eq_refl). cbn [app Nat.add].
  rewrite Hnew.
  destruct (Z.of_nat (length page) <? limit) eqn:Hshort.
  { exists [ListWebhooks limit 0]. cbn. auto. }
  rewrite (listLoop_page net _ _ _ _ _ page) by apply Hnet.
  rewrite Hlen, collectNew_spec, filter_all_seen.
  - cbn [dedupById length Nat.add app Nat.eqb]. unfold ret.
    rewrite app_nil_r, addRequests_app.
    exists [ListWebhooks limit 0; ListWebhooks limit (0 + limit)]. cbn. auto.
  - intros x Hx. apply elem_of_union_r, elem_of_list_to_set, list_elem_of_fmap.
    exists x. split; [reflexivity | exact Hx].
Qed.

Lemma listAllWebhooks_same_page_witness :
  exists reqs,
    listAllWebhooks (netSamePage (replicate 299 whA ++ [whB])) world0
    = (Val [whA; whB], addRequests reqs world0) /\
    reqs = [ListWebhooks 300 0; ListWebhooks 300 300] /\
    (length reqs <= 2)%nat.
Proof.
  exact (listAllWebhooks_same_page (netSamePage (replicate 299 whA ++ [whB]))
           (replicate 299 whA ++ [whB]) world0 (fun _ _ _ => eq_refl)).
Defined.

Example listAllWebhooks_short_page :
  listAllWebhooks (netSamePage [whA; whB; whA']) world0
  = (Val [whA; whB], addRequests [ListWebhooks 300 0] world0).
Proof. vm_compute. reflexivity. Qed.

(** ** Webhook lifecycle reconciler *)

Section Reconciler.

Variable net : Network.
Variable target : bool.

Lemma toggleStep_skip (c : Counters) (wh : Webhook) (w : World) :
  active wh = target ->
  toggleStep net target c wh w =
  (Val {| changed := changed c; skipped := S (skipped c); failed := failed c |}, w).
Proof.
  intros Ha. unfold toggleStep. rewrite bool_decide_eq_true_2 by exact Ha. reflexivity.
Qed.

Lemma toggleStep_accepted (c : Counters) (wh : Webhook) (w : World) (r : Response) :
  active wh ≠ target ->
  net (length (requests w)) (PatchWebhook (id wh) target) = Responded r ->
  ok r = true ->
  toggleStep net target c wh w =
  (Val {| changed := S (changed c); skipped := skipped c; failed := failed c |},
   afterUpdate target (id wh) w).
Proof.
  intros Ha Hans Hok. unfold toggleStep, updateWebhookStatus.
  rewrite bool_decide_eq_false_2 by exact Ha.
  unfold bind at 1 2. rewrite (fetch_responded _ _ _ _ Hans). cbn [ret]. rewrite Hok.
  reflexivity.
Qed.

Lemma toggleStep_refused (c : Counters) (wh : Webhook) (w : World) (r : Response) :
  active wh ≠ target ->
  net (length (requests w)) (PatchWebhook (id wh) target) = Responded r ->
  ok r = false ->
  toggleStep net target c wh w =
  (Val {| changed := changed c; skipped := skipped c; failed := S (failed c) |},
   addRequests [PatchWebhook (id wh) target] w).
Proof.
  intros Ha Hans Hok. unfold toggleStep, updateWebhookStatus.
  rewrite bool_decide_eq_false_2 by exact Ha.
  unfold bind at 1 2. rewrite (fetch_responded _ _ _ _ Hans). cbn [ret]. rewrite Hok.
  reflexivity.
Qed.

Lemma toggleStep_rejected (c : Counters) (wh : Webhook) (w : World) (e : string) :
  active wh ≠ target ->
  net (length (requests w)) (PatchWebhook (id wh) target) = Rejected e ->
  toggleStep net target c wh w = (Exn e, addRequests [PatchWebhook (id wh) target] w).
Proof.
  intros Ha Hans. unfold toggleStep, updateWebhookStatus.
  rewrite bool_decide_eq_false_2 by exact Ha.
  unfold bind at 1 2. rewrite (fetch_rejected _ _ _ _ Hans). reflexivity.
Qed.

(** A run over webhooks that are all in the target state only counts. *)
Lemma toggleLoop_all_skipped (ws : list Webhook) :
  Forall (fun wh => active wh = target) ws ->
  forall (c : Counters) (w : World),
    foldM (toggleStep net target) c ws w =
    (Val {| changed := changed c; skipped := (skipped c + length ws)%nat;
            failed := failed c |}, w).
Proof.
  induction 1 as [|wh ws Hwh _ IH]; intros c w.
  - cbn. unfold ret. rewrite Nat.add_0_r. destruct c. reflexivity.
  - cbn [foldM]. rewrite (bind_val _ _ _ _ _ (toggleStep_skip c wh w Hwh)), IH.
    cbn. do 3 f_equal. lia.
Qed.

(** The bookkeeping of a run in which every update call is answered. *)
Lemma toggleLoop_spec (ws : list Webhook) :
  responds net isPatch ->
  forall (c : Counters) (w : World),
    exists c' w',
      foldM (toggleStep net target) c ws w = (Val c', w') /\
      requests w' =
        (requests w ++ map (fun wh => PatchWebhook (id wh) target) (todo target ws))%list /\
      skipped c' = (skipped c + length (filter (fun wh => active wh = target) ws))%nat /\
      failed c' = (failed c + countIf refused
                     (patchAnswers net target (length (requests w)) (todo target ws)))%nat /\
      changed c' = (changed c + countIf accepted
                     (patchAnswers net target (length (requests w)) (todo target ws)))%nat /\
      (changed c' + skipped c' + failed c'
       = changed c + skipped c + failed c + length ws)%nat.
Proof.
  intros Hnet. induction ws as [|wh ws IH]; intros c w.
  - exists c, w. cbn. unfold countIf. cbn. rewrite app_nil_r.
    repeat split; lia.
  - cbn [foldM]. unfold todo. rewrite !filter_cons.
    destruct (decide (active wh = target)) as [Ha|Ha].
    + rewrite decide_False by (intros H; apply H, Ha).
      rewrite (bind_val _ _ _ _ _ (toggleStep_skip c wh w Ha)).
      destruct (IH {| changed := changed c; skipped := S (skipped c); failed := failed c |} w)
        as (c' & w' & Hrun & Hreq & Hs & Hf & Hc & Hsum).
      exists c', w'. cbn in *. fold (todo target ws).
      repeat split; [exact Hrun | exact Hreq | lia | exact Hf | exact Hc | lia].
    + rewrite decide_True by exact Ha. fold (todo target ws).
      destruct (Hnet (length (requests w)) (PatchWebhook (id wh) target) eq_refl)
        as [r Hans].
      destruct (ok r) eqn:Hok.
      * rewrite (bind_val _ _ _ _ _ (toggleStep_accepted c wh w r Ha Hans Hok)).
        destruct (IH {| changed := S (changed c); skipped := skipped c; failed := failed c |}
                    (afterUpdate target (id wh) w))
          as (c' & w' & Hrun & Hreq & Hs & Hf & Hc & Hsum).
        exists c', w'. cbn [patchAnswers map]. unfold countIf in *.
        cbn [List.filter]. rewrite Hans. cbn [refused accepted]. rewrite Hok.
        cbn [negb length]. cbn in Hreq, Hs, Hf, Hc, Hsum.
        rewrite length_app in Hf, Hc. cbn in Hf, Hc.
        rewrite Nat.add_1_r in Hf, Hc. rewrite <- app_assoc in Hreq.
        repeat split; [exact Hrun | exact Hreq | lia | lia | lia | lia].
      * rewrite (bind_val _ _ _ _ _ (toggleStep_refused c wh w r Ha Hans Hok)).
        destruct (IH {| changed := changed c; skipped := skipped c; failed := S (failed c) |}
                    (addRequests [PatchWebhook (id wh) target] w))
          as (c' & w' & Hrun & Hreq & Hs & Hf & Hc & Hsum).
        exists c', w'. cbn [patchAnswers map]. unfold countIf in *.
        cbn [List.filter]. rewrite Hans. cbn [refused accepted]. rewrite Hok.
        cbn [negb length]. cbn in Hreq, Hs, Hf, Hc, Hsum.
        rewrite length_app in Hf, Hc. cbn in Hf, Hc.
        rewrite Nat.add_1_r in Hf, Hc. rewrite <- app_assoc in Hreq.
        repeat split; [exact Hrun | exact Hreq | lia | lia | lia | lia].
Qed.

End Reconciler.

Lemma alter_absent (f : MirrorRow -> MirrorRow) (k : string) (m : gmap string MirrorRow) :
  m !! k = None -> alter f k m = m.
Proof.
  intros Hk. apply map_eq. intros j. rewrite lookup_alter.
  case_decide as Hj; [subst j; rewrite Hk|]; reflexivity.
Qed.

(** Two resume calls in a row against a registry that honours updates:
    the second one resumes nothing and issues no update. *)
Example resume_twice :
  (await r1 <- postResumeWebhooks netTwice ;
   await r2 <- postResumeWebhooks netTwice ;
   ret (r1, r2)) worldMirror
  = (Val (ReplyResumed 1 1 0 2, ReplyResumed 0 2 0 2),
     {| subscribers := [];
        webhooks := {[ "wh-b" := {| token_address := "0xabc"; chain_id := 1;
                                    row_active := 1 |} ]};
        requests := [ListWebhooks 300 0; PatchWebhook "wh-b" true; ListWebhooks 300 0] |}).
Proof. vm_compute. reflexivity. Qed.

(** C4, as stated, fails: the update call of one item is rejected at the
    network level ([fetch] throws); the handler's [catch] replies with
    the 500 error, and the second webhook, whose update would have been
    accepted, is never attempted. *)
Lemma pause_aborted_by_rejected_update :
  listAllWebhooks netPatchRejected world0
  = (Val [whA; whC], addRequests [ListWebhooks 300 0] world0) /\
  postPauseWebhooks netPatchRejected world0
  = (Val (ReplyError500 "fetch failed"),
     addRequests [ListWebhooks 300 0; PatchWebhook "wh-a" false] world0) /\
  ~ (exists p s f t w',
        postPauseWebhooks netPatchRejected world0 = (Val (ReplyPaused p s f t), w')).
Proof.
  assert (Hrun : postPauseWebhooks netPatchRejected world0
                 = (Val (ReplyError500 "fetch failed"),
                    addRequests [ListWebhooks 300 0; PatchWebhook "wh-a" false] world0))
    by (vm_compute; reflexivity).
  split; [vm_compute; reflexivity|]. split; [exact Hrun|].
  intros (p & s & f & t & w' & H). rewrite Hrun in H. discriminate H.
Qed.

(** C4, amended.  In a pause or resume batch in which every update call
    is answered (with any status), the batch is never cut short: every
    webhook not yet in the target state is attempted, in order; a
    non-2xx answer only adds one to [failed]; and the handler replies
    with the counts, which add up to the total. *)
Theorem toggleAll_isolates_refused_updates (net : Network) (target : bool)
    (mk : nat -> nat -> nat -> nat -> Reply) (w w1 : World) (ws : list Webhook) :
  listAllWebhooks net w = (Val ws, w1) ->
  responds net isPatch ->
  exists c w2,
    toggleAll net target mk w
    = (Val (mk (changed c) (skipped c) (failed c) (length ws)), w2) /\
    requests w2 =
      (requests w1 ++ map (fun wh => PatchWebhook (id wh) target) (todo target ws))%list /\
    skipped c = length (filter (fun wh => active wh = target) ws) /\
    failed c = countIf refused
                 (patchAnswers net target (length (requests w1)) (todo target ws)) /\
    changed c = countIf accepted
                  (patchAnswers net target (length (requests w1)) (todo target ws)) /\
    (changed c + skipped c + failed c = length ws)%nat.
Proof.
  intros Hlist Hnet.
  destruct (toggleLoop_spec net target ws Hnet {| changed := 0; skipped := 0; failed := 0 |} w1)
    as (c & w2 & Hrun & Hreq & Hs & Hf & Hc & Hsum).
  exists c, w2. unfold toggleAll, tryCatch.
  rewrite (bind_val _ _ _ _ _ Hlist), (bind_val _ _ _ _ _ Hrun).
  split; [reflexivity|]. split; [exact Hreq|]. cbn in Hs, Hf, Hc, Hsum.
  split; [exact Hs|]. split; [exact Hf|]. split; [exact Hc | exact Hsum].
Qed.

Lemma netPatchRefused_responds (sel : Request -> bool) : responds netPatchRefused sel.
Proof. intros k req _. destruct req; eexists; reflexivity. Defined.

Lemma toggleAll_isolates_refused_updates_witness :
  exists w2,
    postPauseWebhooks netPatchRefused world0 = (Val (ReplyPaused 1 0 1 2), w2) /\
    requests w2
    = [ListWebhooks 300 0; PatchWebhook "wh-a" false; PatchWebhook "wh-c" false].
Proof.
  destruct (toggleAll_isolates_refused_updates netPatchRefused false ReplyPaused
              world0 (addRequests [ListWebhooks 300 0] world0) [whA; whC]
              eq_refl (netPatchRefused_responds isPatch))
    as (c & w2 & Hrun & Hreq & Hs & Hf & Hc & _).
  exists w2. unfold postPauseWebhooks. rewrite Hrun, Hreq, Hs, Hf, Hc.
  split; reflexivity.
Defined.

(** * Further properties *)

(** ** Chain registry and explorer links *)

Lemma ascii_lower_idempotent (c : ascii) : ascii_lower (ascii_lower c) = ascii_lower c.
Proof. destruct c as [[] [] [] [] [] [] [] []]; reflexivity. Qed.

Lemma toLowerCase_idempotent (s : string) : toLowerCase (toLowerCase s) = toLowerCase s.
Proof.
  induction s as [|c s IH]; [reflexivity|].
  cbn [toLowerCase]. rewrite ascii_lower_idempotent, IH. reflexivity.
Qed.

Ltac each_entry H tac :=
  repeat (apply elem_of_cons in H as [H|H]; [injection H as -> ->; tac|]);
  apply elem_of_nil in H; contradiction.

Lemma index_map_facts (k : string) (n : Z) :
  Index.map !! k = Some n ->
  (n ≠ 0) /\ toLowerCase k = k /\ (k ∉ prototypeKeys) /\
  (k ∈ ["ethereum"; "optimism"; "bnb"; "polygon"; "base"; "arbitrum"; "avalanche_c"]
   \/ explorers !! n = None).
Proof.
  intros H. apply elem_of_list_to_map_2 in H.
  each_entry H ltac:(split; [discriminate|]; split; [reflexivity|];
                     split; [compute_done|];
                     first [right; vm_compute; reflexivity
                           | left; compute_done]).
Qed.

Lemma main_map_facts (k : string) (n : Z) :
  Main.map !! k = Some n ->
  (n ≠ 0) /\ Index.map !! k = Some n /\ is_Some (explorers !! n).
Proof.
  intros H. apply elem_of_list_to_map_2 in H.
  each_entry H ltac:(split; [discriminate|]; split; [vm_compute; reflexivity|];
                     vm_compute; eexists; reflexivity).
Qed.

Lemma index_getChainId_iff (name : string) (m : Z) :
  Index.getChainId name = ChainNum m <-> Index.map !! toLowerCase name = Some m.
Proof.
  unfold Index.getChainId, propRead.
  destruct (Index.map !! toLowerCase name) as [v|] eqn:Hv.
  - destruct (index_map_facts _ _ Hv) as (Hnz & _).
    rewrite bool_decide_eq_false_2 by exact Hnz. split; congruence.
  - case_bool_decide; split; discriminate.
Qed.

(** X1.  [index.js], on a name made of ASCII characters: the resolver
    returns a chain id exactly when the lower-case form of the name is a
    key of the table, and then the id of that key, and the result does
    not depend on the letter case of the name.  On every name: a key of
    the table resolves to its own id, and the resolver never returns
    0. *)
Theorem index_getChainId_table (name : string) (n : Z) :
  (isAscii name = true ->
   (Index.getChainId name = ChainNum n <-> Index.map !! toLowerCase name = Some n) /\
   Index.getChainId (toLowerCase name) = Index.getChainId name) /\
  (Index.map !! name = Some n -> Index.getChainId name = ChainNum n) /\
  Index.getChainId name ≠ ChainNum 0.
Proof.
  split; [|split].
  - intros _. split; [apply index_getChainId_iff|].
    unfold Index.getChainId. rewrite toLowerCase_idempotent. reflexivity.
  - intros Hk. apply index_getChainId_iff.
    destruct (index_map_facts _ _ Hk) as (_ & -> & _). exact Hk.
  - intros H0. apply index_getChainId_iff in H0.
    destruct (index_map_facts _ _ H0) as (Hnz & _). apply Hnz. reflexivity.
Qed.

Lemma index_getChainId_table_witness :
  Index.getChainId "Zora" = ChainNum 7777777 /\
  Index.getChainId (toLowerCase "Zora") = Index.getChainId "Zora" /\
  Index.getChainId "zora" = ChainNum 7777777.
Proof.
  pose proof (index_getChainId_table "Zora" 7777777) as (Hascii & _).
  destruct (Hascii eq_refl) as (Hiff & Hcase).
  split; [apply Hiff; reflexivity|]. split; [exact Hcase|].
  apply (proj1 (proj2 (index_getChainId_table "zora" 7777777))). reflexivity.
Defined.

(** X2.  [index.js], on a chain name made of ASCII characters: the
    caller's [if (!chainId) continue;] skips a token exactly when the
    lower-case chain name is neither a key of the table nor a member of
    [Object.prototype]. *)
Theorem index_skips_exactly_unknown (name : string) :
  isAscii name = true ->
  (chainSkipped (Index.getChainId name) = true <->
   Index.map !! toLowerCase name = None /\ toLowerCase name ∉ prototypeKeys).
Proof.
  intros _. unfold Index.getChainId, propRead.
  destruct (Index.map !! toLowerCase name) as [v|] eqn:Hv.
  - destruct (index_map_facts _ _ Hv) as (Hnz & _).
    rewrite bool_decide_eq_false_2 by exact Hnz. cbn [chainSkipped].
    rewrite bool_decide_eq_false_2 by exact Hnz. split; [discriminate|].
    intros [H _]. discriminate H.
  - case_bool_decide as Hp; cbn [chainSkipped]; split; try discriminate; tauto.
Qed.

(** X3.  [main.js]: the caller's [if (!chainId) continue;] never skips a
    token, whatever its chain name: the resolver's result is never
    falsy. *)
Theorem main_never_skips (name : string) :
  chainSkipped (Main.getChainId name) = false.
Proof.
  unfold Main.getChainId, propRead.
  destruct (Main.map !! toLowerCase name) as [v|] eqn:Hv.
  - destruct (main_map_facts _ _ Hv) as (Hnz & _).
    rewrite bool_decide_eq_false_2 by exact Hnz. cbn [chainSkipped].
    apply bool_decide_eq_false_2, Hnz.
  - case_bool_decide; reflexivity.
Qed.

(** X4.  The two resolvers agree on every name that [main.js] lists; on
    every other name that [index.js] lists, [main.js] answers chain 1. *)
Theorem resolvers_agree_on_main_table (name : string) (n : Z) :
  (Main.map !! toLowerCase name = Some n ->
   Main.getChainId name = ChainNum n /\ Index.getChainId name = ChainNum n) /\
  (Main.map !! toLowerCase name = None ->
   Index.getChainId name = ChainNum n ->
   Main.getChainId name = ChainNum 1).
Proof.
  split.
  - intros Hm. destruct (main_map_facts _ _ Hm) as (Hnz & Hi & _). split.
    + unfold Main.getChainId, propRead. rewrite Hm.
      rewrite bool_decide_eq_false_2 by exact Hnz. reflexivity.
    + apply index_getChainId_iff. exact Hi.
  - intros Hm Hi. apply index_getChainId_iff in Hi.
    destruct (index_map_facts _ _ Hi) as (_ & _ & Hp & _).
    apply main_getChainId_unknown; assumption.
Qed.

Lemma resolvers_agree_on_main_table_witness :
  (Main.getChainId "Base" = ChainNum 8453 /\ Index.getChainId "Base" = ChainNum 8453) /\
  Main.getChainId "zora" = ChainNum 1.
Proof.
  split.
  - apply (proj1 (resolvers_agree_on_main_table "Base" 8453)). reflexivity.
  - apply (proj2 (resolvers_agree_on_main_table "zora" 7777777)); reflexivity.
Defined.

(** X5.  The explorer link is the explorer's base address followed by
    the transaction hash.  A chain that [index.js] resolves has an
    explorer of its own only if it is one of the seven chains of
    [main.js]; for every other supported chain, and for a chain id that
    did not parse, the link points to etherscan.io. *)
Theorem explorer_link_coverage (txHash name : string) (n : Z) :
  (Index.getChainId name = ChainNum n ->
   toLowerCase name ∉ ["ethereum"; "optimism"; "bnb"; "polygon"; "base"; "arbitrum";
                       "avalanche_c"] ->
   getExplorerLink txHash (Some n) = "https://etherscan.io/tx/" ++ txHash) /\
  (Main.map !! toLowerCase name = Some n ->
   exists base, explorers !! n = Some base /\
                getExplorerLink txHash (Some n) = base ++ txHash) /\
  getExplorerLink txHash None = "https://etherscan.io/tx/" ++ txHash.
Proof.
  split; [|split].
  - intros Hi Hseven. apply index_getChainId_iff in Hi.
    destruct (index_map_facts _ _ Hi) as (_ & _ & _ & [Hin|Hnone]); [contradiction|].
    unfold getExplorerLink. cbn [mbind option_bind]. rewrite Hnone. reflexivity.
  - intros Hm. destruct (main_map_facts _ _ Hm) as (_ & _ & [base Hbase]).
    exists base. split; [exact Hbase|].
    unfold getExplorerLink. cbn [mbind option_bind]. rewrite Hbase. reflexivity.
  - reflexivity.
Qed.

Lemma explorer_link_coverage_witness :
  getExplorerLink "0x1" (Some 7777777) = "https://etherscan.io/tx/0x1" /\
  exists base, explorers !! 8453 = Some base /\
               getExplorerLink "0x1" (Some 8453) = base ++ "0x1".
Proof.
  split.
  - apply (proj1 (explorer_link_coverage "0x1" "zora" 7777777)); [reflexivity|].
    compute_done.
  - apply (proj1 (proj2 (explorer_link_coverage "0x1" "base" 8453))). reflexivity.
Defined.

Lemma index_skips_exactly_unknown_witness :
  chainSkipped (Index.getChainId "solana") = true.
Proof.
  apply (proj2 (index_skips_exactly_unknown "solana" eq_refl)). split; compute_done.
Defined.

(** ** Alert layout *)

Lemma siren_prefix (a : JsNum) :
  trim (str_repeat (siren ++ " ") (emojiCountOf a)) = sirens (emojiCountOf a).
Proof.
  pose proof (emojiCountOf_range a) as Hr.
  destruct (emojiCountOf a) as [|[|[|[|[|[|n]]]]]]; try lia; vm_compute; reflexivity.
Qed.

(** The layout of an alert: as many sirens as the severity, separated
    by single spaces and followed by one space; the inbound glyph and
    [received] exactly when [direction] is ["in"], the outbound glyph
    and [sent] for every other direction; then amount, symbol, USD
    value, the truncated holder and the explorer link. *)
Lemma formatBalanceMessage_layout (P : Platform) (change : BalanceChange)
    (chainId : option Z) :
  formatBalanceMessage P change chainId =
  sirens (emojiCountOf (usdValueOf change)) ++ " "
    ++ (if bool_decide (direction change = "in") then inbox else outbox)
    ++ " *" ++ formatNumber P (amountOf P change) ++ " " ++ symbolOf change
    ++ "* ($" ++ formatNumber P (usdValueOf change) ++ ") "
    ++ (if bool_decide (direction change = "in") then "received" else "sent")
    ++ nl ++ nl
    ++ "Holder: `"
    ++ (slice_head 6 (subscribed_address change) ++ "..."
        ++ slice_tail 4 (subscribed_address change))
    ++ "`" ++ nl ++ nl
    ++ "[View Transaction](" ++ getExplorerLink (transaction_hash change) chainId
    ++ ") · Powered by [Sim APIs](https://sim.dune.com)".
Proof.
  unfold formatBalanceMessage. rewrite siren_prefix. reflexivity.
Qed.

(** X6.  The defaults of the formatter.  A supplied USD value other than
    0 and NaN is printed as it is; a missing, zero or NaN value is
    printed as 0; so the printed value is never NaN.  A supplied
    [decimals] other than 0 and NaN is the exponent passed to
    [Math.pow]; a missing, zero or NaN one is replaced by 18; so the
    exponent is never 0 nor NaN.  A supplied non-empty symbol is printed
    as it is; a missing or empty one is printed as [???]; so the printed
    symbol is never empty. *)
Theorem formatter_defaults (change : BalanceChange) :
  (forall v, value_delta_usd change = Some v -> num_truthy v = true ->
             usdValueOf change = v) /\
  (value_delta_usd change = None \/
   (exists v, value_delta_usd change = Some v /\ num_truthy v = false) ->
   usdValueOf change = num 0) /\
  usdValueOf change ≠ NaN /\
  (forall d, asset change ≫= decimals = Some d -> num_truthy d = true ->
             decimalsOf change = d) /\
  (asset change ≫= decimals = None \/
   (exists d, asset change ≫= decimals = Some d /\ num_truthy d = false) ->
   decimalsOf change = num 18) /\
  num_truthy (decimalsOf change) = true /\
  (forall s, asset change ≫= symbol = Some s -> s ≠ "" -> symbolOf change = s) /\
  (asset change ≫= symbol = None \/ asset change ≫= symbol = Some "" ->
   symbolOf change = "???") /\
  symbolOf change ≠ "".
Proof.
  unfold usdValueOf, decimalsOf, symbolOf, num_or, str_or.
  split; [|split; [|split; [|split; [|split; [|split; [|split; [|split]]]]]]].
  - intros v -> ->. reflexivity.
  - intros [->|(v & -> & ->)]; reflexivity.
  - destruct (value_delta_usd change) as [[| | |q]|]; cbn; try discriminate.
    destruct (Qeq_bool q 0); discriminate.
  - intros d -> ->. reflexivity.
  - intros [->|(d & -> & ->)]; reflexivity.
  - destruct (asset change ≫= decimals) as [v|]; [|reflexivity].
    destruct (num_truthy v) eqn:Hv; [exact Hv | reflexivity].
  - intros s -> Hs. destruct s; [contradiction | reflexivity].
  - intros [->| ->]; reflexivity.
  - destruct (asset change ≫= symbol) as [[|c s]|]; discriminate.
Qed.

Lemma formatter_defaults_witness :
  usdValueOf fooChange = num 250000 /\
  usdValueOf (withUsd "0xb" None) = num 0 /\
  decimalsOf fooChange = num 18 /\
  decimalsOf zeroDecimalsChange = num 18 /\
  symbolOf fooChange = "FOO".
Proof.
  split; [apply (proj1 (formatter_defaults fooChange)); reflexivity|].
  split; [apply (proj1 (proj2 (formatter_defaults (withUsd "0xb" None)))); left; reflexivity|].
  split; [apply (proj1 (proj2 (proj2 (proj2 (formatter_defaults fooChange)))));
          reflexivity|].
  split; [apply (proj1 (proj2 (proj2 (proj2 (proj2
                   (formatter_defaults zeroDecimalsChange))))));
          right; exists (num 0); split; reflexivity|].
  apply (proj1 (proj2 (proj2 (proj2 (proj2 (proj2 (proj2
           (formatter_defaults fooChange)))))))); [reflexivity | discriminate].
Defined.

(** ** Alerts of a whole batch *)

Lemma filter_firstBy {A} (key : A -> string) (Q : string -> Prop)
    `{!forall s, Decision (Q s)} (l : list A) :
  filter (fun x => Q (key x)) (firstBy key l) = firstBy key (filter (fun x => Q (key x)) l).
Proof.
  induction l as [|a l IH]; [reflexivity|].
  cbn [firstBy]. rewrite !filter_cons. destruct (decide (Q (key a))) as [Ha|Ha].
  - cbn [firstBy]. f_equal. rewrite <- IH, !list_filter_filter.
    apply list_filter_iff. intros x. tauto.
  - rewrite <- IH, list_filter_filter. apply list_filter_iff. intros x.
    split; [tauto|]. intros Hx. split; [exact Hx|]. congruence.
Qed.

Lemma firstBy_unseen {A} (key : A -> string) (a : A) (seen : gset string) (l : list A) :
  filter (fun x => key x ≠ key a) (firstBy key (filter (fun x => key x ∉ seen) l))
  = firstBy key (filter (fun x => key x ∉ {[key a]} ∪ seen) l).
Proof.
  pose proof (filter_firstBy key (fun s => s ≠ key a)
                (filter (fun x => key x ∉ seen) l)) as Hc.
  cbn beta in Hc. rewrite Hc, list_filter_filter.
  f_equal. apply list_filter_iff. intros x. set_solver.
Qed.

Lemma firstBy_app {A} (key : A -> string) (l1 l2 : list A) :
  firstBy key (l1 ++ l2) =
  (firstBy key l1 ++
   firstBy key (filter (fun x => key x ∉ (list_to_set (key <$> l1) : gset string)) l2))%list.
Proof.
  revert l2. induction l1 as [|a l1 IH]; intros l2.
  - cbn. f_equal. symmetry. clear. induction l2 as [|b l2 IH]; [reflexivity|].
    rewrite filter_cons, decide_True by set_solver. f_equal. exact IH.
  - cbn [app firstBy]. rewrite IH, filter_app. cbn [fmap list_fmap list_to_set foldr].
    f_equal. f_equal. apply firstBy_unseen.
Qed.

Lemma elem_of_firstBy {A} (key : A -> string) (l : list A) (x : A) :
  x ∈ firstBy key l -> x ∈ l.
Proof.
  revert x. induction l as [|a l IH]; intros x; cbn [firstBy]; [tauto|].
  rewrite !elem_of_cons. intros [->|H]; [left; reflexivity|].
  right. apply IH. apply list_elem_of_filter in H. tauto.
Qed.

Lemma NoDup_firstBy {A} (key : A -> string) (l : list A) : NoDup (key <$> firstBy key l).
Proof.
  induction l as [|a l IH]; cbn [firstBy].
  - constructor.
  - rewrite fmap_cons. constructor.
    + intros H. apply list_elem_of_fmap in H as (x & Hx & Hin).
      apply list_elem_of_filter in Hin as [Hne _]. congruence.
    + revert IH. generalize (firstBy key l). intros d. induction d as [|x d IHd].
      * intros _. constructor.
      * cbn [fmap list_fmap]. rewrite NoDup_cons. intros [Hx Hd].
        rewrite filter_cons. destruct (decide (key x ≠ key a)).
        -- cbn [fmap list_fmap]. rewrite NoDup_cons. split; [|apply IHd, Hd].
           intros H. apply Hx. apply list_elem_of_fmap in H as (y & Hy & Hin).
           apply list_elem_of_fmap. exists y. split; [exact Hy|].
           apply list_elem_of_filter in Hin. tauto.
        -- apply IHd, Hd.
Qed.

Lemma filter_hash_none_seen (batch : list BalanceChange) (seen : gset string) :
  seen = ∅ -> filter (fun x : BalanceChange => transaction_hash x ∉ seen) batch = batch.
Proof.
  intros ->. induction batch as [|a batch IH]; [reflexivity|].
  rewrite filter_cons, decide_True by set_solver. f_equal. exact IH.
Qed.

Section BatchAlerts.

Variable P : Platform.
Variable net : Network.
Variable chainId : option Z.

(** The calls of a whole run of the loop, when no send is rejected. *)
Lemma balancesLoop_requests (batch : list BalanceChange) :
  responds net isTelegram ->
  forall (seen : gset string) (w : World),
    foldM (balancesStep P net chainId) seen batch w =
    (Val (list_to_set (transaction_hash <$> batch) ∪ seen),
     addRequests
       (flat_map (sendsOf P chainId (subscribers w))
          (List.filter material
             (firstBy transaction_hash
                (filter (fun c => transaction_hash c ∉ seen) batch)))) w).
Proof.
  intros Hnet. induction batch as [|c batch IH]; intros seen w.
  - cbn. unfold ret. rewrite addRequests_nil. f_equal. f_equal. set_solver.
  - cbn [foldM]. rewrite filter_cons.
    destruct (decide (transaction_hash c ∈ seen)) as [Hin|Hnew].
    + rewrite decide_False by (intros H; apply H, Hin).
      rewrite balancesStep_seen by exact Hin. unfold bind, ret. rewrite IH.
      f_equal. f_equal. set_solver.
    + rewrite decide_True by exact Hnew. cbn [firstBy]. rewrite firstBy_unseen.
      cbn [List.filter]. unfold material at 1.
      destruct (js_lt (to_number (value_delta_usd c)) (num 100)) eqn:Hlt; cbn [negb].
      * rewrite balancesStep_dropped by assumption. unfold bind, ret. rewrite IH.
        f_equal. f_equal. set_solver.
      * rewrite (bind_val _ _ _ _ _ (balancesStep_alerted_world P net chainId seen c w
                                       Hnew Hlt Hnet)).
        rewrite IH, addRequests_app. cbn [flat_map subscribers addRequests].
        f_equal. f_equal. set_solver.
Qed.

Lemma postBalances_run (batch : list BalanceChange) (w : World) :
  responds net isTelegram ->
  postBalances P net batch chainId w =
  (Val (ReplyProcessed (length (distinctHashes batch))),
   addRequests (flat_map (sendsOf P chainId (subscribers w)) (alerted batch)) w).
Proof.
  intros Hnet. unfold postBalances.
  rewrite (bind_val _ _ _ _ _ (balancesLoop_requests batch Hnet ∅ w)).
  rewrite (filter_hash_none_seen batch ∅ eq_refl). unfold ret, distinctHashes.
  rewrite size_hashes. reflexivity.
Qed.

(** X7.  When no send is rejected, [/balances] makes exactly these calls,
    in this order: for each alerted event of the batch (the first event
    of its transaction hash, if it is material), in batch order, one
    send of its alert to every subscriber, in table order.  The tables
    are left as they were. *)
Theorem postBalances_sends (batch : list BalanceChange) (w : World) :
  responds net isTelegram ->
  exists w',
    postBalances P net batch chainId w
    = (Val (ReplyProcessed (length (distinctHashes batch))), w') /\
    requests w' =
      (requests w ++ flat_map (sendsOf P chainId (subscribers w)) (alerted batch))%list /\
    length (requests w') =
      (length (requests w) + length (alerted batch) * length (subscribers w))%nat /\
    subscribers w' = subscribers w /\
    webhooks w' = webhooks w.
Proof.
  intros Hnet. eexists. split; [apply postBalances_run, Hnet|].
  split; [reflexivity|]. split; [|split; reflexivity].
  cbn [requests addRequests]. rewrite length_app. f_equal.
  induction (alerted batch) as [|c l IH]; [reflexivity|].
  cbn [flat_map]. rewrite length_app, IH. unfold sendsOf. rewrite length_map. reflexivity.
Qed.

(** X9.  The set of seen hashes lives for one request only: the same
    batch delivered twice is alerted twice, with the same sends. *)
Theorem postBalances_twice (batch : list BalanceChange) (w : World) :
  responds net isTelegram ->
  (await r1 <- postBalances P net batch chainId ;
   await r2 <- postBalances P net batch chainId ;
   ret (r1, r2)) w
  = (Val (ReplyProcessed (length (distinctHashes batch)),
          ReplyProcessed (length (distinctHashes batch))),
     addRequests
       (flat_map (sendsOf P chainId (subscribers w)) (alerted batch) ++
        flat_map (sendsOf P chainId (subscribers w)) (alerted batch))%list w).
Proof.
  intros Hnet.
  rewrite (bind_val _ _ _ _ _ (postBalances_run batch w Hnet)).
  rewrite (bind_val _ _ _ _ _ (postBalances_run batch _ Hnet)).
  unfold ret. rewrite addRequests_app. reflexivity.
Qed.

End BatchAlerts.

(** The alerted events of a batch, seen from the first event of a hash. *)
Lemma alerted_first_event (pre post : list BalanceChange) (c : BalanceChange) :
  transaction_hash c ∉ transaction_hash <$> pre ->
  (material c = true -> c ∈ alerted (pre ++ c :: post)%list) /\
  (material c = false ->
   forall x, x ∈ alerted (pre ++ c :: post)%list -> transaction_hash x ≠ transaction_hash c) /\
  NoDup (transaction_hash <$> alerted (pre ++ c :: post)%list) /\
  (forall x, x ∈ alerted (pre ++ c :: post)%list -> x ∈ (pre ++ c :: post)%list /\ material x = true).
Proof.
  intros Hfirst.
  assert (Hsplit : firstBy transaction_hash (pre ++ c :: post)%list =
            (firstBy transaction_hash pre ++
             c :: filter (fun x => transaction_hash x ≠ transaction_hash c)
                    (firstBy transaction_hash
                       (filter (fun x => transaction_hash x ∉
                                   (list_to_set (transaction_hash <$> pre) : gset string))
                          post)))%list).
  { rewrite firstBy_app, filter_cons, decide_True; [reflexivity|].
    rewrite elem_of_list_to_set. exact Hfirst. }
  unfold alerted. split; [|split; [|split]].
  - intros Hm. apply list_elem_of_In, filter_In. split; [|exact Hm].
    apply list_elem_of_In. rewrite Hsplit. apply elem_of_app. right. left.
  - intros Hm x Hx Heq. apply list_elem_of_In, filter_In in Hx as [Hx Hmx].
    apply list_elem_of_In in Hx. rewrite Hsplit in Hx.
    apply elem_of_app in Hx as [Hx|Hx].
    + apply Hfirst. rewrite <- Heq. apply list_elem_of_fmap. exists x.
      split; [reflexivity|]. apply elem_of_firstBy in Hx. exact Hx.
    + apply elem_of_cons in Hx as [->|Hx]; [congruence|].
      apply list_elem_of_filter in Hx as [Hne _]. contradiction.
  - apply (NoDup_fmap_2_strong _).
    + intros x y Hx Hy Hxy. apply list_elem_of_In, filter_In in Hx as [Hx _].
      apply list_elem_of_In, filter_In in Hy as [Hy _].
      apply list_elem_of_In in Hx. apply list_elem_of_In in Hy.
      pose proof (NoDup_firstBy transaction_hash (pre ++ c :: post)%list) as Hnd.
      revert Hnd Hx Hy Hxy. generalize (firstBy transaction_hash (pre ++ c :: post)%list).
      intros l. induction l as [|a l IHl]; intros Hnd Hx Hy Hxy.
      * apply elem_of_nil in Hx. contradiction.
      * rewrite fmap_cons in Hnd. apply NoDup_cons in Hnd as [Ha Hnd].
        apply elem_of_cons in Hx as [->|Hx]; apply elem_of_cons in Hy as [->|Hy].
        -- reflexivity.
        -- exfalso. apply Ha. rewrite Hxy. apply list_elem_of_fmap. eauto.
        -- exfalso. apply Ha. rewrite <- Hxy. apply list_elem_of_fmap. eauto.
        -- apply IHl; assumption.
    + apply NoDup_ListNoDup, List.NoDup_filter, NoDup_ListNoDup.
      eapply NoDup_fmap_1. apply (NoDup_firstBy transaction_hash).
  - intros x Hx. apply list_elem_of_In, filter_In in Hx as [Hx Hmx].
    split; [|exact Hmx]. apply list_elem_of_In in Hx. apply elem_of_firstBy in Hx. exact Hx.
Qed.

Lemma postBalances_sends_witness :
  exists w',
    postBalances exactPlatform netRefusing sampleBatch (Some 1) world0
    = (Val (ReplyProcessed 2), w') /\
    requests w' =
      [TelegramSend "1001" (formatBalanceMessage exactPlatform fooChange (Some 1));
       TelegramSend "1002" (formatBalanceMessage exactPlatform fooChange (Some 1))].
Proof.
  destruct (postBalances_sends exactPlatform netRefusing (Some 1) sampleBatch world0
              (netRefusing_responds isTelegram)) as (w' & Hrun & Hreq & _).
  exists w'. split; [exact Hrun | exact Hreq].
Defined.

Lemma postBalances_twice_witness :
  snd ((await r1 <- postBalances exactPlatform netRefusing sampleBatch (Some 1) ;
        await r2 <- postBalances exactPlatform netRefusing sampleBatch (Some 1) ;
        ret (r1, r2)) world0)
  = addRequests
      [TelegramSend "1001" (formatBalanceMessage exactPlatform fooChange (Some 1));
       TelegramSend "1002" (formatBalanceMessage exactPlatform fooChange (Some 1));
       TelegramSend "1001" (formatBalanceMessage exactPlatform fooChange (Some 1));
       TelegramSend "1002" (formatBalanceMessage exactPlatform fooChange (Some 1))]
      world0.
Proof.
  rewrite (postBalances_twice exactPlatform netRefusing (Some 1) sampleBatch world0
             (netRefusing_responds isTelegram)).
  reflexivity.
Defined.

(** X8.  Which events of a batch are alerted is decided by the first
    event of each transaction hash.  When no send is rejected, the calls
    of [/balances] are the sends of a list of events in which: the first
    event of a hash is present when it is material; when it is not
    material, no event with that hash is present, however large the
    later ones are; no two events share a hash; and every event is a
    material event of the batch. *)
Theorem postBalances_first_event_decides (P : Platform) (net : Network)
    (chainId : option Z) (pre post : list BalanceChange) (c : BalanceChange) (w : World) :
  responds net isTelegram ->
  transaction_hash c ∉ transaction_hash <$> pre ->
  exists events,
    requests (snd (postBalances P net (pre ++ c :: post)%list chainId w)) =
      (requests w ++ flat_map (sendsOf P chainId (subscribers w)) events)%list /\
    (material c = true -> c ∈ events) /\
    (material c = false -> forall x, x ∈ events -> transaction_hash x ≠ transaction_hash c) /\
    NoDup (transaction_hash <$> events) /\
    (forall x, x ∈ events -> x ∈ (pre ++ c :: post)%list /\ material x = true).
Proof.
  intros Hnet Hfirst. exists (alerted (pre ++ c :: post)).
  rewrite (postBalances_run P net chainId _ w Hnet).
  split; [reflexivity|]. apply alerted_first_event, Hfirst.
Qed.

Lemma postBalances_first_event_decides_witness :
  exists events,
    requests (snd (postBalances exactPlatform netRefusing
                     ([] ++ withUsd "0xa" (Some (num 50))
                         :: [withUsd "0xa" (Some (num 500)); fooChange])%list
                     (Some 1) world0)) =
      (requests world0 ++
       flat_map (sendsOf exactPlatform (Some 1) (subscribers world0)) events)%list /\
    forall x, x ∈ events -> transaction_hash x ≠ "0xa".
Proof.
  destruct (postBalances_first_event_decides exactPlatform netRefusing (Some 1) []
              [withUsd "0xa" (Some (num 500)); fooChange]
              (withUsd "0xa" (Some (num 50))) world0
              (netRefusing_responds isTelegram) ltac:(compute_done))
    as (events & Hreq & _ & Hmask & _).
  exists events. split; [exact Hreq|]. apply Hmask. reflexivity.
Defined.

(** ** Subscriber commands *)

Section Telegram.

Variable net : Network.

Lemma telegram_start (m : TelegramMessage) (text : string) (w : World) :
  msg_text m = Some text ->
  String.prefix "/start" text = true ->
  postTelegramWebhook net {| upd_message := Some m |} w =
  (perform addSubscriber (msg_chat m) ;
   perform sendTelegramMessage net welcomeText (msg_chat m) ;
   ret ReplyOk) w.
Proof.
  intros Ht Hp. unfold postTelegramWebhook. cbn [upd_message]. rewrite Ht.
  destruct text as [|c text]; [discriminate Hp|]. rewrite Hp.
  unfold bind. destruct (addSubscriber (msg_chat m) w) as [[[]|e] w1]; [|reflexivity].
  destruct (sendTelegramMessage net welcomeText (msg_chat m) w1) as [[b|e] w2]; reflexivity.
Qed.

(** What [/start] leaves behind, whatever the network answers. *)
Lemma telegram_start_world (m : TelegramMessage) (text : string) (w : World) :
  msg_text m = Some text ->
  String.prefix "/start" text = true ->
  exists o,
    postTelegramWebhook net {| upd_message := Some m |} w =
    (o,
     {| subscribers := if bool_decide (msg_chat m ∈ subscribers w) then subscribers w
                       else subscribers w ++ [msg_chat m];
        webhooks := webhooks w;
        requests := requests w ++ [TelegramSend (msg_chat m) welcomeText] |}) /\
    match net (length (requests w)) (TelegramSend (msg_chat m) welcomeText) with
    | Responded _ => o = Val ReplyOk
    | Rejected e => o = Exn e
    end.
Proof.
  intros Ht Hp. rewrite (telegram_start m text w Ht Hp).
  unfold bind, addSubscriber, sendTelegramMessage, bind, fetch, ret.
  assert (Hlen : length (requests (if bool_decide (msg_chat m ∈ subscribers w) then w
                   else {| subscribers := subscribers w ++ [msg_chat m];
                           webhooks := webhooks w; requests := requests w |}))
                 = length (requests w)) by (case_bool_decide; reflexivity).
  rewrite Hlen.
  destruct (net (length (requests w)) (TelegramSend (msg_chat m) welcomeText)) as [e|r];
    eexists; (split; [|reflexivity]); unfold logRequest;
    case_bool_decide; destruct w; reflexivity.
Qed.

(** X10.  [/start] (any text that begins with it) records the chat as a
    subscriber before the welcome is sent, so the subscription holds even
    if that send is rejected; a chat that is already subscribed leaves
    the table unchanged, a new one is appended; the table never holds a
    chat twice; exactly one call is made, the welcome to that chat; the
    webhook mirror is untouched. *)
Theorem telegram_start_subscribes (m : TelegramMessage) (text : string) (w : World) :
  msg_text m = Some text ->
  String.prefix "/start" text = true ->
  exists o w',
    postTelegramWebhook net {| upd_message := Some m |} w = (o, w') /\
    msg_chat m ∈ subscribers w' /\
    (msg_chat m ∈ subscribers w -> subscribers w' = subscribers w) /\
    (msg_chat m ∉ subscribers w -> subscribers w' = (subscribers w ++ [msg_chat m])%list) /\
    (NoDup (subscribers w) -> NoDup (subscribers w')) /\
    requests w' = (requests w ++ [TelegramSend (msg_chat m) welcomeText])%list /\
    webhooks w' = webhooks w /\
    (responds net isTelegram -> o = Val ReplyOk).
Proof.
  intros Ht Hp. destruct (telegram_start_world m text w Ht Hp) as (o & Hrun & Ho).
  eexists o, _. split; [exact Hrun|]. cbn [subscribers requests webhooks].
  split; [case_bool_decide; [assumption | apply elem_of_app; right; left]|].
  split; [intros Hin; rewrite bool_decide_eq_true_2 by exact Hin; reflexivity|].
  split; [intros Hin; rewrite bool_decide_eq_false_2 by exact Hin; reflexivity|].
  split.
  { intros Hnd. case_bool_decide as Hin; [exact Hnd|].
    apply NoDup_app. split; [exact Hnd|]. split; [|apply NoDup_singleton].
    intros x Hx Hx'. apply list_elem_of_singleton in Hx'. subst x. contradiction. }
  split; [reflexivity|]. split; [reflexivity|].
  intros Hnet.
  destruct (Hnet (length (requests w)) (TelegramSend (msg_chat m) welcomeText) eq_refl)
    as [r Hr].
  rewrite Hr in Ho. exact Ho.
Qed.

(** X11.  Subscribing twice is idempotent: after a second [/start] from
    the same chat the subscriber table is what it was after the first. *)
Theorem telegram_start_twice (m : TelegramMessage) (text : string) (w : World) :
  msg_text m = Some text ->
  String.prefix "/start" text = true ->
  subscribers
    (snd (postTelegramWebhook net {| upd_message := Some m |}
            (snd (postTelegramWebhook net {| upd_message := Some m |} w))))
  = subscribers (snd (postTelegramWebhook net {| upd_message := Some m |} w)).
Proof.
  intros Ht Hp.
  destruct (telegram_start_world m text w Ht Hp) as (o & Hrun & _). rewrite Hrun.
  cbn [snd].
  destruct (telegram_start_world m text
              {| subscribers := if bool_decide (msg_chat m ∈ subscribers w) then subscribers w
                                else subscribers w ++ [msg_chat m];
                 webhooks := webhooks w;
                 requests := requests w ++ [TelegramSend (msg_chat m) welcomeText] |}
              Ht Hp) as (o' & Hrun' & _).
  rewrite Hrun'. cbn [snd subscribers].
  match goal with
  | |- (if bool_decide (?c ∈ ?S) then _ else _) = _ => assert (Hin : c ∈ S)
  end.
  { case_bool_decide; [assumption | apply elem_of_app; right; left]. }
  rewrite bool_decide_eq_true_2 by exact Hin. reflexivity.
Qed.

(** X12.  Any update whose text does not begin with [/start] leaves both
    tables as they were.  [/status] makes one call, telling the chat
    whether it is in the subscriber table; every other update (no
    message, no text, empty text, other text) makes no call at all and
    is acknowledged. *)
Theorem telegram_other_updates (upd : TelegramUpdate) (w : World) :
  (forall m text, upd_message upd = Some m -> msg_text m = Some text ->
                  String.prefix "/start" text = false) ->
  exists o w',
    postTelegramWebhook net upd w = (o, w') /\
    subscribers w' = subscribers w /\
    webhooks w' = webhooks w /\
    (forall m text,
        upd_message upd = Some m -> msg_text m = Some text ->
        String.prefix "/status" text = true ->
        requests w' =
          (requests w ++
           [TelegramSend (msg_chat m)
              (if bool_decide (msg_chat m ∈ subscribers w)
               then subscribedText else notSubscribedText)])%list) /\
    ((forall m text, upd_message upd = Some m -> msg_text m = Some text ->
                     String.prefix "/status" text = false) ->
     o = Val ReplyOk /\ w' = w).
Proof.
  intros Hnostart. unfold postTelegramWebhook.
  destruct upd as [[m|]]; cbn [upd_message] in *.
  2:{ exists (Val ReplyOk), w. do 3 (split; [reflexivity|]).
      split; [intros m text [=] | intros _; split; reflexivity]. }
  destruct (msg_text m) as [[|c text]|] eqn:Ht.
  1,3: exists (Val ReplyOk), w; do 3 (split; [reflexivity|]);
       (split; [intros m' text' [= <-]; rewrite Ht; intros [= <-]; discriminate
               | intros _; split; reflexivity]).
  rewrite (Hnostart m _ eq_refl Ht).
  destruct (String.prefix "/status" (String c text)) eqn:Hs.
  - unfold bind, getAllSubscribers, sendTelegramMessage, bind, fetch, ret.
    destruct (net _ _) as [e|r]; eexists _, _; (split; [reflexivity|]);
      cbn [subscribers webhooks requests logRequest];
      (split; [reflexivity|]); (split; [reflexivity|]);
      (split; [intros m' text' [= <-] _ _; reflexivity|]);
      intros Hno; specialize (Hno m _ eq_refl Ht); congruence.
  - exists (Val ReplyOk), w. do 3 (split; [reflexivity|]).
    split; [|intros _; split; reflexivity].
    intros m' text' [= <-]. rewrite Ht. intros [= <-]. congruence.
Qed.

End Telegram.

Lemma telegram_start_subscribes_witness :
  exists o w',
    postTelegramWebhook netAccepting
      {| upd_message := Some {| msg_text := Some "/start now"; msg_chat := "1003" |} |} world0
    = (o, w') /\
    subscribers w' = ["1001"; "1002"; "1003"] /\
    o = Val ReplyOk.
Proof.
  destruct (telegram_start_subscribes netAccepting
              {| msg_text := Some "/start now"; msg_chat := "1003" |} "/start now" world0
              eq_refl eq_refl)
    as (o & w' & Hrun & _ & _ & Hnew & _ & _ & _ & Ho).
  exists o, w'. split; [exact Hrun|]. split.
  - apply Hnew. compute_done.
  - apply Ho. intros k req _. eexists. reflexivity.
Defined.

Lemma telegram_start_twice_witness :
  subscribers
    (snd (postTelegramWebhook netAccepting
            {| upd_message := Some {| msg_text := Some "/start"; msg_chat := "1003" |} |}
            (snd (postTelegramWebhook netAccepting
                    {| upd_message := Some {| msg_text := Some "/start"; msg_chat := "1003" |} |}
                    world0))))
  = subscribers
      (snd (postTelegramWebhook netAccepting
              {| upd_message := Some {| msg_text := Some "/start"; msg_chat := "1003" |} |}
              world0)).
Proof.
  exact (telegram_start_twice netAccepting
           {| msg_text := Some "/start"; msg_chat := "1003" |} "/start" world0
           eq_refl eq_refl).
Defined.

Lemma telegram_other_updates_witness :
  exists o w',
    postTelegramWebhook netAccepting
      {| upd_message := Some {| msg_text := Some "/status"; msg_chat := "1003" |} |} world0
    = (o, w') /\
    subscribers w' = ["1001"; "1002"] /\
    requests w' = [TelegramSend "1003" notSubscribedText].
Proof.
  destruct (telegram_other_updates netAccepting
              {| upd_message := Some {| msg_text := Some "/status"; msg_chat := "1003" |} |}
              world0)
    as (o & w' & Hrun & Hsubs & _ & Hstatus & _).
  - intros m text [= <-] [= <-]. reflexivity.
  - exists o, w'. split; [exact Hrun|]. split; [exact Hsubs|].
    apply (Hstatus _ "/status" eq_refl eq_refl eq_refl).
Defined.

Lemma elem_of_sends (P : Platform) (chainId : option Z) (subs : list string)
    (events : list BalanceChange) (c msg : string) :
  TelegramSend c msg ∈ flat_map (sendsOf P chainId subs) events <->
  c ∈ subs /\ exists e, e ∈ events /\ msg = formatBalanceMessage P e chainId.
Proof.
  rewrite list_elem_of_In, in_flat_map. unfold sendsOf. split.
  - intros (e & He & Hin). apply in_map_iff in Hin as (c' & [= Hc1 Hc2] & Hc). subst c' msg.
    split; [apply list_elem_of_In, Hc|]. exists e. split; [apply list_elem_of_In, He | reflexivity].
  - intros (Hc & e & He & ->). exists e. split; [apply list_elem_of_In, He|].
    apply in_map_iff. exists c. split; [reflexivity | apply list_elem_of_In, Hc].
Qed.

(** X13.  Subscribing and alerting compose: once a chat has sent
    [/start], every alerted event of a later batch is sent to it; and
    the sends of a batch go to chats of the subscriber table only, each
    carrying the alert of an alerted event. *)
Theorem subscriber_receives_alerts (P : Platform) (net : Network) (chainId : option Z)
    (m : TelegramMessage) (text : string) (batch : list BalanceChange) (w : World) :
  msg_text m = Some text ->
  String.prefix "/start" text = true ->
  responds net isTelegram ->
  exists w1 w2 sends,
    postTelegramWebhook net {| upd_message := Some m |} w = (Val ReplyOk, w1) /\
    postBalances P net batch chainId w1
    = (Val (ReplyProcessed (length (distinctHashes batch))), w2) /\
    requests w2 = (requests w1 ++ sends)%list /\
    (forall e, e ∈ alerted batch ->
               TelegramSend (msg_chat m) (formatBalanceMessage P e chainId) ∈ sends) /\
    (forall c msg, TelegramSend c msg ∈ sends ->
                   c ∈ subscribers w1 /\
                   exists e, e ∈ alerted batch /\ msg = formatBalanceMessage P e chainId).
Proof.
  intros Ht Hp Hnet.
  destruct (telegram_start_world net m text w Ht Hp) as (o & Hrun & Ho).
  destruct (Hnet (length (requests w)) (TelegramSend (msg_chat m) welcomeText) eq_refl)
    as [r Hr].
  rewrite Hr in Ho. subst o.
  eexists _, _, _. split; [exact Hrun|].
  split; [apply postBalances_run, Hnet|]. split; [reflexivity|].
  cbn [subscribers]. split.
  - intros e He. apply elem_of_sends. split; [|eauto].
    case_bool_decide; [assumption | apply elem_of_app; right; left].
  - intros c msg Hin. apply elem_of_sends in Hin. exact Hin.
Qed.

Lemma subscriber_receives_alerts_witness :
  exists (w1 w2 : World) (sends : list Request),
    postTelegramWebhook netAccepting
      {| upd_message := Some {| msg_text := Some "/start"; msg_chat := "1003" |} |} world0
    = (Val ReplyOk, w1) /\
    postBalances exactPlatform netAccepting sampleBatch (Some 1) w1
    = (Val (ReplyProcessed 2), w2) /\
    TelegramSend "1003" (formatBalanceMessage exactPlatform fooChange (Some 1)) ∈ sends.
Proof.
  destruct (subscriber_receives_alerts exactPlatform netAccepting (Some 1)
              {| msg_text := Some "/start"; msg_chat := "1003" |} "/start" sampleBatch world0
              eq_refl eq_refl (fun k req _ => ex_intro _ _ eq_refl))
    as (w1 & w2 & sends & H1 & H2 & _ & Hall & _).
  exists w1, w2, sends. split; [exact H1|]. split; [exact H2|].
  apply Hall. replace (alerted sampleBatch) with [fooChange] by (vm_compute; reflexivity).
  left.
Defined.

(** ** Enumerating a registry that paginates *)

Lemma dedupById_NoDup (l : list Webhook) : NoDup (id <$> l) -> dedupById l = l.
Proof.
  induction l as [|a l IH]; [reflexivity|].
  rewrite fmap_cons, NoDup_cons. intros [Ha Hl]. cbn [dedupById]. rewrite (IH Hl).
  f_equal. clear IH Hl. induction l as [|b l IHl]; [reflexivity|].
  rewrite filter_cons, decide_True.
  - f_equal. apply IHl. intros H. apply Ha. rewrite fmap_cons. right. exact H.
  - intros Heq. apply Ha. rewrite fmap_cons, Heq. left.
Qed.

Lemma filter_unseen_page (all : list Webhook) (m : nat) :
  NoDup (id <$> all) ->
  filter (fun x : Webhook => id x ∉ (list_to_set (id <$> take m all) : gset string))
    (take 300 (drop m all))
  = take 300 (drop m all).
Proof.
  intros Hnd. rewrite <- (take_drop m all), fmap_app in Hnd at 1.
  apply NoDup_app in Hnd as (_ & Hdisj & _).
  assert (Hsub : forall x, x ∈ take 300 (drop m all) -> x ∈ drop m all).
  { intros x Hx. eapply elem_of_sublist; [exact Hx | apply sublist_take]. }
  revert Hsub. generalize (take 300 (drop m all)). intros page Hsub.
  induction page as [|a page IH]; [reflexivity|].
  rewrite filter_cons, decide_True.
  - f_equal. apply IH. intros x Hx. apply Hsub. right. exact Hx.
  - rewrite elem_of_list_to_set. intros Hin. apply (Hdisj _ Hin).
    apply list_elem_of_fmap. exists a. split; [reflexivity|]. apply Hsub. left.
Qed.

Lemma NoDup_page (all : list Webhook) (m : nat) :
  NoDup (id <$> all) -> NoDup (id <$> take 300 (drop m all)).
Proof.
  intros Hnd. eapply sublist_NoDup; [exact Hnd|].
  apply fmap_sublist. etransitivity; [apply sublist_take | apply sublist_drop].
Qed.

Lemma paged_loop (all : list Webhook) (n : nat) :
  NoDup (id <$> all) ->
  forall (k : nat) (w : World),
    (300 * k <= length all)%nat ->
    exists reqs,
      listLoop (netPaged all) n (take (300 * k) all)
        (list_to_set (id <$> take (300 * k) all)) (Z.of_nat (300 * k)) w
      = (Val (take (300 * (k + n)) all), addRequests reqs w) /\
      length reqs = (n `min` ((length all - 300 * k) / 300 + 1))%nat.
Proof.
  intros Hnd. induction n as [|n IH]; intros k w Hk.
  - exists []. rewrite Nat.add_0_r, addRequests_nil. split; reflexivity.
  - rewrite (listLoop_page _ _ _ _ _ _ (take 300 (drop (300 * k) all)))
      by (cbn [netPaged]; rewrite Nat2Z.id; reflexivity).
    set (m := (300 * k)%nat) in *. set (page := take 300 (drop m all)).
    assert (Hlen : length page = (300 `min` (length all - m))%nat)
      by (unfold page; rewrite length_take, length_drop; reflexivity).
    destruct (length page =? 0)%nat eqn:Hemp.
    { apply Nat.eqb_eq in Hemp. exists [ListWebhooks limit (Z.of_nat m)].
      unfold ret. split.
      - f_equal. f_equal. rewrite !take_ge by lia. reflexivity.
      - cbn [length]. replace (length all - m)%nat with 0%nat by lia. cbn. lia. }
    apply Nat.eqb_neq in Hemp.
    rewrite collectNew_spec. unfold page at 2 3. rewrite filter_unseen_page by exact Hnd.
    fold page. rewrite (dedupById_NoDup page) by (apply NoDup_page, Hnd).
    cbn [Nat.add]. destruct (length page =? 0)%nat eqn:Hemp'; [apply Nat.eqb_eq in Hemp'; lia|].
    assert (Hacc : (take m all ++ page)%list = take (m + 300) all)
      by (apply take_take_drop).
    rewrite Hacc.
    destruct (Z.of_nat (length page) <? limit) eqn:Hshort.
    { apply Z.ltb_lt in Hshort. unfold limit in Hshort.
      exists [ListWebhooks limit (Z.of_nat m)]. unfold ret. split.
      - f_equal. f_equal. rewrite !take_ge by lia. reflexivity.
      - cbn [length]. rewrite Nat.div_small by lia. cbn. lia. }
    apply Z.ltb_ge in Hshort. unfold limit in Hshort.
    assert (Hfull : (m + 300 <= length all)%nat) by lia.
    replace (m + 300)%nat with (300 * S k)%nat in * by lia.
    replace (list_to_set (id <$> take m all) ∪ list_to_set (id <$> page))
      with (list_to_set (id <$> take (300 * S k) all) : gset string)
      by (rewrite <- Hacc, fmap_app, list_to_set_app_L; reflexivity).
    replace (Z.of_nat m + limit) with (Z.of_nat (300 * S k)) by (unfold limit; lia).
    destruct (IH (S k) (addRequests [ListWebhooks limit (Z.of_nat m)] w) Hfull)
      as (reqs & Hrun & Hcount).
    exists (ListWebhooks limit (Z.of_nat m) :: reqs). rewrite Hrun, addRequests_app.
    split; [do 3 f_equal; lia|].
    cbn [length]. rewrite Hcount.
    replace (length all - m)%nat with ((length all - 300 * S k) + 1 * 300)%nat by lia.
    rewrite Nat.div_add by lia. lia.
Qed.

(** X14.  Against a registry that honours [limit] and [offset] over a
    list of webhooks with distinct ids, the enumerator returns the
    webhooks in registry order: all of them when there are at most
    15,000, otherwise the first 15,000 only.  It makes one request per
    full page plus one, and never more than 50. *)
Theorem listAllWebhooks_paged (all : list Webhook) (w : World) :
  NoDup (id <$> all) ->
  exists reqs,
    listAllWebhooks (netPaged all) w = (Val (take (300 * 50) all), addRequests reqs w) /\
    length reqs = (50 `min` (length all / 300 + 1))%nat /\
    ((length all <= 300 * 50)%nat -> take (300 * 50) all = all).
Proof.
  intros Hnd.
  destruct (paged_loop all maxIterations Hnd 0 w ltac:(lia)) as (reqs & Hrun & Hcount).
  exists reqs. split; [exact Hrun|]. split.
  - rewrite Hcount. rewrite Nat.sub_0_r. reflexivity.
  - apply take_ge.
Qed.

Lemma listAllWebhooks_paged_witness :
  exists reqs,
    listAllWebhooks (netPaged [whB; whA; whC]) world0
    = (Val [whB; whA; whC], addRequests reqs world0) /\
    length reqs = 1%nat.
Proof.
  destruct (listAllWebhooks_paged [whB; whA; whC] world0 ltac:(compute_done))
    as (reqs & Hrun & Hcount & _).
  exists reqs. split; [exact Hrun | exact Hcount].
Defined.

(** ** A listing that fails *)

(** X15.  A listing request answered with a non-2xx status is not an
    error: if it is the first one, the enumerator returns the empty list
    and [pause], [resume] and [view] reply success with all counts 0, as
    for an empty registry.  A listing request that is rejected makes the
    three handlers reply 500 with the rejection's message.  In both
    cases no update is issued. *)
Theorem failed_first_listing (net : Network) (w : World) :
  (forall r,
      net (length (requests w)) (ListWebhooks limit 0) = Responded r ->
      ok r = false ->
      listAllWebhooks net w = (Val [], addRequests [ListWebhooks limit 0] w) /\
      postPauseWebhooks net w
      = (Val (ReplyPaused 0 0 0 0), addRequests [ListWebhooks limit 0] w) /\
      postResumeWebhooks net w
      = (Val (ReplyResumed 0 0 0 0), addRequests [ListWebhooks limit 0] w) /\
      getViewWebhooks net w
      = (Val (ReplyView 0 0 0 []), addRequests [ListWebhooks limit 0] w)) /\
  (forall e,
      net (length (requests w)) (ListWebhooks limit 0) = Rejected e ->
      listAllWebhooks net w = (Exn e, addRequests [ListWebhooks limit 0] w) /\
      postPauseWebhooks net w
      = (Val (ReplyError500 e), addRequests [ListWebhooks limit 0] w) /\
      postResumeWebhooks net w
      = (Val (ReplyError500 e), addRequests [ListWebhooks limit 0] w) /\
      getViewWebhooks net w
      = (Val (ReplySetupError500 e), addRequests [ListWebhooks limit 0] w)).
Proof.
  split.
  - intros r Hans Hok.
    assert (Hlist : listAllWebhooks net w = (Val [], addRequests [ListWebhooks limit 0] w)).
    { unfold listAllWebhooks. change maxIterations with (S 49). cbn [listLoop].
      rewrite (bind_val _ _ _ _ _ (fetch_responded _ _ _ _ Hans)). rewrite Hok. reflexivity. }
    split; [exact Hlist|].
    unfold postPauseWebhooks, postResumeWebhooks, getViewWebhooks, toggleAll, tryCatch.
    rewrite !(bind_val _ _ _ _ _ Hlist). repeat split.
  - intros e Hans.
    assert (Hlist : listAllWebhooks net w = (Exn e, addRequests [ListWebhooks limit 0] w)).
    { unfold listAllWebhooks. change maxIterations with (S 49). cbn [listLoop].
      rewrite (bind_exn _ _ _ _ _ (fetch_rejected _ _ _ _ Hans)). reflexivity. }
    split; [exact Hlist|].
    unfold postPauseWebhooks, postResumeWebhooks, getViewWebhooks, toggleAll, tryCatch.
    rewrite !(bind_exn _ _ _ _ _ Hlist). repeat split.
Qed.

Lemma failed_first_listing_witness :
  postPauseWebhooks netRefusing world0
  = (Val (ReplyPaused 0 0 0 0), addRequests [ListWebhooks limit 0] world0).
Proof.
  apply (proj1 (proj2 (proj1 (failed_first_listing netRefusing world0) _ eq_refl eq_refl))).
Defined.

(** ** What pause and resume do to the tables *)

Lemma mirrorOnlyActive_refl (v : Z) (w : World) : mirrorOnlyActive v w w.
Proof. split; [reflexivity|]. intros k. left. reflexivity. Qed.

Lemma mirrorOnlyActive_trans (v : Z) (w1 w2 w3 : World) :
  mirrorOnlyActive v w1 w2 -> mirrorOnlyActive v w2 w3 -> mirrorOnlyActive v w1 w3.
Proof.
  intros [Hs1 Hm1] [Hs2 Hm2]. split; [congruence|]. intros k.
  destruct (Hm1 k) as [H1|(r1 & H1 & H1')], (Hm2 k) as [H2|(r2 & H2 & H2')].
  - left. congruence.
  - right. exists r2. split; congruence.
  - right. exists r1. split; congruence.
  - right. exists r1. split; [exact H1|]. rewrite H2'.
    rewrite H1' in H2. injection H2 as <-. reflexivity.
Qed.

Lemma mirrorOnlyActive_addRequests (v : Z) (reqs : list Request) (w : World) :
  mirrorOnlyActive v w (addRequests reqs w).
Proof. split; [reflexivity|]. intros k. left. reflexivity. Qed.

Lemma mirrorOnlyActive_afterUpdate (target : bool) (webhookId : string) (w : World) :
  mirrorOnlyActive (if target then 1 else 0) w (afterUpdate target webhookId w).
Proof.
  split; [reflexivity|]. intros k. cbn [afterUpdate webhooks]. rewrite lookup_alter.
  case_decide as Hk; [subst k|left; reflexivity].
  destruct (webhooks w !! webhookId) as [r|]; [right; eauto | left; reflexivity].
Qed.

Lemma mirrorOnlyActive_keys (v : Z) (w w' : World) :
  mirrorOnlyActive v w w' -> mirrorKeys (webhooks w') = mirrorKeys (webhooks w).
Proof.
  intros [_ Hm]. apply map_eq. intros k. unfold mirrorKeys. rewrite !lookup_fmap.
  destruct (Hm k) as [->|(r & -> & ->)]; reflexivity.
Qed.

Section TableInvariants.

Variable net : Network.

Lemma toggleStep_stable (target : bool) (c : Counters) (wh : Webhook) (w : World) :
  mirrorOnlyActive (if target then 1 else 0) w (snd (toggleStep net target c wh w)).
Proof.
  destruct (decide (active wh = target)) as [Ha|Ha].
  - rewrite toggleStep_skip by exact Ha. apply mirrorOnlyActive_refl.
  - destruct (net (length (requests w)) (PatchWebhook (id wh) target)) as [e|r] eqn:Hans.
    + rewrite (toggleStep_rejected net target c wh w e Ha Hans).
      apply mirrorOnlyActive_addRequests.
    + destruct (ok r) eqn:Hok.
      * rewrite (toggleStep_accepted net target c wh w r Ha Hans Hok).
        apply mirrorOnlyActive_afterUpdate.
      * rewrite (toggleStep_refused net target c wh w r Ha Hans Hok).
        apply mirrorOnlyActive_addRequests.
Qed.

Lemma foldM_stable {A S} (R : World -> World -> Prop) (body : S -> A -> M S) :
  (forall w, R w w) ->
  (forall w1 w2 w3, R w1 w2 -> R w2 w3 -> R w1 w3) ->
  (forall s a w, R w (snd (body s a w))) ->
  forall (l : list A) (s : S) (w : World), R w (snd (foldM body s l w)).
Proof.
  intros Hrefl Htrans Hstep. induction l as [|a l IH]; intros s w.
  - apply Hrefl.
  - cbn [foldM]. unfold bind. specialize (Hstep s a w).
    destruct (body s a w) as [[s'|e] w1]; cbn [snd] in *.
    + eapply Htrans; [exact Hstep | apply IH].
    + exact Hstep.
Qed.

Lemma listAllWebhooks_stable (v : Z) (w : World) :
  mirrorOnlyActive v w (snd (listAllWebhooks net w)).
Proof.
  destruct (listLoop_spec net maxIterations [] ∅ 0 w) as (o & reqs & Hrun & _).
  - constructor.
  - intros wh Hwh. apply elem_of_nil in Hwh. contradiction.
  - unfold listAllWebhooks. rewrite Hrun. apply mirrorOnlyActive_addRequests.
Qed.

(** X16.  Whatever the remote side answers, a pause or resume request is
    always answered with a reply (a failure becomes the 500 reply), it
    leaves the subscriber table alone, and in the webhook mirror it adds
    no row, removes none and changes no [token_address] or [chain_id]:
    a row is either untouched or has its [active] column set to the
    target value. *)
Theorem toggleAll_tables (target : bool) (mk : nat -> nat -> nat -> nat -> Reply)
    (w : World) :
  exists reply w',
    toggleAll net target mk w = (Val reply, w') /\
    mirrorOnlyActive (if target then 1 else 0) w w' /\
    mirrorKeys (webhooks w') = mirrorKeys (webhooks w) /\
    dom (webhooks w') = dom (webhooks w).
Proof.
  assert (Hstable : mirrorOnlyActive (if target then 1 else 0) w
                      (snd (toggleAll net target mk w))).
  { unfold toggleAll, tryCatch, bind.
    pose proof (listAllWebhooks_stable (if target then 1 else 0) w) as Hl.
    destruct (listAllWebhooks net w) as [[ws|e] w1]; cbn [snd] in *; [|exact Hl].
    pose proof (foldM_stable (mirrorOnlyActive (if target then 1 else 0))
                  (toggleStep net target)
                  (mirrorOnlyActive_refl _) (mirrorOnlyActive_trans _)
                  (toggleStep_stable target) ws
                  {| changed := 0; skipped := 0; failed := 0 |} w1) as Hf.
    destruct (foldM _ _ ws w1) as [[c|e] w2]; cbn [snd] in *;
      eapply mirrorOnlyActive_trans; eassumption. }
  assert (Hval : exists reply, fst (toggleAll net target mk w) = Val reply).
  { unfold toggleAll, tryCatch, bind.
    destruct (listAllWebhooks net w) as [[ws|e] w1]; [|eexists; reflexivity].
    destruct (foldM _ _ ws w1) as [[c|e] w2]; eexists; reflexivity. }
  destruct Hval as [reply Hreply].
  exists reply, (snd (toggleAll net target mk w)).
  split; [rewrite <- Hreply; apply surjective_pairing|].
  split; [exact Hstable|].
  pose proof (mirrorOnlyActive_keys _ _ _ Hstable) as Hkeys.
  split; [exact Hkeys|].
  unfold mirrorKeys in Hkeys.
  rewrite <- (dom_fmap_L (fun r => (token_address r, chain_id r)) (webhooks (snd _))).
  rewrite Hkeys. apply dom_fmap_L.
Qed.

End TableInvariants.

Lemma toggleAll_tables_witness :
  exists reply w',
    postPauseWebhooks netPatchRejected worldMirror = (Val reply, w') /\
    dom (webhooks w') = dom (webhooks worldMirror).
Proof.
  destruct (toggleAll_tables netPatchRejected false ReplyPaused worldMirror)
    as (reply & w' & Hrun & _ & _ & Hdom).
  exists reply, w'. split; [exact Hrun | exact Hdom].
Defined.

(** The mirror after the updates of [ws] were all accepted. *)
Lemma lookup_alter_all (f : MirrorRow -> MirrorRow) (ids : list string)
    (m : gmap string MirrorRow) (k : string) :
  (forall r, f (f r) = f r) ->
  foldl (fun acc i => alter f i acc) m ids !! k =
  if bool_decide (k ∈ ids) then f <$> m !! k else m !! k.
Proof.
  intros Hidem. revert m. induction ids as [|i ids IH]; intros m; [reflexivity|].
  cbn [foldl]. rewrite IH. rewrite lookup_alter.
  destruct (decide (i = k)) as [->|Hne].
  - rewrite (bool_decide_eq_true_2 (k ∈ k :: ids)) by left.
    case_bool_decide; [|reflexivity].
    destruct (m !! k); cbn; [rewrite Hidem|]; reflexivity.
  - case_bool_decide as Hin.
    + rewrite bool_decide_eq_true_2 by (right; exact Hin). reflexivity.
    + rewrite bool_decide_eq_false_2; [reflexivity|].
      intros H. apply elem_of_cons in H as [->|H]; [apply Hne; reflexivity | contradiction].
Qed.

Section AcceptedRuns.

Variable net : Network.
Hypothesis Haccept : acceptsPatches net.

Lemma toggleLoop_accepted (target : bool) (ws : list Webhook) :
  forall (c : Counters) (w : World),
    foldM (toggleStep net target) c ws w =
    (Val {| changed := (changed c + length (todo target ws))%nat;
            skipped := (skipped c + length (filter (fun wh => active wh = target) ws))%nat;
            failed := failed c |},
     {| subscribers := subscribers w;
        webhooks := foldl (fun acc i => alter (setMirrorActive (if target then 1 else 0)) i acc)
                      (webhooks w) (id <$> todo target ws);
        requests := requests w ++
                    map (fun wh => PatchWebhook (id wh) target) (todo target ws) |}).
Proof.
  induction ws as [|wh ws IH]; intros c w.
  - cbn. unfold ret. rewrite !Nat.add_0_r, app_nil_r. destruct c, w. reflexivity.
  - cbn [foldM]. unfold todo. rewrite !filter_cons.
    destruct (decide (active wh = target)) as [Ha|Ha].
    + rewrite decide_False by (intros H; apply H, Ha).
      rewrite (bind_val _ _ _ _ _ (toggleStep_skip net target c wh w Ha)), IH.
      cbn. fold (todo target ws). do 2 f_equal. f_equal; lia.
    + rewrite decide_True by exact Ha.
      destruct (Haccept (length (requests w)) (id wh) target) as (r & Hans & Hok).
      rewrite (bind_val _ _ _ _ _ (toggleStep_accepted net target c wh w r Ha Hans Hok)), IH.
      cbn. fold (todo target ws). rewrite <- app_assoc. do 2 f_equal. f_equal; lia.
Qed.

(** X17.  When the listing returns [ws] and every update is accepted, the
    run updates exactly the webhooks of [ws] that are not yet in the
    target state: their mirror rows, where they exist, end with [active]
    at the target value, and every other row of the mirror is as before,
    including the row of a webhook that the registry already reports in
    the target state, whatever its mirror row says. *)
Theorem toggleAll_accepted_mirror (target : bool) (mk : nat -> nat -> nat -> nat -> Reply)
    (w w1 : World) (ws : list Webhook) :
  listAllWebhooks net w = (Val ws, w1) ->
  exists w2,
    toggleAll net target mk w =
    (Val (mk (length (todo target ws))
            (length (filter (fun wh => active wh = target) ws)) 0%nat (length ws)), w2) /\
    (forall k,
        k ∈ id <$> todo target ws ->
        webhooks w2 !! k = setMirrorActive (if target then 1 else 0) <$> webhooks w1 !! k) /\
    (forall k, k ∉ id <$> todo target ws -> webhooks w2 !! k = webhooks w1 !! k).
Proof.
  intros Hlist. eexists. unfold toggleAll, tryCatch.
  rewrite (bind_val _ _ _ _ _ Hlist).
  rewrite (bind_val _ _ _ _ _ (toggleLoop_accepted target ws _ w1)).
  split; [reflexivity|]. cbn [webhooks].
  split; intros k Hk; rewrite lookup_alter_all by reflexivity.
  - rewrite bool_decide_eq_true_2 by exact Hk. reflexivity.
  - rewrite bool_decide_eq_false_2 by exact Hk. reflexivity.
Qed.

End AcceptedRuns.

Lemma netTwice_accepts : acceptsPatches netTwice.
Proof.
  intros k webhookId target. exists {| ok := true; webhooks_field := None |}.
  split; [|reflexivity]. destruct k; reflexivity.
Defined.

Lemma toggleAll_accepted_mirror_witness :
  exists w2,
    postResumeWebhooks netTwice worldMirror = (Val (ReplyResumed 1 1 0 2), w2) /\
    webhooks w2 !! "wh-b"
    = Some {| token_address := "0xabc"; chain_id := 1; row_active := 1 |}.
Proof.
  destruct (toggleAll_accepted_mirror netTwice netTwice_accepts true ReplyResumed
              worldMirror (addRequests [ListWebhooks 300 0] worldMirror) [whB; whA] eq_refl)
    as (w2 & Hrun & Hupd & _).
  exists w2. split; [exact Hrun|].
  rewrite (Hupd "wh-b") by compute_done. reflexivity.
Defined.

(** ** [/setup/view-webhooks] *)

(** X18.  [view] always replies.  It makes listing requests only, at most
    50, and changes no table.  Its success reply lists webhooks with
    pairwise distinct ids, [total] is their number, [active] the number
    of active ones, and [active + inactive = total]; the 500 reply is
    sent only when a listing request was rejected. *)
Theorem getViewWebhooks_reply (net : Network) (w : World) :
  exists reply reqs,
    getViewWebhooks net w = (Val reply, addRequests reqs w) /\
    (length reqs <= 50)%nat /\
    Forall (fun r => isList r = true) reqs /\
    match reply with
    | ReplyView total activeCount inactiveCount listed =>
        total = length listed /\
        activeCount = length (List.filter active listed) /\
        (activeCount + inactiveCount = total)%nat /\
        NoDup (id <$> listed)
    | ReplySetupError500 _ => ~ responds net isList
    | _ => False
    end.
Proof.
  destruct (listLoop_spec net maxIterations [] ∅ 0 w)
    as (o & reqs & Hrun & Hlen & Hall & Hdup & Htot).
  - constructor.
  - intros wh Hwh. apply elem_of_nil in Hwh. contradiction.
  - unfold getViewWebhooks, tryCatch, bind, listAllWebhooks. rewrite Hrun.
    destruct o as [ws|e].
    + eexists _, reqs. split; [reflexivity|]. split; [exact Hlen|]. split; [exact Hall|].
      split; [reflexivity|]. split; [reflexivity|]. split; [|apply Hdup; reflexivity].
      pose proof (List.filter_length_le active ws). lia.
    + eexists _, reqs. split; [reflexivity|]. split; [exact Hlen|]. split; [exact Hall|].
      intros Hnet. destruct (Htot Hnet) as [ws Hws]. discriminate Hws.
Qed.

Lemma getViewWebhooks_reply_example :
  getViewWebhooks (netSamePage [whA; whB; whA']) world0
  = (Val (ReplyView 2 1 1 [whA; whB]), addRequests [ListWebhooks 300 0] world0).
Proof. vm_compute. reflexivity. Qed.

(** ** [/setup/resume-local-webhooks] *)

Lemma elem_of_mirror_ids (m : gmap string MirrorRow) (k : string) :
  k ∈ (map_to_list m).*1 <-> is_Some (m !! k).
Proof.
  rewrite list_elem_of_fmap. split.
  - intros ([k' r] & -> & Hin). apply elem_of_map_to_list in Hin. eauto.
  - intros [r Hr]. exists (k, r). split; [reflexivity|]. apply elem_of_map_to_list, Hr.
Qed.

Lemma length_mirror_ids (m : gmap string MirrorRow) :
  length ((map_to_list m).*1) = size m.
Proof. rewrite length_fmap. apply length_map_to_list. Qed.

Section ResumeLocal.

Variable net : Network.

Lemma resumeLocalStep_stable (c : LocalCounters) (i : string) (w : World) :
  mirrorOnlyActive 1 w (snd (resumeLocalStep net c i w)).
Proof.
  unfold resumeLocalStep, updateWebhookStatus, bind, fetch, ret.
  destruct (net (length (requests w)) (PatchWebhook i true)) as [e|r]; cbn [snd].
  - apply (mirrorOnlyActive_addRequests 1 [PatchWebhook i true]).
  - destruct (ok r); cbn [snd].
    + apply (mirrorOnlyActive_afterUpdate true i w).
    + apply (mirrorOnlyActive_addRequests 1 [PatchWebhook i true]).
Qed.

Lemma resumeLocalStep_accepted (c : LocalCounters) (i : string) (w : World) (r : Response) :
  net (length (requests w)) (PatchWebhook i true) = Responded r ->
  ok r = true ->
  resumeLocalStep net c i w =
  (Val {| resumedLocal := S (resumedLocal c); failedLocal := failedLocal c |},
   afterUpdate true i w).
Proof.
  intros Hans Hok. unfold resumeLocalStep, updateWebhookStatus.
  unfold bind at 1 2. rewrite (fetch_responded _ _ _ _ Hans). cbn [ret]. rewrite Hok.
  reflexivity.
Qed.

Lemma resumeLocalStep_refused (c : LocalCounters) (i : string) (w : World) (r : Response) :
  net (length (requests w)) (PatchWebhook i true) = Responded r ->
  ok r = false ->
  resumeLocalStep net c i w =
  (Val {| resumedLocal := resumedLocal c; failedLocal := S (failedLocal c) |},
   addRequests [PatchWebhook i true] w).
Proof.
  intros Hans Hok. unfold resumeLocalStep, updateWebhookStatus.
  unfold bind at 1 2. rewrite (fetch_responded _ _ _ _ Hans). cbn [ret]. rewrite Hok.
  reflexivity.
Qed.

Lemma resumeLocalLoop_spec (ids : list string) :
  responds net isPatch ->
  forall (c : LocalCounters) (w : World),
    exists c' w',
      foldM (resumeLocalStep net) c ids w = (Val c', w') /\
      requests w' = (requests w ++ map (fun i => PatchWebhook i true) ids)%list /\
      (resumedLocal c' + failedLocal c' = resumedLocal c + failedLocal c + length ids)%nat.
Proof.
  intros Hnet. induction ids as [|i ids IH]; intros c w.
  - exists c, w. cbn. rewrite app_nil_r. repeat split; lia.
  - cbn [foldM]. destruct (Hnet (length (requests w)) (PatchWebhook i true) eq_refl) as [r Hans].
    destruct (ok r) eqn:Hok.
    + rewrite (bind_val _ _ _ _ _ (resumeLocalStep_accepted c i w r Hans Hok)).
      destruct (IH {| resumedLocal := S (resumedLocal c); failedLocal := failedLocal c |}
                  (afterUpdate true i w)) as (c' & w' & Hrun & Hreq & Hsum).
      exists c', w'. cbn in Hreq, Hsum. rewrite <- app_assoc in Hreq.
      split; [exact Hrun|]. split; [exact Hreq | cbn; lia].
    + rewrite (bind_val _ _ _ _ _ (resumeLocalStep_refused c i w r Hans Hok)).
      destruct (IH {| resumedLocal := resumedLocal c; failedLocal := S (failedLocal c) |}
                  (addRequests [PatchWebhook i true] w)) as (c' & w' & Hrun & Hreq & Hsum).
      exists c', w'. cbn in Hreq, Hsum. rewrite <- app_assoc in Hreq.
      split; [exact Hrun|]. split; [exact Hreq | cbn; lia].
Qed.

(** X19.  [resume-local] works from the mirror alone.  When every update
    call is answered, it issues one update, to active, for the id of
    every mirror row and for no other id, whatever the row's [active]
    column says, and no listing request; [total] is the number of rows
    and [resumed + failed = total].  It adds no row and removes none. *)
Theorem postResumeLocalWebhooks_counts (w : World) :
  responds net isPatch ->
  exists resumed failed ids w',
    postResumeLocalWebhooks net w
    = (Val (ReplyLocalResumed resumed failed (size (webhooks w))), w') /\
    (resumed + failed = size (webhooks w))%nat /\
    requests w' = (requests w ++ map (fun i => PatchWebhook i true) ids)%list /\
    NoDup ids /\
    (forall k, k ∈ ids <-> is_Some (webhooks w !! k)) /\
    mirrorOnlyActive 1 w w'.
Proof.
  intros Hnet.
  destruct (resumeLocalLoop_spec ((map_to_list (webhooks w)).*1) Hnet
              {| resumedLocal := 0; failedLocal := 0 |} w)
    as (c & w' & Hrun & Hreq & Hsum).
  exists (resumedLocal c), (failedLocal c), ((map_to_list (webhooks w)).*1), w'.
  unfold postResumeLocalWebhooks, tryCatch, selectWebhookIds.
  unfold bind at 1. rewrite (bind_val _ _ _ _ _ Hrun). unfold ret.
  rewrite length_mirror_ids in *. cbn in Hsum.
  split; [reflexivity|]. split; [exact Hsum|]. split; [exact Hreq|].
  split; [apply NoDup_fst_map_to_list|]. split; [apply elem_of_mirror_ids|].
  pose proof (foldM_stable (mirrorOnlyActive 1) (resumeLocalStep net)
                (mirrorOnlyActive_refl 1) (mirrorOnlyActive_trans 1)
                resumeLocalStep_stable ((map_to_list (webhooks w)).*1)
                {| resumedLocal := 0; failedLocal := 0 |} w) as Hst.
  rewrite Hrun in Hst. exact Hst.
Qed.

Hypothesis Haccept : acceptsPatches net.

Lemma resumeLocalLoop_accepted (ids : list string) :
  forall (c : LocalCounters) (w : World),
    foldM (resumeLocalStep net) c ids w =
    (Val {| resumedLocal := (resumedLocal c + length ids)%nat; failedLocal := failedLocal c |},
     {| subscribers := subscribers w;
        webhooks := foldl (fun acc i => alter (setMirrorActive 1) i acc) (webhooks w) ids;
        requests := requests w ++ map (fun i => PatchWebhook i true) ids |}).
Proof.
  induction ids as [|i ids IH]; intros c w.
  - cbn. unfold ret. rewrite Nat.add_0_r, app_nil_r. destruct c, w. reflexivity.
  - cbn [foldM]. destruct (Haccept (length (requests w)) i true) as (r & Hans & Hok).
    rewrite (bind_val _ _ _ _ _ (resumeLocalStep_accepted c i w r Hans Hok)), IH.
    cbn. rewrite <- app_assoc. do 2 f_equal. f_equal. lia.
Qed.

Lemma postResumeLocalWebhooks_run (w : World) :
  postResumeLocalWebhooks net w =
  (Val (ReplyLocalResumed (size (webhooks w)) 0 (size (webhooks w))),
   {| subscribers := subscribers w;
      webhooks := setMirrorActive 1 <$> webhooks w;
      requests := requests w ++
                  map (fun i => PatchWebhook i true) ((map_to_list (webhooks w)).*1) |}).
Proof.
  unfold postResumeLocalWebhooks, tryCatch, selectWebhookIds.
  unfold bind at 1. rewrite (bind_val _ _ _ _ _ (resumeLocalLoop_accepted _ _ w)).
  unfold ret. cbn [resumedLocal failedLocal]. rewrite length_mirror_ids.
  f_equal. f_equal. apply map_eq. intros k.
  rewrite lookup_alter_all by reflexivity. rewrite lookup_fmap.
  case_bool_decide as Hin; [reflexivity|].
  destruct (webhooks w !! k) eqn:Hk; [|reflexivity].
  exfalso. apply Hin, elem_of_mirror_ids. eauto.
Qed.

(** X20.  When every update is accepted, [resume-local] counts every
    mirror row as resumed and leaves every row with [active = 1].  It
    does not skip rows that are already active: a second call right
    after the first issues the same updates and reports the same
    [resumed] count again. *)
Theorem postResumeLocalWebhooks_twice (w : World) :
  exists w1 w2,
    postResumeLocalWebhooks net w
    = (Val (ReplyLocalResumed (size (webhooks w)) 0 (size (webhooks w))), w1) /\
    webhooks w1 = setMirrorActive 1 <$> webhooks w /\
    postResumeLocalWebhooks net w1
    = (Val (ReplyLocalResumed (size (webhooks w)) 0 (size (webhooks w))), w2) /\
    webhooks w2 = webhooks w1 /\
    length (requests w2) = (length (requests w) + 2 * size (webhooks w))%nat.
Proof.
  eexists _, _. split; [apply postResumeLocalWebhooks_run|].
  split; [reflexivity|]. rewrite postResumeLocalWebhooks_run. cbn [webhooks requests].
  rewrite map_size_fmap. split; [reflexivity|]. split.
  - rewrite <- map_fmap_compose. apply map_fmap_ext. intros k r _. reflexivity.
  - cbn [requests].
    rewrite !length_app, !length_map, ?length_fmap, !length_map_to_list, map_size_fmap. lia.
Qed.

End ResumeLocal.

Lemma netRefusing_responds_patch : responds netRefusing isPatch.
Proof. intros k req _. eexists. reflexivity. Defined.

Lemma postResumeLocalWebhooks_counts_witness :
  exists resumed failed w',
    postResumeLocalWebhooks netRefusing worldMirror
    = (Val (ReplyLocalResumed resumed failed 1), w') /\
    (resumed + failed = 1)%nat.
Proof.
  destruct (postResumeLocalWebhooks_counts netRefusing worldMirror netRefusing_responds_patch)
    as (r & f & ids & w' & Hrun & Hsum & _).
  exists r, f, w'. split; [exact Hrun | exact Hsum].
Defined.

Lemma postResumeLocalWebhooks_twice_witness :
  exists w1 w2,
    postResumeLocalWebhooks netTwice worldMirror = (Val (ReplyLocalResumed 1 0 1), w1) /\
    postResumeLocalWebhooks netTwice w1 = (Val (ReplyLocalResumed 1 0 1), w2).
Proof.
  destruct (postResumeLocalWebhooks_twice netTwice netTwice_accepts worldMirror)
    as (w1 & w2 & H1 & _ & H2 & _).
  exists w1, w2. split; [exact H1 | exact H2].
Defined.

(** ** [/setup/create-webhooks] *)




Section CreateFacts.

Variable WEBHOOK_BASE_URL : string.
Variable api : CreateApi.

Lemma createStep_skipped (st : nat * list string) (row : TopHolderRow) :
  hasAddresses row = false ->
  createStep WEBHOOK_BASE_URL api st row = ret st.
Proof.
  unfold hasAddresses, createStep. intros H. apply negb_false_iff in H. rewrite H.
  reflexivity.
Qed.




(** X22.  Rows without a usable holder address (no address, or only
    empty ones) are passed over without a registration call.  If the
    registration of the first row that has one is refused by the
    registry, the handler replies 500 with ["Failed to create webhook: "]
    followed by the response text, no later row is tried and the tables
    are unchanged; if that call is rejected, the rejection's message is
    the reply. *)
Theorem postCreateWebhooks_first_failure (pre post : list TopHolderRow)
    (row : TopHolderRow) (w : World) :
  Forall (fun r => hasAddresses r = false) pre ->
  hasAddresses row = true ->
  (postCreateWebhooks WEBHOOK_BASE_URL api pre w = (Val (ReplyCreated 0 []), w)) /\
  (forall errorText,
      (forall config, exists webhookId,
            api 0%nat config = CreateResponded false errorText webhookId) ->
      postCreateWebhooks WEBHOOK_BASE_URL api (pre ++ row :: post) w
      = (Val (ReplySetupError500 ("Failed to create webhook: " ++ errorText)), w)) /\
  (forall e,
      (forall config, api 0%nat config = CreateRejected e) ->
      postCreateWebhooks WEBHOOK_BASE_URL api (pre ++ row :: post) w
      = (Val (ReplySetupError500 e), w)).
Proof.
  intros Hpre Hrow.
  assert (Hskip : forall rest,
             foldM (createStep WEBHOOK_BASE_URL api) (0%nat, []) (pre ++ rest) w
             = foldM (createStep WEBHOOK_BASE_URL api) (0%nat, []) rest w).
  { intros rest. induction Hpre as [|r pre Hr _ IH]; [reflexivity|].
    cbn [app foldM]. rewrite createStep_skipped by exact Hr. exact IH. }
  unfold postCreateWebhooks, createWebhooksForTopHolders, tryCatch.
  unfold hasAddresses in Hrow. apply negb_true_iff in Hrow.
  split; [|split].
  - specialize (Hskip []). rewrite app_nil_r in Hskip. unfold bind. rewrite Hskip. reflexivity.
  - intros errorText Hapi. unfold bind at 1 2. rewrite Hskip.
    cbn [foldM]. unfold bind, createStep. rewrite Hrow.
    unfold bind, createWebhook. cbn [fst].
    match goal with |- context [api 0%nat ?cfg] => destruct (Hapi cfg) as [wid ->] end.
    reflexivity.
  - intros e Hapi. unfold bind at 1 2. rewrite Hskip.
    cbn [foldM]. unfold bind, createStep. rewrite Hrow.
    unfold bind, createWebhook. cbn [fst]. rewrite Hapi. reflexivity.
Qed.

(** X23.  When every registration is accepted and returns a non-empty
    id, exactly one webhook is registered for every row that has a
    usable holder address, and none for the other rows. *)
Theorem postCreateWebhooks_accepted (rows : list TopHolderRow) (w : World) :
  (forall k config, exists errorText c webhookId,
        api k config = CreateResponded true errorText (Some (String c webhookId))) ->
  exists webhookIds w',
    postCreateWebhooks WEBHOOK_BASE_URL api rows w
    = (Val (ReplyCreated (length (List.filter hasAddresses rows)) webhookIds), w') /\
    length webhookIds = length (List.filter hasAddresses rows).
Proof.
  intros Hapi.
  assert (Hloop : forall rows st w,
             exists st' w',
               foldM (createStep WEBHOOK_BASE_URL api) st rows w = (Val st', w') /\
               length (snd st')
               = (length (snd st) + length (List.filter hasAddresses rows))%nat).
  { clear rows w. induction rows as [|row rows IH]; intros st w.
    - exists st, w. split; [reflexivity | cbn; lia].
    - cbn [foldM List.filter]. destruct (hasAddresses row) eqn:Hhas.
      + unfold createStep at 1. unfold hasAddresses in Hhas.
        apply negb_true_iff in Hhas. rewrite Hhas.
        unfold bind at 1 2, createWebhook.
        match goal with |- context [api (fst st) ?cfg] =>
          destruct (Hapi (fst st) cfg) as (err & c & wid & ->) end.
        unfold bind at 1, sqlUpsertWebhook, ret at 1.
        match goal with |- context [foldM _ ?st1 rows ?w1] =>
          destruct (IH st1 w1) as (st' & w' & Hrun & Hlen) end.
        exists st', w'. split; [exact Hrun|].
        rewrite Hlen. cbn [snd length]. rewrite length_app. cbn. lia.
      + rewrite createStep_skipped by exact Hhas. unfold bind at 1, ret at 1. apply IH. }
  destruct (Hloop rows (0%nat, []) w) as (st' & w' & Hrun & Hlen).
  exists (snd st'), w'. cbn in Hlen.
  unfold postCreateWebhooks, createWebhooksForTopHolders, tryCatch.
  unfold bind at 1 2. rewrite Hrun. unfold ret. cbn [fst snd]. rewrite Hlen.
  split; reflexivity.
Qed.

End CreateFacts.

Lemma postCreateWebhooks_first_failure_witness :
  postCreateWebhooks "https://bot.example" apiRefusing [rowNoHolders; rowA; rowA] world0
  = (Val (ReplySetupError500 "Failed to create webhook: quota exceeded"), world0).
Proof.
  apply (proj1 (proj2 (postCreateWebhooks_first_failure "https://bot.example" apiRefusing
                         [rowNoHolders] [rowA] rowA world0
                         ltac:(repeat constructor) eq_refl))).
  intros config. eexists. reflexivity.
Defined.

Lemma postCreateWebhooks_accepted_witness :
  exists webhookIds w',
    postCreateWebhooks "https://bot.example" apiAccepting [rowNoHolders; rowA] world0
    = (Val (ReplyCreated 1 webhookIds), w') /\
    length webhookIds = 1%nat.
Proof.
  apply (postCreateWebhooks_accepted "https://bot.example" apiAccepting
           [rowNoHolders; rowA] world0).
  intros k config. eexists _, _, _. reflexivity.
Defined.

Example postCreateWebhooks_example :
  postCreateWebhooks "https://bot.example" apiAccepting [rowNoHolders; rowA] worldMirror
  = (Val (ReplyCreated 1 ["wh-0xabc"]),
     {| subscribers := [];
        webhooks := {[ "wh-b" := {| token_address := "0xabc"; chain_id := 1; row_active := 0 |};
                       "wh-0xabc" := {| token_address := "0xabc"; chain_id := 1;
                                        row_active := 1 |} ]};
        requests := [] |}).
Proof. vm_compute. reflexivity. Qed.

(** * The handlers as a whole *)

(** ** [/setup/resume-webhooks] when every update call is answered *)

Lemma acceptedIds_todo (net : Network) (target : bool) (ws : list Webhook) :
  forall k i, i ∈ acceptedIds net target k ws -> i ∈ id <$> ws.
Proof.
  induction ws as [|wh ws IH]; intros k i; cbn [acceptedIds].
  - intros H. exact H.
  - rewrite fmap_cons.
    destruct (accepted (net k (PatchWebhook (id wh) target))).
    + intros [->|H]%elem_of_cons; [left | right; apply (IH _ _ H)].
    + intros H. right. apply (IH _ _ H).
Qed.

Lemma acceptedIds_length (net : Network) (target : bool) (ws : list Webhook) :
  forall k, length (acceptedIds net target k ws)
            = countIf accepted (patchAnswers net target k ws).
Proof.
  unfold countIf. induction ws as [|wh ws IH]; intros k; [reflexivity|].
  cbn [acceptedIds patchAnswers List.filter].
  destruct (accepted (net k (PatchWebhook (id wh) target))); cbn [length]; rewrite IH;
    reflexivity.
Qed.

Lemma toggleLoop_run (net : Network) (target : bool) (ws : list Webhook) :
  responds net isPatch ->
  forall (c : Counters) (w : World),
    foldM (toggleStep net target) c ws w =
    (Val {| changed := (changed c + length (acceptedIds net target (length (requests w))
                                              (todo target ws)))%nat;
            skipped := (skipped c + length (filter (fun wh => active wh = target) ws))%nat;
            failed := (failed c + countIf refused
                         (patchAnswers net target (length (requests w)) (todo target ws)))%nat |},
     {| subscribers := subscribers w;
        webhooks := foldl (fun acc i => alter (setMirrorActive (if target then 1 else 0)) i acc)
                      (webhooks w)
                      (acceptedIds net target (length (requests w)) (todo target ws));
        requests := requests w ++
                    map (fun wh => PatchWebhook (id wh) target) (todo target ws) |}).
Proof.
  intros Hnet. induction ws as [|wh ws IH]; intros c w.
  - cbn. unfold ret, countIf. cbn. rewrite !Nat.add_0_r, app_nil_r. destruct c, w. reflexivity.
  - cbn [foldM]. unfold todo. rewrite !filter_cons.
    destruct (decide (active wh = target)) as [Ha|Ha].
    + rewrite decide_False by (intros H; apply H, Ha).
      rewrite (bind_val _ _ _ _ _ (toggleStep_skip net target c wh w Ha)), IH.
      cbn. fold (todo target ws). do 2 f_equal. f_equal; lia.
    + rewrite decide_True by exact Ha. fold (todo target ws).
      destruct (Hnet (length (requests w)) (PatchWebhook (id wh) target) eq_refl)
        as [r Hans].
      cbn [acceptedIds patchAnswers]. unfold countIf. cbn [List.filter].
      rewrite Hans. cbn [accepted refused].
      destruct (ok r) eqn:Hok; cbn [negb].
      * rewrite (bind_val _ _ _ _ _ (toggleStep_accepted net target c wh w r Ha Hans Hok)), IH.
        cbn. rewrite length_app, Nat.add_1_r, <- app_assoc. cbn.
        unfold countIf. do 2 f_equal. f_equal; lia.
      * rewrite (bind_val _ _ _ _ _ (toggleStep_refused net target c wh w r Ha Hans Hok)), IH.
        cbn. rewrite length_app, Nat.add_1_r, <- app_assoc. cbn.
        unfold countIf. do 2 f_equal. f_equal; lia.
Qed.

(** C3.  In the all-remote resume operation.  Loop body: an already
    active webhook increments [skipped] only: no remote update is issued
    and the local mirror (the whole world) is unchanged; an inactive
    webhook whose update is accepted increments [resumed], and the
    mirror row of that id, when there is one, gets [active = 1] (no row
    is created, other rows are untouched).  Handler: when the listing
    returns [ws] and every update call is answered, the handler replies
    normally; [skipped] is the number of active webhooks of [ws],
    [resumed] the number of inactive ones whose update was accepted,
    [failed] the number whose update was refused; the update calls are
    those of the inactive webhooks, in order, and no other; the mirror
    rows of the resumed ids, where they exist, get [active = 1], and
    every other row is as before.  Hence a resume call that finds every
    webhook active (as after a resume whose updates were all accepted)
    counts them all as skipped, resumes none, issues no update and
    replies normally. *)
Theorem resume_skips_active_and_mirrors_resumed (net : Network) (c : Counters)
    (wh : Webhook) (w : World) :
  (active wh = true ->
   toggleStep net true c wh w =
   (Val {| changed := changed c; skipped := S (skipped c); failed := failed c |}, w)) /\
  (active wh = false ->
   forall r,
     net (length (requests w)) (PatchWebhook (id wh) true) = Responded r ->
     ok r = true ->
     exists w',
       toggleStep net true c wh w =
       (Val {| changed := S (changed c); skipped := skipped c; failed := failed c |}, w') /\
       requests w' = (requests w ++ [PatchWebhook (id wh) true])%list /\
       (forall row, webhooks w !! id wh = Some row ->
                    webhooks w' !! id wh = Some (setMirrorActive 1 row)) /\
       (webhooks w !! id wh = None -> webhooks w' = webhooks w) /\
       (forall j, j ≠ id wh -> webhooks w' !! j = webhooks w !! j)) /\
  (forall ws w1,
      listAllWebhooks net w = (Val ws, w1) ->
      responds net isPatch ->
      let resumed := acceptedIds net true (length (requests w1)) (todo true ws) in
      exists w2,
        postResumeWebhooks net w =
        (Val (ReplyResumed
                (length resumed)
                (length (filter (fun x => active x = true) ws))
                (countIf refused
                   (patchAnswers net true (length (requests w1)) (todo true ws)))
                (length ws)), w2) /\
        requests w2 =
          (requests w1 ++ map (fun x => PatchWebhook (id x) true)
                            (filter (fun x => active x ≠ true) ws))%list /\
        subscribers w2 = subscribers w1 /\
        (forall k, k ∈ resumed ->
                   (exists x, x ∈ ws /\ id x = k /\ active x = false) /\
                   webhooks w2 !! k = setMirrorActive 1 <$> webhooks w1 !! k) /\
        (forall k, k ∉ resumed -> webhooks w2 !! k = webhooks w1 !! k)) /\
  (forall ws w1,
      listAllWebhooks net w = (Val ws, w1) ->
      Forall (fun x => active x = true) ws ->
      postResumeWebhooks net w = (Val (ReplyResumed 0 (length ws) 0 (length ws)), w1)).
Proof.
  split; [|split; [|split]].
  - intros Ha. apply toggleStep_skip, Ha.
  - intros Ha r Hans Hok. exists (afterUpdate true (id wh) w).
    split; [apply (toggleStep_accepted net true c wh w r); [congruence | exact Hans | exact Hok]|].
    split; [reflexivity|]. cbn [afterUpdate webhooks].
    split; [|split].
    + intros row Hrow. rewrite lookup_alter_eq, Hrow. reflexivity.
    + apply alter_absent.
    + intros j Hj. apply lookup_alter_ne. congruence.
  - intros ws w1 Hlist Hnet resumed. eexists.
    unfold postResumeWebhooks, toggleAll, tryCatch.
    rewrite (bind_val _ _ _ _ _ Hlist).
    rewrite (bind_val _ _ _ _ _ (toggleLoop_run net true ws Hnet _ w1)).
    split; [reflexivity|]. cbn [requests subscribers webhooks].
    split; [reflexivity|]. split; [reflexivity|].
    fold resumed. split.
    + intros k Hk. split.
      * apply acceptedIds_todo in Hk. apply list_elem_of_fmap in Hk as (x & -> & Hx).
        apply list_elem_of_filter in Hx as [Hact Hx].
        exists x. split; [exact Hx|]. split; [reflexivity|].
        destruct (active x); [contradiction Hact|]; reflexivity.
      * rewrite lookup_alter_all by reflexivity.
        rewrite bool_decide_eq_true_2 by exact Hk. reflexivity.
    + intros k Hk. rewrite lookup_alter_all by reflexivity.
      rewrite bool_decide_eq_false_2 by exact Hk. reflexivity.
  - intros ws w1 Hlist Hall. unfold postResumeWebhooks, toggleAll, tryCatch.
    rewrite (bind_val _ _ _ _ _ Hlist).
    rewrite (bind_val _ _ _ _ _ (toggleLoop_all_skipped net true ws Hall _ w1)).
    reflexivity.
Qed.

Lemma netTwice_responds (sel : Request -> bool) : responds netTwice sel.
Proof. intros k req _. destruct k, req; eexists; reflexivity. Defined.

Lemma resume_skips_active_and_mirrors_resumed_witness :
  toggleStep netTwice true {| changed := 0; skipped := 0; failed := 0 |} whA worldMirror
  = (Val {| changed := 0; skipped := 1; failed := 0 |}, worldMirror)
  /\
  (exists w',
    toggleStep netTwice true {| changed := 0; skipped := 0; failed := 0 |} whB worldMirror
    = (Val {| changed := 1; skipped := 0; failed := 0 |}, w') /\
    webhooks w' !! "wh-b"
    = Some {| token_address := "0xabc"; chain_id := 1; row_active := 1 |})
  /\
  (exists w2,
    postResumeWebhooks netTwice worldMirror = (Val (ReplyResumed 1 1 0 2), w2) /\
    requests w2 = [ListWebhooks 300 0; PatchWebhook "wh-b" true] /\
    webhooks w2 !! "wh-b"
    = Some {| token_address := "0xabc"; chain_id := 1; row_active := 1 |}).
Proof.
  pose proof (resume_skips_active_and_mirrors_resumed netTwice
                {| changed := 0; skipped := 0; failed := 0 |}) as Hthm.
  split; [|split].
  - exact (proj1 (Hthm whA worldMirror) eq_refl).
  - destruct (proj1 (proj2 (Hthm whB worldMirror)) eq_refl _ eq_refl eq_refl)
      as (w' & Hstep & _ & Hrow & _).
    exists w'. split; [exact Hstep|]. apply (Hrow _ eq_refl).
  - destruct (proj1 (proj2 (proj2 (Hthm whA worldMirror))) [whB; whA]
                (addRequests [ListWebhooks 300 0] worldMirror) eq_refl
                (netTwice_responds isPatch))
      as (w2 & Hrun & Hreq & _ & Hrow & _).
    exists w2. split; [exact Hrun|]. split; [exact Hreq|].
    exact (proj2 (Hrow "wh-b" ltac:(compute_done))).
Defined.

(** ** [/balances] on a whole batch *)

(** C5.  An event with a numeric [valueDeltaUsd] whose hash was not seen
    earlier in the batch.  Loop body: at exactly 100 the event is
    formatted and broadcast (one send per subscriber when no send is
    rejected); strictly below 100 the body only records the hash: no
    outbound call is made and the world is unchanged.  Handler: for a
    batch in which the event is the first of its hash, when no send is
    rejected, [/balances] replies normally and its calls are the sends
    of the alerted events of the batch; at exactly 100 the event is one
    of them, so its message is sent to every subscriber; strictly below
    100 no alerted event has its hash: no alert is produced for it. *)
Theorem materiality_boundary (P : Platform) (net : Network) (chainId : option Z)
    (seen : gset string) (change : BalanceChange) (q : Q) (w : World) :
  value_delta_usd change = Some (Fin q) ->
  transaction_hash change ∉ seen ->
  ((q == 100)%Q ->
   balancesStep P net chainId seen change =
   (perform broadcastToSubscribers net (formatBalanceMessage P change chainId) ;
    ret ({[transaction_hash change]} ∪ seen)) /\
   (responds net isTelegram ->
    balancesStep P net chainId seen change w =
    (Val ({[transaction_hash change]} ∪ seen),
     addRequests (map (fun c => TelegramSend c (formatBalanceMessage P change chainId))
                    (subscribers w)) w))) /\
  ((q < 100)%Q ->
   balancesStep P net chainId seen change w
   = (Val ({[transaction_hash change]} ∪ seen), w)) /\
  (forall pre post : list BalanceChange,
      transaction_hash change ∉ transaction_hash <$> pre ->
      responds net isTelegram ->
      let batch := (pre ++ change :: post)%list in
      postBalances P net batch chainId w =
      (Val (ReplyProcessed (length (distinctHashes batch))),
       addRequests (flat_map (sendsOf P chainId (subscribers w)) (alerted batch)) w) /\
      ((q == 100)%Q ->
       change ∈ alerted batch /\
       forall chat, chat ∈ subscribers w ->
         TelegramSend chat (formatBalanceMessage P change chainId)
         ∈ flat_map (sendsOf P chainId (subscribers w)) (alerted batch)) /\
      ((q < 100)%Q ->
       forall x, x ∈ alerted batch -> transaction_hash x ≠ transaction_hash change)).
Proof.
  intros Hv Hnew.
  assert (Hge : (q == 100)%Q -> js_lt (to_number (value_delta_usd change)) (num 100) = false).
  { intros Hq. rewrite Hv. cbn [to_number]. apply js_lt_Fin_false.
    rewrite Hq. unfold inject_Z. lra. }
  assert (Hlt : (q < 100)%Q -> js_lt (to_number (value_delta_usd change)) (num 100) = true).
  { intros Hq. rewrite Hv. cbn [to_number]. apply js_lt_Fin. exact Hq. }
  split; [|split].
  - intros Hq. split.
    + apply balancesStep_alerted; [exact Hnew | apply Hge, Hq].
    + intros Hnet. apply balancesStep_alerted_world; [exact Hnew | apply Hge, Hq | exact Hnet].
  - intros Hq. rewrite balancesStep_dropped; [reflexivity | exact Hnew | apply Hlt, Hq].
  - intros pre post Hfirst Hnet batch.
    destruct (alerted_first_event pre post change Hfirst) as (Hin & Hout & _ & _).
    split; [apply postBalances_run, Hnet|]. split.
    + intros Hq.
      assert (Hmem : change ∈ alerted batch).
      { apply Hin. unfold material. rewrite (Hge Hq). reflexivity. }
      split; [exact Hmem|]. intros chat Hchat. apply elem_of_sends.
      split; [exact Hchat|]. exists change. split; [exact Hmem | reflexivity].
    + intros Hq. apply Hout. unfold material. rewrite (Hlt Hq). reflexivity.
Qed.

Lemma materiality_boundary_witness :
  balancesStep exactPlatform netRefusing (Some 1) ∅ (withUsd "0xc" (Some (num 100))) world0
  = (Val ({["0xc"]} ∪ ∅),
     addRequests
       (map (fun c => TelegramSend c
                        (formatBalanceMessage exactPlatform
                           (withUsd "0xc" (Some (num 100))) (Some 1)))
          ["1001"; "1002"]) world0)
  /\
  balancesStep exactPlatform netRefusing (Some 1) ∅ (withUsd "0xd" (Some (num 99))) world0
  = (Val ({["0xd"]} ∪ ∅), world0)
  /\
  TelegramSend "1002"
    (formatBalanceMessage exactPlatform (withUsd "0xc" (Some (num 100))) (Some 1))
  ∈ flat_map (sendsOf exactPlatform (Some 1) (subscribers world0))
      (alerted ([fooChange] ++ withUsd "0xc" (Some (num 100))
                  :: [withUsd "0xc" (Some (num 5))])%list)
  /\
  (forall x,
      x ∈ alerted ([fooChange] ++ withUsd "0xd" (Some (num 99))
                     :: [withUsd "0xd" (Some (num 5000))])%list ->
      transaction_hash x ≠ "0xd")
  /\
  postBalances exactPlatform netRefusing
    ([fooChange] ++ withUsd "0xc" (Some (num 100)) :: [withUsd "0xc" (Some (num 5))])%list
    (Some 1) world0
  = (Val (ReplyProcessed 2),
     addRequests
       (flat_map (sendsOf exactPlatform (Some 1) ["1001"; "1002"])
          [fooChange; withUsd "0xc" (Some (num 100))]) world0)
  /\
  postBalances exactPlatform netRefusing
    ([fooChange] ++ withUsd "0xd" (Some (num 99)) :: [withUsd "0xd" (Some (num 5000))])%list
    (Some 1) world0
  = (Val (ReplyProcessed 2),
     addRequests
       (flat_map (sendsOf exactPlatform (Some 1) ["1001"; "1002"]) [fooChange]) world0).
Proof.
  pose proof (materiality_boundary exactPlatform netRefusing (Some 1) ∅
                (withUsd "0xc" (Some (num 100))) 100%Q world0
                eq_refl (not_elem_of_empty _)) as (Hat & _ & Hbatch).
  pose proof (materiality_boundary exactPlatform netRefusing (Some 1) ∅
                (withUsd "0xd" (Some (num 99))) 99%Q world0
                eq_refl (not_elem_of_empty _)) as (_ & Hbelow & Hbatch').
  split; [|split; [|split; [|split; [|split]]]].
  - apply Hat; [reflexivity | apply netRefusing_responds].
  - apply Hbelow. reflexivity.
  - destruct (Hbatch [fooChange] [withUsd "0xc" (Some (num 5))]
                ltac:(compute_done) (netRefusing_responds isTelegram))
      as (_ & Hsent & _).
    apply (proj2 (Hsent ltac:(reflexivity))). compute_done.
  - destruct (Hbatch' [fooChange] [withUsd "0xd" (Some (num 5000))]
                ltac:(compute_done) (netRefusing_responds isTelegram))
      as (_ & _ & Hnone).
    apply Hnone. reflexivity.
  - exact (proj1 (Hbatch [fooChange] [withUsd "0xc" (Some (num 5))]
                    ltac:(compute_done) (netRefusing_responds isTelegram))).
  - exact (proj1 (Hbatch' [fooChange] [withUsd "0xd" (Some (num 5000))]
                    ltac:(compute_done) (netRefusing_responds isTelegram))).
Defined.

(** C10.  An event whose [valueDeltaUsd] is absent and whose hash was
    not seen earlier in the batch is not dropped.  Loop body: the
    comparison with 100 is false, so the event is formatted and
    broadcast (one send per subscriber when no send is rejected).
    Handler: for a batch in which the event is the first of its hash,
    when no send is rejected, [/balances] replies normally, its calls
    are the sends of the alerted events of the batch, the event is one
    of them and its message is sent to every subscriber.  Formatter: it
    takes 0 for the USD value, so that message has a single siren and
    prints the formatted 0 as its USD value. *)
Theorem missing_usd_is_alerted (P : Platform) (net : Network) (chainId : option Z)
    (seen : gset string) (change : BalanceChange) (w : World) :
  value_delta_usd change = None ->
  transaction_hash change ∉ seen ->
  js_lt (to_number (value_delta_usd change)) (num 100) = false /\
  balancesStep P net chainId seen change =
  (perform broadcastToSubscribers net (formatBalanceMessage P change chainId) ;
   ret ({[transaction_hash change]} ∪ seen)) /\
  (responds net isTelegram ->
   balancesStep P net chainId seen change w =
   (Val ({[transaction_hash change]} ∪ seen),
    addRequests (map (fun c => TelegramSend c (formatBalanceMessage P change chainId))
                   (subscribers w)) w)) /\
  (forall pre post : list BalanceChange,
      transaction_hash change ∉ transaction_hash <$> pre ->
      responds net isTelegram ->
      let batch := (pre ++ change :: post)%list in
      postBalances P net batch chainId w =
      (Val (ReplyProcessed (length (distinctHashes batch))),
       addRequests (flat_map (sendsOf P chainId (subscribers w)) (alerted batch)) w) /\
      change ∈ alerted batch /\
      forall chat, chat ∈ subscribers w ->
        TelegramSend chat (formatBalanceMessage P change chainId)
        ∈ flat_map (sendsOf P chainId (subscribers w)) (alerted batch)) /\
  usdValueOf change = num 0 /\
  emojiCountOf (usdValueOf change) = 1%nat /\
  formatBalanceMessage P change chainId =
  siren ++ " " ++ (if bool_decide (direction change = "in") then inbox else outbox)
    ++ " *" ++ formatNumber P (amountOf P change) ++ " " ++ symbolOf change
    ++ "* ($" ++ formatNumber P (num 0) ++ ") "
    ++ (if bool_decide (direction change = "in") then "received" else "sent")
    ++ nl ++ nl
    ++ "Holder: `"
    ++ (slice_head 6 (subscribed_address change) ++ "..."
        ++ slice_tail 4 (subscribed_address change))
    ++ "`" ++ nl ++ nl
    ++ "[View Transaction](" ++ getExplorerLink (transaction_hash change) chainId
    ++ ") · Powered by [Sim APIs](https://sim.dune.com)".
Proof.
  intros Hv Hnew.
  assert (Hlt : js_lt (to_number (value_delta_usd change)) (num 100) = false)
    by (rewrite Hv; reflexivity).
  assert (Husd : usdValueOf change = num 0)
    by (unfold usdValueOf; rewrite Hv; reflexivity).
  split; [exact Hlt|].
  split; [apply balancesStep_alerted; assumption|].
  split; [intros Hnet; apply balancesStep_alerted_world; assumption|].
  split.
  { intros pre post Hfirst Hnet batch.
    destruct (alerted_first_event pre post change Hfirst) as (Hin & _).
    assert (Hmem : change ∈ alerted batch).
    { apply Hin. unfold material. rewrite Hlt. reflexivity. }
    split; [apply postBalances_run, Hnet|]. split; [exact Hmem|].
    intros chat Hchat. apply elem_of_sends.
    split; [exact Hchat|]. exists change. split; [exact Hmem | reflexivity]. }
  split; [exact Husd|].
  split; [rewrite Husd; reflexivity|].
  unfold formatBalanceMessage. rewrite Husd.
  replace (trim (str_repeat (siren ++ " ") (emojiCountOf (num 0)))) with siren
    by (vm_compute; reflexivity).
  reflexivity.
Qed.

Lemma missing_usd_is_alerted_witness :
  balancesStep exactPlatform netRefusing (Some 1) ∅ (withUsd "0xb" None) world0
  = (Val ({["0xb"]} ∪ ∅),
     addRequests
       (map (fun c => TelegramSend c
                        (formatBalanceMessage exactPlatform (withUsd "0xb" None) (Some 1)))
          ["1001"; "1002"]) world0)
  /\
  postBalances exactPlatform netRefusing
    ([fooChange] ++ withUsd "0xb" None :: [])%list (Some 1) world0
  = (Val (ReplyProcessed 2),
     addRequests
       (flat_map (sendsOf exactPlatform (Some 1) ["1001"; "1002"])
          [fooChange; withUsd "0xb" None]) world0)
  /\
  emojiCountOf (usdValueOf (withUsd "0xb" None)) = 1%nat.
Proof.
  pose proof (missing_usd_is_alerted exactPlatform netRefusing (Some 1) ∅
                (withUsd "0xb" None) world0 eq_refl (not_elem_of_empty _))
    as (_ & _ & Hstep & Hbatch & _ & Hone & _).
  split; [apply Hstep, netRefusing_responds|].
  split; [|exact Hone].
  exact (proj1 (Hbatch [fooChange] [] ltac:(compute_done)
                  (netRefusing_responds isTelegram))).
Defined.

(** ** Severity of an alert *)

(** C6.  The severity emoji count of the alert formatter.  As a function
    of the USD value it is monotonic non-decreasing (for values ordered
    by [>=], which excludes NaN), and equals 1, 2, 3, 4, 5 on the
    intervals below 100,000, [100,000, 500,000), [500,000, 1,000,000),
    [1,000,000, 10,000,000) and at or above 10,000,000, each lower bound
    inclusive.  For an event: the count the formatter computes is the
    count of the event's [valueDeltaUsd] when that is a number, so it is
    monotonic non-decreasing in the event's USD value; and the message
    starts with that many sirens, separated by single spaces and
    followed by one space. *)
Theorem emojiCount_monotone_tiers :
  (forall a b : JsNum, js_ge b a = true -> (emojiCountOf a <= emojiCountOf b)%nat) /\
  (forall q : Q,
      ((q < 100000)%Q -> emojiCountOf (Fin q) = 1%nat) /\
      ((100000 <= q)%Q -> (q < 500000)%Q -> emojiCountOf (Fin q) = 2%nat) /\
      ((500000 <= q)%Q -> (q < 1000000)%Q -> emojiCountOf (Fin q) = 3%nat) /\
      ((1000000 <= q)%Q -> (q < 10000000)%Q -> emojiCountOf (Fin q) = 4%nat) /\
      ((10000000 <= q)%Q -> emojiCountOf (Fin q) = 5%nat)) /\
  (forall (change : BalanceChange) (q : Q),
      value_delta_usd change = Some (Fin q) ->
      emojiCountOf (usdValueOf change) = emojiCountOf (Fin q)) /\
  (forall (c1 c2 : BalanceChange) (q1 q2 : Q),
      value_delta_usd c1 = Some (Fin q1) ->
      value_delta_usd c2 = Some (Fin q2) ->
      (q1 <= q2)%Q ->
      (emojiCountOf (usdValueOf c1) <= emojiCountOf (usdValueOf c2))%nat) /\
  (forall (P : Platform) (change : BalanceChange) (chainId : option Z),
      formatBalanceMessage P change chainId =
      sirens (emojiCountOf (usdValueOf change)) ++ " "
        ++ (if bool_decide (direction change = "in") then inbox else outbox)
        ++ " *" ++ formatNumber P (amountOf P change) ++ " " ++ symbolOf change
        ++ "* ($" ++ formatNumber P (usdValueOf change) ++ ") "
        ++ (if bool_decide (direction change = "in") then "received" else "sent")
        ++ nl ++ nl
        ++ "Holder: `"
        ++ (slice_head 6 (subscribed_address change) ++ "..."
            ++ slice_tail 4 (subscribed_address change))
        ++ "`" ++ nl ++ nl
        ++ "[View Transaction](" ++ getExplorerLink (transaction_hash change) chainId
        ++ ") · Powered by [Sim APIs](https://sim.dune.com)").
Proof.
  split; [|split; [|split; [|split]]].
  - intros a b Hge.
    destruct a as [| | |p], b as [| | |q]; try discriminate Hge;
      try (rewrite !emojiCountOf_tier; apply severityTier_mono, js_ge_Fin, Hge);
      try (change (emojiCountOf NegInf) with 1%nat; apply emojiCountOf_range);
      try (change (emojiCountOf PosInf) with 5%nat; apply emojiCountOf_range).
  - intros q. rewrite emojiCountOf_tier. unfold severityTier.
    repeat match goal with
      | |- context [Qlt_le_dec ?a ?b] => destruct (Qlt_le_dec a b)
      end; repeat split; intros; try reflexivity; exfalso; lra.
  - intros change q Hv. rewrite (usdValueOf_Fin change q Hv), emojiCountOf_tier.
    reflexivity.
  - intros c1 c2 q1 q2 H1 H2 Hle.
    rewrite (usdValueOf_Fin c1 q1 H1), (usdValueOf_Fin c2 q2 H2).
    apply severityTier_mono, Hle.
  - apply formatBalanceMessage_layout.
Qed.

Lemma emojiCount_monotone_tiers_witness :
  (emojiCountOf (num 99) <= emojiCountOf (num 250000))%nat /\
  emojiCountOf (Fin 99) = 1%nat /\
  emojiCountOf (Fin 100000) = 2%nat /\
  emojiCountOf (Fin 500000) = 3%nat /\
  emojiCountOf (Fin 1000000) = 4%nat /\
  emojiCountOf (Fin 10000000) = 5%nat /\
  emojiCountOf (usdValueOf fooChange) = 2%nat /\
  (emojiCountOf (usdValueOf (withUsd "0xd" (Some (num 99))))
   <= emojiCountOf (usdValueOf fooChange))%nat.
Proof.
  pose proof emojiCount_monotone_tiers as (Hmono & Htier & Hevent & Hevents & _).
  split; [apply Hmono; reflexivity|].
  split; [apply (proj1 (Htier 99%Q)); reflexivity|].
  split; [apply (proj1 (proj2 (Htier 100000%Q))); [discriminate | reflexivity]|].
  split; [apply (proj1 (proj2 (proj2 (Htier 500000%Q)))); [discriminate | reflexivity]|].
  split; [apply (proj1 (proj2 (proj2 (proj2 (Htier 1000000%Q))))); [discriminate | reflexivity]|].
  split; [apply (proj2 (proj2 (proj2 (proj2 (Htier 10000000%Q))))); discriminate|].
  split.
  - rewrite (Hevent fooChange (inject_Z 250000) eq_refl). reflexivity.
  - apply (Hevents (withUsd "0xd" (Some (num 99))) fooChange
             (inject_Z 99) (inject_Z 250000) eq_refl eq_refl).
    discriminate.
Defined.
